(** * zapwrapper: the retention-aware logger factory

    A shallow embedding of [pkg/zapwrapper/zapwrapper.go] (function
    [NewLogger]) together with the collaborators it drives: Go's [time]
    formatting, the host file system ([os.Stat], [os.ReadDir],
    [os.Remove]), [sort.Slice], the lumberjack file writer and the part of
    zap's core/encoder machinery that decides what reaches each sink.

    Conventions of the model
    - a wall-clock reading is an integer number of nanoseconds since the
      Unix epoch, read in a zone with a constant offset (UTC);
    - the file system is the state of the one path handed to [NewLogger];
      the source builds every other path as [filepath + "/" + name], and
      the model hands [name] to the operation on that directory;
    - a Go run-time panic is an explicit outcome. *)

From Stdlib Require Import ZArith Ascii String Lia OrdersEx.
From stdpp Require Import gmap strings list fin_maps sorting.

Local Open Scope string_scope.
Local Open Scope Z_scope.

(** ** Decimal digits, shared by [time.appendInt] and [strconv.Itoa] *)

Module strconv.

Definition digitChar (d : Z) : ascii := ascii_of_N (48 + Z.to_N (d mod 10)).

(** The digits of [u >= 0], most significant first; [fuel] bounds the
    number of further divisions by ten. *)
Fixpoint digitsAux (fuel : nat) (u : Z) (acc : string) : string :=
  let acc' := String (digitChar u) acc in
  match fuel with
  | O => acc'
  | S fuel' => if u / 10 =? 0 then acc' else digitsAux fuel' (u / 10) acc'
  end.

Definition digits (u : Z) : string := digitsAux (Z.to_nat (Z.log2 u)) u "".

Definition Itoa (x : Z) : string :=
  (if x <? 0 then "-" else "") +:+ digits (Z.abs x).

End strconv.

(** ** Package [time]: calendar and layout-driven formatting *)

Module time.

(** [time.Time] as the model keeps it: nanoseconds since 1970-01-01. *)
Definition Time : Type := Z.

Definition Second : Z := 1000000000.

Definition Unix (t : Time) : Z := t / Second.

Definition secondsPerDay : Z := 86400.
Definition daysPer400Years : Z := 365 * 400 + 97.
Definition daysPer100Years : Z := 365 * 100 + 24.
Definition daysPer4Years : Z := 365 * 4 + 1.

(** Days between 0001-01-01 and 1970-01-01; Go's own zero is a year
    that is also 1 modulo 400, so the cycle arithmetic is the same. *)
Definition unixToYearOne : Z := 719162.

Definition absDays (t : Time) : Z := Unix t / secondsPerDay + unixToYearOne.
Definition absSecs (t : Time) : Z := Unix t mod secondsPerDay.

Definition isLeap (year : Z) : bool :=
  (Z.rem year 4 =? 0) && (negb (Z.rem year 100 =? 0) || (Z.rem year 400 =? 0)).

Definition daysBefore : list Z :=
  [0; 31; 59; 90; 120; 151; 181; 212; 243; 273; 304; 334; 365].

Definition daysBeforeAt (m : Z) : Z := nth (Z.to_nat m) daysBefore 0.

Record Date := { year : Z; month : Z; day : Z }.

(** [absDate]: cut 400-, 100-, 4- and 1-year cycles off the day count,
    then place the day of the year in its month. *)
Definition absDate (d0 : Z) : Date :=
  let n := d0 / daysPer400Years in
  let y := 400 * n in
  let d := d0 - daysPer400Years * n in
  let n := d / daysPer100Years in
  let n := n - Z.shiftr n 2 in
  let y := y + 100 * n in
  let d := d - daysPer100Years * n in
  let n := d / daysPer4Years in
  let y := y + 4 * n in
  let d := d - daysPer4Years * n in
  let n := d / 365 in
  let n := n - Z.shiftr n 2 in
  let y := y + n in
  let d := d - 365 * n in
  let year := y + 1 in
  let yday := d in
  if isLeap year && (yday =? 31 + 29 - 1) then
    {| year := year; month := 2; day := 29 |}
  else
    let day := if isLeap year && (yday >? 31 + 29 - 1) then yday - 1 else yday in
    let month := day / 31 in
    let end_ := daysBeforeAt (month + 1) in
    let '(month, begin) :=
      if day >=? end_ then (month + 1, end_) else (month, daysBeforeAt month) in
    {| year := year; month := month + 1; day := day - begin + 1 |}.

Definition Date_of (t : Time) : Date := absDate (absDays t).

Definition Hour (t : Time) : Z := absSecs t / 3600.
Definition Minute (t : Time) : Z := (absSecs t mod 3600) / 60.
Definition Second_of (t : Time) : Z := absSecs t mod 60.

(** *** [appendInt]: decimal rendering with zero padding *)

Fixpoint zeros (n : nat) : string :=
  match n with O => "" | S n' => String "0" (zeros n') end.

Definition appendInt (x : Z) (width : nat) : string :=
  let sign := if x <? 0 then "-" else "" in
  let ds := strconv.digits (Z.abs x) in
  sign +:+ zeros (width - String.length ds) +:+ ds.

(** *** Layouts *)

Inductive Chunk :=
| stdZeroMonth      (* 01 *)
| stdZeroDay        (* 02 *)
| stdZeroMinute     (* 04 *)
| stdZeroSecond     (* 05 *)
| stdYear           (* 06 *)
| stdHour           (* 15 *)
| stdLongYear       (* 2006 *)
| Lit (c : ascii).

Definition std2 (c0 c1 : ascii) : option Chunk :=
  if (c0 =? "0")%char then
    if (c1 =? "1")%char then Some stdZeroMonth
    else if (c1 =? "2")%char then Some stdZeroDay
    else if (c1 =? "4")%char then Some stdZeroMinute
    else if (c1 =? "5")%char then Some stdZeroSecond
    else if (c1 =? "6")%char then Some stdYear
    else None
  else if (c0 =? "1")%char && (c1 =? "5")%char then Some stdHour
  else None.

Definition is2006 (c0 c1 c2 c3 : ascii) : bool :=
  (c0 =? "2")%char && (c1 =? "0")%char && (c2 =? "0")%char && (c3 =? "6")%char.

(** [nextStdChunk], iterated, for the verbs that occur in the layouts of
    this package ([01 02 04 05 06 15 2006]); the separators of those
    layouts ([-], [_] before [1], [:], space) are copied as Go copies them. *)
Fixpoint parseLayout (layout : string) : list Chunk :=
  match layout with
  | EmptyString => []
  | String c0 r0 =>
      let lit := Lit c0 :: parseLayout r0 in
      match r0 with
      | EmptyString => lit
      | String c1 r1 =>
          match std2 c0 c1 with
          | Some k => k :: parseLayout r1
          | None =>
              match r1 with
              | String c2 (String c3 r3) =>
                  if is2006 c0 c1 c2 c3 then stdLongYear :: parseLayout r3 else lit
              | _ => lit
              end
          end
      end
  end.

Definition formatChunk (t : Time) (k : Chunk) : string :=
  match k with
  | stdZeroMonth => appendInt (month (Date_of t)) 2
  | stdZeroDay => appendInt (day (Date_of t)) 2
  | stdZeroMinute => appendInt (Minute t) 2
  | stdZeroSecond => appendInt (Second_of t) 2
  | stdYear => appendInt (Z.rem (Z.abs (year (Date_of t))) 100) 2
  | stdHour => appendInt (Hour t) 2
  | stdLongYear => appendInt (year (Date_of t)) 4
  | Lit c => String c ""
  end.

Definition Format (t : Time) (layout : string) : string :=
  foldr (fun k acc => formatChunk t k +:+ acc) "" (parseLayout layout).

End time.

(** ** Package [zapcore]: levels, entries, the console encoder, cores *)

Module zapcore.

(** [type Level int8]. *)
Definition Level : Type := Z.

Definition DebugLevel : Level := -1.
Definition InfoLevel : Level := 0.
Definition WarnLevel : Level := 1.
Definition ErrorLevel : Level := 2.
Definition DPanicLevel : Level := 3.
Definition PanicLevel : Level := 4.
Definition FatalLevel : Level := 5.

Definition CapitalString (l : Level) : string :=
  if l =? DebugLevel then "DEBUG"
  else if l =? InfoLevel then "INFO"
  else if l =? WarnLevel then "WARN"
  else if l =? ErrorLevel then "ERROR"
  else if l =? DPanicLevel then "DPANIC"
  else if l =? PanicLevel then "PANIC"
  else if l =? FatalLevel then "FATAL"
  else "LEVEL(" +:+ strconv.Itoa l +:+ ")".

(** [Level.Enabled]: [lvl >= l]. *)
Definition Enabled (l lvl : Level) : bool := lvl >=? l.

Definition CapitalLevelEncoder (l : Level) : string := CapitalString l.

Definition TimeEncoderOfLayout (layout : string) (t : time.Time) : string :=
  time.Format t layout.

Definition DefaultLineEnding : string := String (ascii_of_N 10) "".
Definition ConsoleSeparator : string := String (ascii_of_N 9) "".

(** The fields this development emits: [zap.Int64] and [zap.Bool]. *)
Inductive FieldType := Int64Type | BoolType.

Record Field := { Key : string; Type_ : FieldType; Integer : Z }.

Record Entry := {
  Level_ : Level;
  Time_ : time.Time;
  LoggerName : string;
  Message : string;
  Caller : option string;
  Stack : string;
}.

Record EncoderConfig := {
  TimeKey : string;
  LevelKey : string;
  NameKey : string;
  CallerKey : string;
  MessageKey : string;
  StacktraceKey : string;
  LineEnding : string;
  EncodeLevel : Level → string;
  EncodeTime : time.Time → string;
}.

Definition nonEmpty (s : string) : bool := negb (String.eqb s "").

(** The spaced JSON rendering of the structured context; keys are taken
    to need no escaping. *)
Definition fieldValue (f : Field) : string :=
  match Type_ f with
  | Int64Type => strconv.Itoa (Integer f)
  | BoolType => if Integer f =? 1 then "true" else "false"
  end.

Definition quote : string := String (ascii_of_N 34) "".

Definition addField (buf : string) (f : Field) : string :=
  (if nonEmpty buf then buf +:+ ", " else buf)
    +:+ quote +:+ Key f +:+ quote +:+ ": " +:+ fieldValue f.

Definition addFields (fields : list Field) : string := foldl addField "" fields.

Definition join (sep : string) (elems : list string) : string :=
  match elems with
  | [] => ""
  | e :: es => foldl (fun acc x => acc +:+ sep +:+ x) e es
  end.

Definition addSeparatorIfNecessary (line : string) : string :=
  if nonEmpty line then line +:+ ConsoleSeparator else line.

(** [consoleEncoder.EncodeEntry]. *)
Definition EncodeEntry (c : EncoderConfig) (ent : Entry) (fields : list Field) : string :=
  let arr : list string := [] in
  let arr := if nonEmpty (TimeKey c) then (arr ++ [EncodeTime c (Time_ ent)])%list else arr in
  let arr := if nonEmpty (LevelKey c) then (arr ++ [EncodeLevel c (Level_ ent)])%list else arr in
  let arr :=
    if nonEmpty (LoggerName ent) && nonEmpty (NameKey c)
    then (arr ++ [LoggerName ent])%list else arr in
  let arr :=
    match Caller ent with
    | Some short => if nonEmpty (CallerKey c) then (arr ++ [short])%list else arr
    | None => arr
    end in
  let line := join ConsoleSeparator arr in
  let line :=
    if nonEmpty (MessageKey c)
    then addSeparatorIfNecessary line +:+ Message ent else line in
  let context := addFields fields in
  let line :=
    if nonEmpty context
    then addSeparatorIfNecessary line +:+ "{" +:+ context +:+ "}" else line in
  let line :=
    if nonEmpty (Stack ent) && nonEmpty (StacktraceKey c)
    then line +:+ DefaultLineEnding +:+ Stack ent else line in
  line +:+ LineEnding c.

(** Where a core writes: [os.Stdout], or a lumberjack writer. *)
Inductive WriteSyncer :=
| Stdout
| Lumberjack (Filename : string).

(** [NewCore enc ws enab]. *)
Record ioCore := NewCore {
  enc : EncoderConfig;
  out : WriteSyncer;
  enab : Level;
}.

(** [NewTee]: the cores, in order. *)
Definition NewTee (cores : list ioCore) : list ioCore := cores.

(** [Check] keeps the cores whose level enabler accepts the entry and
    [Write] hands each of them the encoded entry. *)
Definition Write (core : list ioCore) (ent : Entry) (fields : list Field)
  : list (WriteSyncer * string) :=
  map (fun c => (out c, EncodeEntry (enc c) ent fields))
      (filter (fun c => Enabled (enab c) (Level_ ent) = true) core).

(** What a checked entry does once the cores that took it have written
    it: nothing more, [panic] with the message, or [os.Exit(1)]. *)
Inductive CheckWriteAction :=
| WriteThenNoop
| WriteThenPanic
| WriteThenFatal.

End zapcore.

(** ** Package [sort] *)

Module sort.

Fixpoint insert_by {A} (less : A → A → bool) (x : A) (l : list A) : list A :=
  match l with
  | [] => [x]
  | y :: l' => if less y x then y :: insert_by less x l' else x :: l
  end.

(** [sort.Slice]: the slice reordered so that no element is [less] than
    an earlier one (insertion sort; on keys that are pairwise distinct,
    as the names of a directory are, every sort gives this result). *)
Definition Slice {A} (less : A → A → bool) (l : list A) : list A :=
  foldr (insert_by less) [] l.

End sort.

(** ** Package [os]: the path handed to the factory, and the process *)

Module os.

Inductive Node :=
| RegularFile (content : string)
| SubDir (children : nat).

(** What sits at the path: nothing, something that is not a directory,
    or a directory. [readErr = Some n] is a directory whose listing
    fails after [n] entries have been read ([Some 0] covers a directory
    that cannot be opened for reading). *)
Inductive PathState :=
| Missing
| NotDir
| Dir (entries : gmap string Node) (readErr : option nat).

Record DirEntry := { Name : string; IsDir : bool }.

Record World := {
  fs : PathState;
  stdout : list string;      (* one item per write to os.Stdout *)
  removeCalls : list string; (* the paths handed to os.Remove, oldest first *)
}.

Definition setFs (st : PathState) (w : World) : World :=
  {| fs := st; stdout := stdout w; removeCalls := removeCalls w |}.

(** A Go call returns, panics, or ends the process ([os.Exit]). *)
Inductive Outcome (A : Type) :=
| Returned (a : A)
| Panicked (msg : string)
| Exited (code : Z).
Arguments Returned {A} a.
Arguments Panicked {A} msg.
Arguments Exited {A} code.

Definition M (A : Type) : Type := World → Outcome (A * World).

#[global] Instance M_ret : MRet M := fun A a w => Returned (a, w).
#[global] Instance M_bind : MBind M := fun A B f m w =>
  match m w with
  | Returned (a, w') => f a w'
  | Panicked msg => Panicked msg
  | Exited code => Exited code
  end.

Definition panic {A} (msg : string) : M A := fun _ => Panicked msg.

(** [os.Exit(code)]. *)
Definition Exit {A} (code : Z) : M A := fun _ => Exited code.

(** [os.Stat(path)]: [true] when [err == nil]. *)
Definition Stat : M bool := fun w =>
  Returned (match fs w with Missing => false | _ => true end, w).

Definition entryOf (kv : string * Node) : DirEntry :=
  {| Name := kv.1;
     IsDir := match kv.2 with SubDir _ => true | RegularFile _ => false end |}.

Definition byName (a b : DirEntry) : bool := (Name a <? Name b)%string.

(** [os.ReadDir(path)]: the entries sorted by file name and [true] when
    [err == nil]. A path that cannot be opened as a directory gives no
    entry; an error while reading gives the entries read before it. *)
Definition ReadDir : M (list DirEntry * bool) := fun w =>
  Returned
    (match fs w with
     | Missing | NotDir => ([], false)
     | Dir m None => (sort.Slice byName (entryOf <$> map_to_list m), true)
     | Dir m (Some n) => (sort.Slice byName (entryOf <$> take n (map_to_list m)), false)
     end, w).

(** [os.Remove(dir + "/" + name)]: unlinks a file or an empty directory;
    the error of any other case is the caller's to look at. *)
Definition Remove (dir name : string) : M unit := fun w =>
  let w' := {| fs := fs w; stdout := stdout w;
               removeCalls := removeCalls w ++ [dir +:+ "/" +:+ name] |} in
  Returned
    (tt,
     match fs w with
     | Dir m e =>
         match m !! name with
         | Some (RegularFile _) | Some (SubDir O) => setFs (Dir (delete name m) e) w'
         | _ => w'
         end
     | _ => w'
     end).

(** A write to [os.Stdout]. *)
Definition WriteStdout (data : string) : M unit := fun w =>
  Returned (tt, {| fs := fs w; stdout := stdout w ++ [data];
                   removeCalls := removeCalls w |}).

End os.

(** ** Package [lumberjack]: the file writer *)

Module lumberjack.

(** The last element of a slash-separated path. *)
Fixpoint BaseAux (acc path : string) : string :=
  match path with
  | EmptyString => acc
  | String c r => if (c =? "/")%char then BaseAux "" r else BaseAux (acc +:+ String c "") r
  end.

Definition Base (path : string) : string := BaseAux "" path.

(** [Logger.Write] on a writer with [Filename] set and every other
    option at its default: the directory of the file is created when it
    is missing, the file is created or, when it exists, appended to; an
    error leaves the file system alone. Writes stay far below the
    rotation size. The directory of [Filename] is the modelled path. *)
Definition Write (Filename data : string) : os.M unit := fun w =>
  let name := Base Filename in
  os.Returned
    (tt,
     match os.fs w with
     | os.Missing => os.setFs (os.Dir {[ name := os.RegularFile data ]} None) w
     | os.NotDir => w
     | os.Dir m e =>
         match m !! name with
         | None => os.setFs (os.Dir (<[ name := os.RegularFile data ]> m) e) w
         | Some (os.RegularFile old) =>
             os.setFs (os.Dir (<[ name := os.RegularFile (old +:+ data) ]> m) e) w
         | Some (os.SubDir _) => w
         end
     end).

End lumberjack.

(** ** Package [zap]: the logger handle *)

Module zap.

Record Logger := New { core : list zapcore.ioCore }.

Definition writeTo (ws : zapcore.WriteSyncer) (data : string) : os.M unit :=
  match ws with
  | zapcore.Stdout => os.WriteStdout data
  | zapcore.Lumberjack Filename => lumberjack.Write Filename data
  end.

Fixpoint writeAll (ws : list (zapcore.WriteSyncer * string)) : os.M unit :=
  match ws with
  | [] => mret tt
  | (s, data) :: rest => _ ← writeTo s data; writeAll rest
  end.

(** The entry a handle made by [New] with no option builds: no name, no
    caller, no stack trace; its time is a reading of the clock, never
    Go's zero time, so the encoder always renders it. *)
Definition entry (lvl : zapcore.Level) (now : time.Time) (msg : string) : zapcore.Entry :=
  {| zapcore.Level_ := lvl; zapcore.Time_ := now; zapcore.LoggerName := "";
     zapcore.Message := msg; zapcore.Caller := None; zapcore.Stack := "" |}.

(** The switch on the level in the logger's check, for a handle made by
    [New] with no option (not in development mode, no hook): what
    follows the write. It is set whether or not a core takes the entry,
    so a Panic record panics and a Fatal record exits even when the
    level given to the factory keeps them out of both sinks. *)
Definition after (lvl : zapcore.Level) : zapcore.CheckWriteAction :=
  if lvl =? zapcore.PanicLevel then zapcore.WriteThenPanic
  else if lvl =? zapcore.FatalLevel then zapcore.WriteThenFatal
  else zapcore.WriteThenNoop.

Definition OnWrite (action : zapcore.CheckWriteAction) (msg : string) : os.M unit :=
  match action with
  | zapcore.WriteThenNoop => mret tt
  | zapcore.WriteThenPanic => os.panic msg
  | zapcore.WriteThenFatal => os.Exit 1
  end.

(** The first half of a checked entry's write: the cores that took the
    entry write it, in the order of the tee. *)
Definition write (log : Logger) (lvl : zapcore.Level) (now : time.Time)
    (msg : string) (fields : list zapcore.Field) : os.M unit :=
  writeAll (zapcore.Write (core log) (entry lvl now msg) fields).

(** [Debug], [Info], [Warn], [Error], [DPanic], [Panic] and [Fatal] are
    [Log] at their level: check the core, write to the cores that took
    the entry, then do what the level asks for. *)
Definition Log (log : Logger) (lvl : zapcore.Level) (now : time.Time)
    (msg : string) (fields : list zapcore.Field) : os.M unit :=
  _ ← write log lvl now msg fields; OnWrite (after lvl) msg.

End zap.

(** ** Package [zapwrapper] *)

Module zapwrapper.

Definition DefaultFilepath : string := "./logs".
Definition DefaultMaxSize : Z := 10.
Definition DefaultMaxBackups : Z := 5.
Definition DefaultMaxAge : Z := 30.
Definition DefaultLogLevel : zapcore.Level := zapcore.DebugLevel.

Definition esc : string := String (ascii_of_N 27) "".

Definition colorRed : string := esc +:+ "[31m".
Definition colorGreen : string := esc +:+ "[32m".
Definition colorYellow : string := esc +:+ "[33m".
Definition colorMagenta : string := esc +:+ "[35m".
Definition colorCyan : string := esc +:+ "[36m".
Definition colorReset : string := esc +:+ "[0m".

(** The [switch level] of the console [EncodeLevel]; a level outside
    the seven cases leaves [color] at its zero value. *)
Definition colorFor (level : zapcore.Level) : string :=
  if level =? zapcore.DebugLevel then colorCyan
  else if level =? zapcore.InfoLevel then colorGreen
  else if level =? zapcore.WarnLevel then colorYellow
  else if level =? zapcore.ErrorLevel then colorRed
  else if level =? zapcore.DPanicLevel then colorMagenta
  else if level =? zapcore.PanicLevel then colorMagenta
  else if level =? zapcore.FatalLevel then colorRed
  else "".

Definition consoleEncodeLevel (level : zapcore.Level) : string :=
  colorFor level +:+ zapcore.CapitalString level +:+ colorReset.

Definition consoleEncoderConfig : zapcore.EncoderConfig :=
  {| zapcore.TimeKey := "time";
     zapcore.LevelKey := "level";
     zapcore.NameKey := "logger";
     zapcore.CallerKey := "caller";
     zapcore.MessageKey := "msg";
     zapcore.StacktraceKey := "stacktrace";
     zapcore.LineEnding := zapcore.DefaultLineEnding;
     zapcore.EncodeLevel := consoleEncodeLevel;
     zapcore.EncodeTime := zapcore.TimeEncoderOfLayout "02-01-06 15:04:05" |}.

Definition fileEncoderConfig : zapcore.EncoderConfig :=
  {| zapcore.TimeKey := "time";
     zapcore.LevelKey := "level";
     zapcore.NameKey := "logger";
     zapcore.CallerKey := "caller";
     zapcore.MessageKey := "msg";
     zapcore.StacktraceKey := "stacktrace";
     zapcore.LineEnding := zapcore.DefaultLineEnding;
     zapcore.EncodeLevel := zapcore.CapitalLevelEncoder;
     zapcore.EncodeTime := zapcore.TimeEncoderOfLayout "02-01-2006 15:04:05" |}.

Definition timestampOf (now : time.Time) : string :=
  time.Format now "02-01-06_15-04-05".

Definition filenameOf (filepath : string) (now : time.Time) : string :=
  filepath +:+ "/logs_" +:+ timestampOf now +:+ ".log".

(** [NewLogger(filepath, maxBackup, logLevel)], with the reading of
    [time.Now()] as [now]. *)
Definition NewLogger (now : time.Time) (filepath : string) (maxBackup : Z)
    (logLevel : zapcore.Level) : os.M zap.Logger :=
  let filename := filenameOf filepath now in
  let consoleCore :=
    zapcore.NewCore consoleEncoderConfig zapcore.Stdout logLevel in
  let fileCore :=
    zapcore.NewCore fileEncoderConfig (zapcore.Lumberjack filename) logLevel in
  let core := zapcore.NewTee [consoleCore; fileCore] in
  statOk ← os.Stat;
  _ ← (if statOk : bool then
         listing ← os.ReadDir;
         let files := listing.1 in (* files, _ := os.ReadDir(filepath) *)
         if Z.of_nat (length files) >? maxBackup then
           let files :=
             sort.Slice (fun a b => (os.Name a <? os.Name b)%string) files in
           match files !! 0%nat with
           | Some oldest => os.Remove filepath (os.Name oldest)
           | None => os.panic "index out of range [0] with length 0"
           end
         else mret tt
       else mret tt);
  mret (zap.New core).

(** *** Runs: a sequence of sessions

    A session is a call of the factory followed by the records written
    through its handle before the factory is called again. A record at
    Panic or Fatal level is the last of its session: the cores write it,
    then the handle panics or exits ([zap.after]), and what the session
    had left to write is not written. The run goes on with the next
    session: the next start of the program, or a recovered panic. A
    session gives back how it ended: [WriteThenNoop] when every [Log]
    returned, [WriteThenPanic] or [WriteThenFatal] when the handle
    panicked or exited after its last write. So a run that returns says
    what the sessions left in the world, not that the program returned
    from each [Log]. *)

Record Record_ := { level : zapcore.Level; msg : string; fields : list zapcore.Field }.

Record Call := { now : time.Time; records : list Record_ }.

Fixpoint emit (log : zap.Logger) (at_ : time.Time) (rs : list Record_)
  : os.M zapcore.CheckWriteAction :=
  match rs with
  | [] => mret zapcore.WriteThenNoop
  | r :: rest =>
      _ ← zap.write log (level r) at_ (msg r) (fields r);
      match zap.after (level r) with
      | zapcore.WriteThenNoop => emit log at_ rest
      | ending => mret ending
      end
  end.

Definition call (filepath : string) (maxBackup : Z) (logLevel : zapcore.Level)
    (c : Call) : os.M zapcore.CheckWriteAction :=
  log ← NewLogger (now c) filepath maxBackup logLevel;
  emit log (now c) (records c).

Fixpoint run (filepath : string) (maxBackup : Z) (logLevel : zapcore.Level)
    (cs : list Call) : os.M unit :=
  match cs with
  | [] => mret tt
  | c :: rest =>
      _ ← call filepath maxBackup logLevel c; run filepath maxBackup logLevel rest
  end.

(** *** Programs: calls of the factory and records through any handle

    A step of a program is a call of the factory, or a [Log] of a record
    through the handle of an earlier call, the [handle]-th one made,
    however many calls ago. A [Log] that panics or exits ends the
    program. A record through a handle that was never made is no step of
    a program, and is passed over. *)

Inductive Step :=
| Open (now : time.Time)
| Put (handle : nat) (at_ : time.Time) (r : Record_).

Fixpoint play (filepath : string) (maxBackup : Z) (logLevel : zapcore.Level)
    (steps : list Step) (handles : list zap.Logger) : os.M (list zap.Logger) :=
  match steps with
  | [] => mret handles
  | Open now :: rest =>
      log ← NewLogger now filepath maxBackup logLevel;
      play filepath maxBackup logLevel rest (handles ++ [log])
  | Put i at_ r :: rest =>
      match handles !! i with
      | Some log =>
          _ ← zap.Log log (level r) at_ (msg r) (fields r);
          play filepath maxBackup logLevel rest handles
      | None => play filepath maxBackup logLevel rest handles
      end
  end.

Definition emptyDir : os.World :=
  {| os.fs := os.Dir ∅ None; os.stdout := []; os.removeCalls := [] |}.

Definition count (w : os.World) : nat :=
  match os.fs w with os.Dir m _ => size m | _ => O end.

End zapwrapper.

(** * zapwrapper_test.go: the package's test

    [TestLogger] makes the directory, builds one handle, then five times
    builds a handle, writes one INFO record through it and sleeps a
    second; it then lists the directory and fails when the listing
    fails, when it holds more than [maxBackup + 1] entries, or when an
    entry is not a regular file with a name. The deferred calls run when
    the body is done, the last deferred first.

    [clock i] is the [i]-th reading of [time.Now()] in the run: each
    [NewLogger] takes one, and so does each record. [time.Sleep] shows
    in the readings only, and no property below needs them to go up.
    The model has regular files and directories only, so an entry is
    regular exactly when it is not a directory. *)

Module zapwrapper_test.

Definition testLogDir : string := "./test_logs".

(** [os.Mkdir(path, 0755)]: makes the directory when nothing is at the
    path; fails, and changes nothing, when something is. *)
Definition Mkdir : os.M unit := fun w =>
  os.Returned
    (tt, match os.fs w with
         | os.Missing => os.setFs (os.Dir ∅ None) w
         | _ => w
         end).

(** [os.RemoveAll(path)]: removes the path and what it holds. A directory
    that is not empty and whose listing fails stays: [RemoveAll] stops
    at the error of the listing. *)
Definition RemoveAll : os.M unit := fun w =>
  os.Returned
    (tt, match os.fs w with
         | os.Dir m (Some _) =>
             if decide (m = ∅) then os.setFs os.Missing w else w
         | _ => os.setFs os.Missing w
         end).

(** [Sync] of a [zap.Logger]: the writers of the two cores hold no buffer
    of their own, every record has been written when [Info] returns. *)
Definition Sync (log : zap.Logger) : os.M unit := mret tt.

Definition setup : os.M unit := Mkdir.

Definition teardown : os.M unit := RemoveAll.

Definition maxBackup : Z := 3.

(** Why [t.Fatalf] was called. *)
Inductive Failure :=
| ReadFailed
| TooMany (limit found : Z)
| FoundDirectory (name : string)
| NotRegular (name : string)
| EmptyName.

Inductive Verdict :=
| Pass
| Fatal (why : Failure).

Definition IsRegular (e : os.DirEntry) : bool := negb (os.IsDir e).

Definition iterationField (i : nat) : zapcore.Field :=
  {| zapcore.Key := "iteration"; zapcore.Type_ := zapcore.Int64Type;
     zapcore.Integer := Z.of_nat i |}.

(** The body of the loop, for [i]. *)
Definition iteration (clock : nat → time.Time) (i : nat) : os.M unit :=
  logger ← zapwrapper.NewLogger (clock (1 + 2 * i)%nat) testLogDir maxBackup
              zapcore.DebugLevel;
  _ ← zap.Log logger zapcore.InfoLevel (clock (2 + 2 * i)%nat)
        "This is a test log message" [iterationField i];
  Sync logger.

Fixpoint loop (clock : nat → time.Time) (indices : list nat) : os.M unit :=
  match indices with
  | [] => mret tt
  | i :: rest => _ ← iteration clock i; loop clock rest
  end.

(** The checks on the entries, the first failure ending them. *)
Fixpoint checkFiles (files : list os.DirEntry) : Verdict :=
  match files with
  | [] => Pass
  | file :: rest =>
      if os.IsDir file then Fatal (FoundDirectory (os.Name file))
      else if negb (IsRegular file) then Fatal (NotRegular (os.Name file))
      else if (String.length (os.Name file) =? 0)%nat then Fatal EmptyName
      else checkFiles rest
  end.

Definition checkDirectory : os.M Verdict :=
  '(files, ok) ← os.ReadDir;
  if negb ok then mret (Fatal ReadFailed)
  else if Z.of_nat (length files) >? maxBackup + 1
       then mret (Fatal (TooMany (maxBackup + 1) (Z.of_nat (length files))))
       else mret (checkFiles files).

Definition TestLogger (clock : nat → time.Time) : os.M Verdict :=
  _ ← setup;
  logger ← zapwrapper.NewLogger (clock 0%nat) testLogDir maxBackup zapcore.DebugLevel;
  _ ← loop clock (seq 0 5);
  verdict ← checkDirectory;
  _ ← Sync logger;
  _ ← teardown;
  mret verdict.

End zapwrapper_test.

(** * Notions used in the statements *)

Implicit Types (m : gmap string os.Node) (w : os.World).
Implicit Types (now : time.Time) (filepath : string) (maxBackup : Z).
Implicit Types (logLevel : zapcore.Level).

(** ** Order of names *)

(** The byte-wise order of Go's [<] on strings, strict and large. *)
Definition slt (a b : string) : Prop := (a ?= b)%string = Lt.

Definition sle (a b : string) : Prop := (a ?= b)%string ≠ Gt.

(** What [os.ReadDir] returns for a directory that reads without error. *)
Definition listing m : list os.DirEntry :=
  sort.Slice os.byName (os.entryOf <$> map_to_list m).

(** [name] is an entry of [m] and no entry has a smaller name. *)
Definition least m (name : string) : Prop :=
  is_Some (m !! name) ∧ ∀ other, is_Some (m !! other) → sle name other.

(** ** Worlds *)

Definition inWorld (st : os.PathState) : os.World :=
  {| os.fs := st; os.stdout := []; os.removeCalls := [] |}.

(** The world a call leaves behind, when it returns. *)
Definition worldAfter {A} (o : os.Outcome (A * os.World)) : option os.World :=
  match o with
  | os.Returned (_, w) => Some w
  | os.Panicked _ | os.Exited _ => None
  end.

Definition hasEntry (name : string) w : bool :=
  match os.fs w with
  | os.Dir m _ => bool_decide (is_Some (m !! name))
  | _ => false
  end.

(** [os.Remove] succeeds on a file and on an empty directory. *)
Definition removable (node : os.Node) : bool :=
  match node with
  | os.RegularFile _ | os.SubDir O => true
  | os.SubDir (S _) => false
  end.

(** The world after [os.Remove(dir + "/" + name)]. *)
Definition afterRemove (dir name : string) w : os.World :=
  match os.Remove dir name w with
  | os.Returned (_, w') => w'
  | os.Panicked _ | os.Exited _ => w
  end.

(** The state of the path after the writer has written [data] to the
    file called [name]. *)
Definition written (name data : string) (st : os.PathState) : os.PathState :=
  match st with
  | os.Missing => os.Dir {[ name := os.RegularFile data ]} None
  | os.NotDir => os.NotDir
  | os.Dir m e =>
      match m !! name with
      | None => os.Dir (<[ name := os.RegularFile data ]> m) e
      | Some (os.RegularFile old) =>
          os.Dir (<[ name := os.RegularFile (old +:+ data) ]> m) e
      | Some (os.SubDir _) => os.Dir m e
      end
  end.

(** ** Time stamps and file names *)

(** Two decimal digits. *)
Definition pad2 (x : Z) : string :=
  String (strconv.digitChar (x / 10)) (String (strconv.digitChar x) "").

(** The timestamp of the file name, as the layout renders it: the date
    with its trailing separator, then the clock. *)
Definition datePart (t : time.Time) : string :=
  time.appendInt (time.day (time.Date_of t)) 2 +:+ "-" +:+
  time.appendInt (time.month (time.Date_of t)) 2 +:+ "-" +:+
  time.appendInt (Z.rem (Z.abs (time.year (time.Date_of t))) 100) 2 +:+ "_".

Definition clockPart (t : time.Time) : string :=
  pad2 (time.Hour t) +:+ "-" +:+ pad2 (time.Minute t) +:+ "-" +:+
  pad2 (time.Second_of t).

(** [DD-MM-YY_HH-MM-SS], each field as two decimal digits. *)
Definition zeroPadded (t : time.Time) : string :=
  pad2 (time.day (time.Date_of t)) +:+ "-" +:+
  pad2 (time.month (time.Date_of t)) +:+ "-" +:+
  pad2 (Z.rem (Z.abs (time.year (time.Date_of t))) 100) +:+ "_" +:+
  pad2 (time.Hour t) +:+ "-" +:+ pad2 (time.Minute t) +:+ "-" +:+
  pad2 (time.Second_of t).

(** The name of the file inside the directory. *)
Definition logName (t : time.Time) : string :=
  "logs_" +:+ zapwrapper.timestampOf t +:+ ".log".

(** Two readings of the clock on one calendar day. *)
Definition sameDay (t1 t2 : time.Time) : Prop :=
  time.Unix t1 / time.secondsPerDay = time.Unix t2 / time.secondsPerDay.

Fixpoint noSlash (s : string) : bool :=
  match s with
  | EmptyString => true
  | String c r => negb (c =? "/")%char && noSlash r
  end.

(** The two halves of [absDate]: the year and the day in it, then the
    month and the day in it. *)
Definition yearDay (d0 : Z) : Z * Z :=
  let n := d0 / time.daysPer400Years in
  let y := 400 * n in
  let d := d0 - time.daysPer400Years * n in
  let n := d / time.daysPer100Years in
  let n := n - Z.shiftr n 2 in
  let y := y + 100 * n in
  let d := d - time.daysPer100Years * n in
  let n := d / time.daysPer4Years in
  let y := y + 4 * n in
  let d := d - time.daysPer4Years * n in
  let n := d / 365 in
  let n := n - Z.shiftr n 2 in
  let y := y + n in
  let d := d - 365 * n in
  (y + 1, d).

Definition monthDay (leap : bool) (yday : Z) : Z * Z :=
  if leap && (yday =? 31 + 29 - 1) then (2, 29)
  else
    let day := if leap && (yday >? 31 + 29 - 1) then yday - 1 else yday in
    let month := day / 31 in
    let end_ := time.daysBeforeAt (month + 1) in
    let '(month, begin) :=
      if day >=? end_ then (month + 1, end_) else (month, time.daysBeforeAt month) in
    (month + 1, day - begin + 1).

(** ** Handles and lines *)

(** The handle [NewLogger] builds: a tee of the console core and the
    file core, both at [logLevel]. *)
Definition handleOf (now : time.Time) (filepath : string) (logLevel : zapcore.Level)
  : zap.Logger :=
  zap.New
    (zapcore.NewTee
       [zapcore.NewCore zapwrapper.consoleEncoderConfig zapcore.Stdout logLevel;
        zapcore.NewCore zapwrapper.fileEncoderConfig
          (zapcore.Lumberjack (zapwrapper.filenameOf filepath now)) logLevel]).

Definition consoleLine (ent : zapcore.Entry) (fields : list zapcore.Field) : string :=
  zapcore.EncodeEntry zapwrapper.consoleEncoderConfig ent fields.

Definition fileLine (ent : zapcore.Entry) (fields : list zapcore.Field) : string :=
  zapcore.EncodeEntry zapwrapper.fileEncoderConfig ent fields.

(** The structured context as the console encoder appends it. *)
Definition contextOf (fields : list zapcore.Field) : string :=
  if zapcore.nonEmpty (zapcore.addFields fields)
  then zapcore.ConsoleSeparator +:+ "{" +:+ zapcore.addFields fields +:+ "}"
  else "".

(** What follows the level on a line: message, context, line ending. *)
Definition lineTail (msg : string) (fields : list zapcore.Field) : string :=
  zapcore.ConsoleSeparator +:+ msg +:+ contextOf fields +:+ zapcore.DefaultLineEnding.

(** The world after one record has gone through a handle. *)
Definition logged now lvl (at_ : time.Time) (msg : string)
    (fields : list zapcore.Field) w : os.World :=
  {| os.fs := written (logName now) (fileLine (zap.entry lvl at_ msg) fields) (os.fs w);
     os.stdout := os.stdout w ++ [consoleLine (zap.entry lvl at_ msg) fields];
     os.removeCalls := os.removeCalls w |}.

(** ** Runs *)

(** Every entry is one that [os.Remove] can remove. *)
Definition allRemovable m : Prop :=
  ∀ name node, m !! name = Some node → removable node = true.

(** A directory of removable entries that lists without error and holds
    at most [bound] entries. *)
Definition bounded (bound : Z) w : Prop :=
  ∃ m, os.fs w = os.Dir m None ∧ allRemovable m ∧ Z.of_nat (size m) ≤ bound.

(** The same while a handle is writing to [name]: one more entry is
    allowed once [name] is there. *)
Definition boundedWith (name : string) (bound : Z) w : Prop :=
  ∃ m, os.fs w = os.Dir m None ∧ allRemovable m
       ∧ (Z.of_nat (size m) ≤ bound
          ∨ (is_Some (m !! name) ∧ Z.of_nat (size m) ≤ bound + 1)).

(** Consecutive calls are at least one second apart. *)
Definition oneSecondApart (cs : list zapwrapper.Call) : Prop :=
  ∀ i c1 c2, cs !! i = Some c1 → cs !! S i = Some c2 →
             zapwrapper.now c1 + time.Second ≤ zapwrapper.now c2.

(** The call writes exactly one record, and the handle accepts it. *)
Definition writesOne logLevel (c : zapwrapper.Call) : Prop :=
  ∃ r, zapwrapper.records c = [r] ∧ logLevel ≤ zapwrapper.level r.

(** The calls of the package's own test: one INFO record per call. *)
Definition testCall (second : Z) : zapwrapper.Call :=
  {| zapwrapper.now := second * time.Second;
     zapwrapper.records :=
       [ {| zapwrapper.level := zapcore.InfoLevel;
            zapwrapper.msg := "This is a test log message";
            zapwrapper.fields :=
              [ {| zapcore.Key := "iteration"; zapcore.Type_ := zapcore.Int64Type;
                   zapcore.Integer := 0 |} ] |} ] |}.

(** Five calls, one second apart, from 10 March 2024, 12:00:00. *)
Definition testCalls : list zapwrapper.Call :=
  testCall <$> [1710072000; 1710072001; 1710072002; 1710072003; 1710072004].

(** ** Programs *)

(** Every record goes through the handle made last: a handle writes only
    before the factory is called again. [made] counts the handles made
    so far. *)
Fixpoint latestOnly (made : nat) (steps : list zapwrapper.Step) : bool :=
  match steps with
  | [] => true
  | zapwrapper.Open _ :: rest => latestOnly (S made) rest
  | zapwrapper.Put i _ _ :: rest => (S i =? made)%nat && latestOnly made rest
  end.

(** The [Log] of the step returns: its record is at neither Panic nor
    Fatal level. *)
Definition returning (step : zapwrapper.Step) : Prop :=
  match step with
  | zapwrapper.Open _ => True
  | zapwrapper.Put _ _ r => zap.after (zapwrapper.level r) = zapcore.WriteThenNoop
  end.

(** The readings of the clock at the calls of the factory, in order. *)
Fixpoint openings (steps : list zapwrapper.Step) : list time.Time :=
  match steps with
  | [] => []
  | zapwrapper.Open now :: rest => now :: openings rest
  | zapwrapper.Put _ _ _ :: rest => openings rest
  end.

(** Consecutive calls of the factory are at least one second apart. *)
Definition callsApart (steps : list zapwrapper.Step) : Prop :=
  ∀ i t1 t2, openings steps !! i = Some t1 → openings steps !! S i = Some t2 →
             t1 + time.Second ≤ t2.

(** The invariant a program keeps when every record goes through the
    handle made last: the directory is within [bound] entries, one more
    once the file of that handle is there. *)
Definition keptBy filepath logLevel (bound : Z) (handles : list zap.Logger) w : Prop :=
  match last handles with
  | None => bounded bound w
  | Some log =>
      ∃ now, log = handleOf now filepath logLevel ∧ boundedWith (logName now) bound w
  end.

Definition lateRecord : zapwrapper.Record_ :=
  {| zapwrapper.level := zapcore.InfoLevel; zapwrapper.msg := "late";
     zapwrapper.fields := [] |}.

(** Three calls a second apart, then a record through each of the three
    handles, then a fourth call. *)
Definition lateWrites : list zapwrapper.Step :=
  [ zapwrapper.Open (1710072000 * time.Second);
    zapwrapper.Open (1710072001 * time.Second);
    zapwrapper.Open (1710072002 * time.Second);
    zapwrapper.Put 0 (1710072003 * time.Second) lateRecord;
    zapwrapper.Put 1 (1710072003 * time.Second) lateRecord;
    zapwrapper.Put 2 (1710072003 * time.Second) lateRecord;
    zapwrapper.Open (1710072004 * time.Second) ].

(** Two calls a second apart, each followed by the records of its
    handle. *)
Definition sessionSteps : list zapwrapper.Step :=
  [ zapwrapper.Open (1710072000 * time.Second);
    zapwrapper.Put 0 (1710072000 * time.Second) lateRecord;
    zapwrapper.Open (1710072001 * time.Second);
    zapwrapper.Put 1 (1710072001 * time.Second) lateRecord;
    zapwrapper.Put 1 (1710072002 * time.Second) lateRecord ].

(** ** Statements that the code does not meet, as the specification words them *)

(** For every sequence of factory calls at least a second apart on an
    empty directory, with [maxBackup = k >= 0] and no file added but by
    the handles, the directory holds at most [k + 1] entries after each
    call. *)
Definition retentionIsBounded filepath (k : Z) logLevel
    (steps : list zapwrapper.Step) : Prop :=
  0 ≤ k → callsApart steps →
  ∀ n now, steps !! n = Some (zapwrapper.Open now) →
    ∃ handles w',
      zapwrapper.play filepath k logLevel (take (S n) steps) [] zapwrapper.emptyDir
      = os.Returned (handles, w')
      ∧ Z.of_nat (zapwrapper.count w') ≤ k + 1.

(** Five calls on an empty directory with [maxBackup = 3] leave four
    entries, the files of the first two calls being gone. *)
Definition firstTwoGone filepath logLevel (cs : list zapwrapper.Call) : Prop :=
  ∃ w' c1 c2,
    cs !! 0%nat = Some c1 ∧ cs !! 1%nat = Some c2
    ∧ worldAfter (zapwrapper.run filepath 3 logLevel cs zapwrapper.emptyDir) = Some w'
    ∧ zapwrapper.count w' = 4%nat
    ∧ hasEntry (logName (zapwrapper.now c1)) w' = false
    ∧ hasEntry (logName (zapwrapper.now c2)) w' = false.

(** A call on a directory with more than [maxBackup] entries deletes the
    entry with the smallest name and no other; with at most [maxBackup]
    entries it deletes nothing. *)
Definition deletesExactlyTheSmallest now filepath maxBackup logLevel w : Prop :=
  ∀ m e, os.fs w = os.Dir m e →
    (Z.of_nat (size m) > maxBackup →
     ∃ name log w',
       least m name
       ∧ zapwrapper.NewLogger now filepath maxBackup logLevel w = os.Returned (log, w')
       ∧ os.fs w' = os.Dir (delete name m) e)
    ∧ (Z.of_nat (size m) ≤ maxBackup →
       ∃ log w',
         zapwrapper.NewLogger now filepath maxBackup logLevel w = os.Returned (log, w')
         ∧ os.fs w' = os.fs w).

(** When the listing fails, the call returns its handle and has pruned
    nothing. *)
Definition listingFailureSkipsPruning now filepath maxBackup logLevel w : Prop :=
  (∃ files, os.ReadDir w = os.Returned ((files, false), w)) →
  zapwrapper.NewLogger now filepath maxBackup logLevel w
  = os.Returned (handleOf now filepath logLevel, w).

(** The five tiers have pairwise distinct colours, whichever of DPANIC,
    PANIC and FATAL stands for the last tier. *)
Definition tiersDistinct (critical : zapcore.Level) : Prop :=
  NoDup (zapwrapper.colorFor <$>
           [zapcore.DebugLevel; zapcore.InfoLevel; zapcore.WarnLevel;
            zapcore.ErrorLevel; critical]).

(** ** Directories used as examples *)

(** The smallest name is a subdirectory that is not empty. *)
Definition archiveAndLog : gmap string os.Node :=
  {[ "archive" := os.SubDir 2;
     "logs_10-03-24_12-00-00.log" := os.RegularFile "" ]}.

Definition withArchive : os.World := inWorld (os.Dir archiveAndLog None).

Definition twoLogs : gmap string os.Node :=
  {[ "logs_10-03-24_12-00-00.log" := os.RegularFile "";
     "logs_10-03-24_12-00-01.log" := os.RegularFile "" ]}.

(** The listing breaks off with an error after one entry. *)
Definition halfRead : os.World := inWorld (os.Dir twoLogs (Some 1%nat)).

(** ** Sessions *)

(** The node called [name] in the directory, when there is one. *)
Definition fileOf (name : string) w : option os.Node :=
  match os.fs w with
  | os.Dir m _ => m !! name
  | _ => None
  end.

(** The records a session gets to: all of them up to the first at Panic
    or Fatal level, that one included. *)
Fixpoint reached (rs : list zapwrapper.Record_) : list zapwrapper.Record_ :=
  match rs with
  | [] => []
  | r :: rest =>
      r :: match zap.after (zapwrapper.level r) with
           | zapcore.WriteThenNoop => reached rest
           | _ => []
           end
  end.

(** How the session of these records ends: with the panic or the exit of
    the first record that asks for one, or with the return of the last
    [Log]. *)
Fixpoint endOf (rs : list zapwrapper.Record_) : zapcore.CheckWriteAction :=
  match rs with
  | [] => zapcore.WriteThenNoop
  | r :: rest =>
      match zap.after (zapwrapper.level r) with
      | zapcore.WriteThenNoop => endOf rest
      | ending => ending
      end
  end.

(** The records of a call that are written: those its session gets to
    and its handle accepts. *)
Definition acceptedOf logLevel (c : zapwrapper.Call) : list zapwrapper.Record_ :=
  List.filter (λ r, zapcore.Enabled logLevel (zapwrapper.level r))
    (reached (zapwrapper.records c)).

(** The lines a call puts on the console and into its file. *)
Definition consoleLinesOf logLevel (c : zapwrapper.Call) : list string :=
  (λ r, consoleLine (zap.entry (zapwrapper.level r) (zapwrapper.now c) (zapwrapper.msg r))
          (zapwrapper.fields r)) <$> acceptedOf logLevel c.

Definition fileLinesOf logLevel (c : zapwrapper.Call) : list string :=
  (λ r, fileLine (zap.entry (zapwrapper.level r) (zapwrapper.now c) (zapwrapper.msg r))
          (zapwrapper.fields r)) <$> acceptedOf logLevel c.

(** The world after the records [rs] have gone through a handle of the
    factory, one after the other. *)
Definition emitted now logLevel (at_ : time.Time) (rs : list zapwrapper.Record_) w
  : os.World :=
  foldl (λ w r, if zapcore.Enabled logLevel (zapwrapper.level r)
                then logged now (zapwrapper.level r) at_ (zapwrapper.msg r)
                       (zapwrapper.fields r) w
                else w) w rs.

(** [twoLogs] after a call with [maxBackup = 1] on ["./logs"]. *)
Definition twoLogsPruned : os.World :=
  {| os.fs := os.Dir (delete "logs_10-03-24_12-00-00.log" twoLogs) None;
     os.stdout := [];
     os.removeCalls := ["./logs/logs_10-03-24_12-00-00.log"] |}.

(** The call has at least one record that its handle accepts. *)
Definition writesSome logLevel (c : zapwrapper.Call) : Prop :=
  acceptedOf logLevel c ≠ [].

(** The names of the log files of a list of calls, in call order. *)
Definition namesOf (cs : list zapwrapper.Call) : list string :=
  (λ c, logName (zapwrapper.now c)) <$> cs.

(** ** The order of the file names *)

(** The fields of the timestamp, in the order the layout writes them:
    day of the month, month, year of the century, hour, minute, second. *)
Definition stampFields (t : time.Time) : list Z :=
  [ time.day (time.Date_of t); time.month (time.Date_of t);
    Z.rem (Z.abs (time.year (time.Date_of t))) 100;
    time.Hour t; time.Minute t; time.Second_of t ].

Fixpoint lexCompare (a b : list Z) : comparison :=
  match a, b with
  | [], [] => Eq
  | [], _ :: _ => Lt
  | _ :: _, [] => Gt
  | x :: a', y :: b' =>
      match x ?= y with Eq => lexCompare a' b' | c => c end
  end.

(** All the calls are made on one calendar day. *)
Definition withinOneDay (cs : list zapwrapper.Call) : Prop :=
  ∀ c1 c2, c1 ∈ cs → c2 ∈ cs → sameDay (zapwrapper.now c1) (zapwrapper.now c2).

(** The last [n] elements of a list. *)
Definition lastN {A} (n : nat) (l : list A) : list A := drop (length l - n) l.

(** ** The package's test *)

(** Every entry is a regular file with a name. *)
Definition regularOnly m : Prop :=
  ∀ name node, m !! name = Some node → (∃ data, node = os.RegularFile data) ∧ name ≠ "".

(** What the five records of the test put on the console. *)
Definition testConsoleLines (clock : nat → time.Time) : list string :=
  (λ i, consoleLine
          (zap.entry zapcore.InfoLevel (clock (2 + 2 * i)%nat) "This is a test log message")
          [zapwrapper_test.iterationField i]) <$> seq 0 5.

(** Six readings of the clock a second apart, from 10 March 2024,
    12:00:00. *)
Definition testClock (i : nat) : time.Time := (1710072000 + Z.of_nat i) * time.Second.

(** The log file of a call that wrote: its name and what it holds. *)
Definition fileOfCall logLevel (c : zapwrapper.Call) : string * os.Node :=
  (logName (zapwrapper.now c),
   os.RegularFile (String.concat "" (fileLinesOf logLevel c))).

(** The directory that holds the log files of [cs] and nothing else. *)
Definition filesOfCalls logLevel (cs : list zapwrapper.Call) : gmap string os.Node :=
  list_to_map (fileOfCall logLevel <$> cs).

(** ** Tactics for maps of pairwise distinct names *)

Ltac fresh_in_map :=
  by rewrite ?lookup_delete_ne, ?lookup_insert_ne, ?lookup_empty by done.

Ltac map_size :=
  repeat (rewrite map_size_insert_None by fresh_in_map); rewrite ?map_size_empty.

(** * Facts about the model *)

#[local] Arguments String.append !_ _ / : simpl nomatch.

(** ** The byte-wise order on strings *)

Section StringOrder.

Lemma compare_as_OT (a b : string) :
  (a ?= b)%string = String_as_OT.compare a b.
Proof.
  revert b; induction a as [|c a IH]; intros [|d b]; simpl; try reflexivity.
Qed.

Lemma slt_irrefl (a : string) : ¬ slt a a.
Proof.
  unfold slt; rewrite compare_as_OT.
  apply (StrictOrder_Irreflexive (R := String_as_OT.lt)).
Qed.

Lemma slt_trans (a b c : string) : slt a b → slt b c → slt a c.
Proof.
  unfold slt; rewrite !compare_as_OT.
  apply (StrictOrder_Transitive (R := String_as_OT.lt)).
Qed.

Lemma slt_trichotomy (a b : string) : slt a b ∨ a = b ∨ slt b a.
Proof.
  unfold slt. rewrite (String.compare_antisym b a).
  destruct (a ?= b)%string eqn:E; auto.
  apply String.compare_eq_iff in E; auto.
Qed.

Lemma compare_refl (a : string) : (a ?= a)%string = Eq.
Proof.
  induction a as [|c a IH]; simpl; [done|].
  unfold Ascii.compare. by rewrite N.compare_refl.
Qed.

Lemma slt_asym (a b : string) : slt a b → ¬ slt b a.
Proof. intros H1 H2; exact (slt_irrefl _ (slt_trans _ _ _ H1 H2)). Qed.

Lemma slt_ne (a b : string) : slt a b → a ≠ b.
Proof. intros H ->; exact (slt_irrefl _ H). Qed.

Lemma sle_iff (a b : string) : sle a b ↔ ¬ slt b a.
Proof.
  unfold sle, slt. rewrite (String.compare_antisym b a).
  destruct (a ?= b)%string; simpl; split; intros; congruence.
Qed.

Lemma slt_sle (a b : string) : slt a b → sle a b.
Proof. unfold slt, sle; congruence. Qed.

Lemma sle_antisym (a b : string) : sle a b → sle b a → a = b.
Proof.
  rewrite !sle_iff; intros H1 H2.
  destruct (slt_trichotomy a b) as [H|[H|H]]; tauto.
Qed.

Lemma ltb_slt (a b : string) : (a <? b)%string = true ↔ slt a b.
Proof.
  unfold String.ltb, slt. destruct (a ?= b)%string; split; congruence.
Qed.

Lemma ltb_false_sle (a b : string) : (a <? b)%string = false ↔ sle b a.
Proof.
  rewrite sle_iff, <- ltb_slt. destruct (a <? b)%string; split; congruence.
Qed.

(** A common prefix does not take part in a comparison, and a prefix
    of equal length decides it unless the two prefixes are equal. *)
Lemma compare_app (a b x y : string) :
  String.length a = String.length b →
  (a +:+ x ?= b +:+ y)%string =
    match (a ?= b)%string with Eq => (x ?= y)%string | c => c end.
Proof.
  revert b; induction a as [|c a IH]; intros [|d b] Hlen;
    simpl in *; try discriminate; auto.
  destruct (Ascii.compare c d); auto.
Qed.

Lemma compare_app_same (a x y : string) :
  (a +:+ x ?= a +:+ y)%string = (x ?= y)%string.
Proof. rewrite compare_app by reflexivity. now rewrite compare_refl. Qed.

End StringOrder.

(** ** [sort.Slice] puts a least element first *)

Section SortFacts.

Context {A : Type} (less : A → A → bool).
Hypothesis less_irrefl : ∀ x, less x x = false.
Hypothesis less_trans : ∀ x y z, less x y = true → less y z = true → less x z = true.
Hypothesis less_cotrans :
  ∀ x y z, less x z = true → less x y = true ∨ less y z = true.

Lemma insert_by_perm (x : A) (l : list A) : sort.insert_by less x l ≡ₚ x :: l.
Proof using Type.
  induction l as [|y l IH]; simpl; [done|].
  destruct (less y x); [|done].
  rewrite IH. apply Permutation_swap.
Qed.

Lemma Slice_perm (l : list A) : sort.Slice less l ≡ₚ l.
Proof using Type.
  induction l as [|x l IH]; simpl; [done|].
  unfold sort.Slice in *. rewrite insert_by_perm. by rewrite IH.
Qed.

Lemma Slice_length (l : list A) : length (sort.Slice less l) = length l.
Proof using Type. by rewrite Slice_perm. Qed.

Lemma head_insert_by (x : A) (l : list A) :
  head (sort.insert_by less x l) =
    Some (match head l with
          | None => x
          | Some h => if less h x then h else x
          end).
Proof using Type.
  destruct l as [|y l]; simpl; [done|]. by destruct (less y x).
Qed.

Lemma head_Slice_least (l : list A) (h : A) :
  head (sort.Slice less l) = Some h →
  h ∈ l ∧ ∀ y, y ∈ l → less y h = false.
Proof using less_irrefl less_trans less_cotrans.
  revert h; induction l as [|a l IH]; intros h; [done|].
  change (sort.Slice less (a :: l)) with (sort.insert_by less a (sort.Slice less l)).
  rewrite head_insert_by.
  destruct (head (sort.Slice less l)) as [h0|] eqn:Hh.
  - destruct (IH h0 eq_refl) as [Hin Hmin].
    destruct (less h0 a) eqn:Hlt; intros [= <-].
    + split; [by right|]. intros y [Ey|Hy]%elem_of_cons; [subst y|auto].
      destruct (less a h0) eqn:E; [|done].
      pose proof (less_trans _ _ _ E Hlt) as Haa. by rewrite less_irrefl in Haa.
    + split; [by left|]. intros y [Ey|Hy]%elem_of_cons; [subst y; auto|].
      destruct (less y a) eqn:E; [|done].
      destruct (less_cotrans _ h0 _ E) as [E'|E']; [|congruence].
      by rewrite (Hmin _ Hy) in E'.
  - intros [= <-]. assert (l = []) as ->.
    { apply Permutation_nil_r. rewrite <- (Slice_perm l).
      by destruct (sort.Slice less l). }
    split; [by left|]. intros y Ey%list_elem_of_singleton. subst y; auto.
Qed.

Lemma head_Slice_is_Some (l : list A) :
  l ≠ [] → is_Some (head (sort.Slice less l)).
Proof using Type.
  intros Hl. destruct (sort.Slice less l) eqn:E; [|by eexists].
  exfalso; apply Hl. apply Permutation_nil_r. by rewrite <- (Slice_perm l), E.
Qed.

End SortFacts.

(** ** Listings of a directory *)

Section Listing.

Lemma byName_irrefl (x : os.DirEntry) : os.byName x x = false.
Proof.
  unfold os.byName. destruct (_ <? _)%string eqn:E; [|done].
  apply ltb_slt in E. by apply slt_irrefl in E.
Qed.

Lemma byName_trans (x y z : os.DirEntry) :
  os.byName x y = true → os.byName y z = true → os.byName x z = true.
Proof. unfold os.byName. rewrite !ltb_slt. apply slt_trans. Qed.

Lemma byName_cotrans (x y z : os.DirEntry) :
  os.byName x z = true → os.byName x y = true ∨ os.byName y z = true.
Proof.
  unfold os.byName. rewrite !ltb_slt. intros Hxz.
  destruct (slt_trichotomy (os.Name x) (os.Name y)) as [H|[H|H]]; auto.
  - right. by rewrite <- H.
  - right. by eapply slt_trans.
Qed.

Lemma listing_length m : length (listing m) = size m.
Proof.
  unfold listing. by rewrite Slice_length, length_fmap, length_map_to_list.
Qed.

Lemma elem_of_listing m (e : os.DirEntry) :
  e ∈ listing m ↔ ∃ node, m !! os.Name e = Some node ∧ e = os.entryOf (os.Name e, node).
Proof.
  unfold listing. rewrite Slice_perm, list_elem_of_fmap. split.
  - intros [[name node] [-> Hin%elem_of_map_to_list]]. by exists node.
  - intros (node & Hm & He). exists (os.Name e, node).
    split; [done|]. by apply elem_of_map_to_list.
Qed.

(** Sorting a listing again, as the factory does, changes nothing about
    which entry comes first: it is an entry with a least name. *)
Lemma oldest_least m (oldest : os.DirEntry) :
  head (sort.Slice os.byName (listing m)) = Some oldest →
  least m (os.Name oldest) ∧ oldest ∈ listing m.
Proof.
  intros [Hin Hmin]%(head_Slice_least _ byName_irrefl byName_trans byName_cotrans).
  split; [split|done].
  - apply elem_of_listing in Hin as (node & Hm & _). by exists node.
  - intros other [node Hother].
    assert (os.entryOf (other, node) ∈ listing m) as Hin'.
    { apply elem_of_listing. by exists node. }
    apply Hmin in Hin'. unfold os.byName in Hin'. simpl in Hin'.
    by apply ltb_false_sle.
Qed.

Lemma oldest_exists m :
  m ≠ ∅ → is_Some (head (sort.Slice os.byName (listing m))).
Proof.
  intros Hm. apply head_Slice_is_Some. intros Hl.
  apply Hm, map_size_empty_iff. by rewrite <- listing_length, Hl.
Qed.

Lemma least_unique m (a b : string) : least m a → least m b → a = b.
Proof. intros [Ha Hla] [Hb Hlb]. apply sle_antisym; auto. Qed.

End Listing.

(** ** The factory on each kind of path *)

Section Factory.

Lemma NewLogger_Missing now filepath maxBackup logLevel w :
  os.fs w = os.Missing →
  zapwrapper.NewLogger now filepath maxBackup logLevel w
  = os.Returned (handleOf now filepath logLevel, w).
Proof.
  intros Hfs. unfold zapwrapper.NewLogger, mbind, os.M_bind, os.Stat. by rewrite Hfs.
Qed.

(** The general shape: the count is that of the entries [os.ReadDir]
    returned, whether or not it also returned an error. *)
Lemma NewLogger_listed now filepath maxBackup logLevel w files ok :
  os.fs w ≠ os.Missing →
  os.ReadDir w = os.Returned ((files, ok), w) →
  zapwrapper.NewLogger now filepath maxBackup logLevel w
  = if Z.of_nat (length files) >? maxBackup then
      match head (sort.Slice os.byName files) with
      | Some oldest =>
          os.Returned (handleOf now filepath logLevel,
                       afterRemove filepath (os.Name oldest) w)
      | None => os.Panicked "index out of range [0] with length 0"
      end
    else os.Returned (handleOf now filepath logLevel, w).
Proof.
  intros Hfs Hread.
  unfold zapwrapper.NewLogger, mbind, os.M_bind, os.Stat.
  destruct (os.fs w) eqn:E; [done| |]; rewrite Hread; simpl;
    (destruct (_ >? _); [|done]); rewrite <- head_lookup;
    change (λ a b : os.DirEntry, (os.Name a <? os.Name b)%string) with os.byName;
    (destruct (head _); [|done]); by unfold afterRemove, os.Remove.
Qed.

Lemma ReadDir_Dir w m :
  os.fs w = os.Dir m None → os.ReadDir w = os.Returned ((listing m, true), w).
Proof. intros Hfs. unfold os.ReadDir. by rewrite Hfs. Qed.

Lemma afterRemove_calls dir name w :
  os.removeCalls (afterRemove dir name w)
  = (os.removeCalls w ++ [dir +:+ "/" +:+ name])%list.
Proof.
  unfold afterRemove, os.Remove.
  destruct (os.fs w) as [| |m e]; try done.
  by destruct (m !! name) as [[?|[|?]]|].
Qed.

Lemma afterRemove_stdout dir name w :
  os.stdout (afterRemove dir name w) = os.stdout w.
Proof.
  unfold afterRemove, os.Remove.
  destruct (os.fs w) as [| |m e]; try done.
  by destruct (m !! name) as [[?|[|?]]|].
Qed.

Lemma afterRemove_fs dir name w m e node :
  os.fs w = os.Dir m e → m !! name = Some node →
  os.fs (afterRemove dir name w)
  = if removable node then os.Dir (delete name m) e else os.Dir m e.
Proof.
  intros Hfs Hm. unfold afterRemove, os.Remove. rewrite Hfs, Hm.
  by destruct node as [?|[|?]].
Qed.

End Factory.

(** ** File names *)

Section Names.

Lemma append_assoc (a b c : string) : (a +:+ b) +:+ c = a +:+ (b +:+ c).
Proof. induction a as [|x a IH]; simpl; [done|]. by f_equal. Qed.

Lemma append_length (a b : string) :
  String.length (a +:+ b) = (String.length a + String.length b)%nat.
Proof. induction a as [|x a IH]; simpl; [done|]. by f_equal. Qed.

Lemma forall_below (P : Z → bool) (n : nat) :
  forallb P (Z.of_nat <$> seq 0 n) = true → ∀ x, 0 ≤ x < Z.of_nat n → P x = true.
Proof.
  intros Hall x Hx. rewrite forallb_forall in Hall. apply Hall.
  apply list_elem_of_In, list_elem_of_fmap. exists (Z.to_nat x).
  split; [lia|]. apply list_elem_of_In, in_seq. lia.
Qed.

Lemma appendInt_2 (x : Z) : 0 ≤ x < 100 → time.appendInt x 2 = pad2 x.
Proof.
  intros Hx. apply String.eqb_eq.
  apply (forall_below (λ n, String.eqb (time.appendInt n 2) (pad2 n)) 100);
    [by vm_compute|done].
Qed.

Lemma pad2_mono (x y : Z) : 0 ≤ x < y → y < 100 → slt (pad2 x) (pad2 y).
Proof.
  intros Hx Hy.
  pose (P := λ a, forallb (λ b, (b <=? a) || (pad2 a <? pad2 b)%string)
                    (Z.of_nat <$> seq 0 100)).
  assert (P x = true) as HP.
  { apply (forall_below P 100); [by vm_compute|lia]. }
  unfold P in HP. pose proof (forall_below _ _ HP y ltac:(lia)) as Hxy.
  simpl in Hxy. apply orb_true_iff in Hxy as [Hle|Hlt]; [lia|]. by apply ltb_slt.
Qed.

(** *** The layouts of the package on known dates *)

Example Format_epoch :
  time.Format 0 "02-01-2006 15:04:05" = "01-01-1970 00:00:00".
Proof. vm_compute. reflexivity. Qed.

Example Format_leap_day :
  time.Format (951868799 * time.Second + 999999999) "02-01-2006 15:04:05"
  = "29-02-2000 23:59:59".
Proof. vm_compute. reflexivity. Qed.

Example Format_file_name :
  time.Format (1710072000 * time.Second) "02-01-06_15-04-05" = "10-03-24_12-00-00".
Proof. vm_compute. reflexivity. Qed.

Example Format_console :
  time.Format (1735689599 * time.Second) "02-01-06 15:04:05" = "31-12-24 23:59:59".
Proof. vm_compute. reflexivity. Qed.

(** *** The clock fields of a reading *)

Lemma absSecs_bound (t : time.Time) : 0 ≤ time.absSecs t < 86400.
Proof. unfold time.absSecs, time.secondsPerDay. apply Z.mod_pos_bound. lia. Qed.

Lemma Hour_bound (t : time.Time) : 0 ≤ time.Hour t < 24.
Proof.
  unfold time.Hour. pose proof (absSecs_bound t).
  split; [apply Z.div_pos; lia|apply Z.div_lt_upper_bound; lia].
Qed.

Lemma Minute_bound (t : time.Time) : 0 ≤ time.Minute t < 60.
Proof.
  unfold time.Minute.
  pose proof (Z.mod_pos_bound (time.absSecs t) 3600 ltac:(lia)).
  split; [apply Z.div_pos; lia|apply Z.div_lt_upper_bound; lia].
Qed.

Lemma Second_bound (t : time.Time) : 0 ≤ time.Second_of t < 60.
Proof. unfold time.Second_of. apply Z.mod_pos_bound. lia. Qed.

Lemma absSecs_clock (t : time.Time) :
  time.absSecs t = 3600 * time.Hour t + 60 * time.Minute t + time.Second_of t.
Proof.
  unfold time.Hour, time.Minute, time.Second_of.
  pose proof (Z.div_mod (time.absSecs t) 3600 ltac:(lia)).
  pose proof (Z.div_mod (time.absSecs t mod 3600) 60 ltac:(lia)).
  assert (time.absSecs t mod 60 = (time.absSecs t mod 3600) mod 60) as ->; [|lia].
  symmetry. apply Z.mod_mod_divide. exists 60. lia.
Qed.

(** *** The timestamp, field by field *)

Lemma timestampOf_fields (t : time.Time) :
  zapwrapper.timestampOf t = datePart t +:+ clockPart t.
Proof.
  unfold zapwrapper.timestampOf, time.Format.
  change (time.parseLayout "02-01-06_15-04-05") with
    [time.stdZeroDay; time.Lit "-"; time.stdZeroMonth; time.Lit "-";
     time.stdYear; time.Lit "_"; time.stdHour; time.Lit "-";
     time.stdZeroMinute; time.Lit "-"; time.stdZeroSecond].
  unfold datePart, clockPart. cbn [foldr time.formatChunk].
  rewrite (appendInt_2 (time.Hour t)) by (pose proof (Hour_bound t); lia).
  rewrite (appendInt_2 (time.Minute t)) by (pose proof (Minute_bound t); lia).
  rewrite (appendInt_2 (time.Second_of t)) by (pose proof (Second_bound t); lia).
  rewrite !append_assoc. unfold pad2. cbn [String.append]. reflexivity.
Qed.

Lemma clockPart_length (t : time.Time) : String.length (clockPart t) = 8%nat.
Proof. unfold clockPart. rewrite !append_length. unfold pad2. by cbn [String.length]. Qed.

Lemma filenameOf_logName (filepath : string) (t : time.Time) :
  zapwrapper.filenameOf filepath t = filepath +:+ "/" +:+ logName t.
Proof.
  unfold zapwrapper.filenameOf, logName. cbn [String.append]. reflexivity.
Qed.

(** The timestamp is a function of the second of the reading. *)
Lemma timestampOf_Unix (t1 t2 : time.Time) :
  time.Unix t1 = time.Unix t2 → zapwrapper.timestampOf t1 = zapwrapper.timestampOf t2.
Proof.
  intros H. unfold zapwrapper.timestampOf, time.Format.
  assert (∀ k, time.formatChunk t1 k = time.formatChunk t2 k) as Hk.
  { intros []; simpl; try reflexivity;
      unfold time.Date_of, time.absDays, time.Hour, time.Minute,
        time.Second_of, time.absSecs; by rewrite H. }
  induction (time.parseLayout _) as [|k ks IH]; simpl; [done|].
  by rewrite Hk, IH.
Qed.

(** *** Names within one day sort chronologically *)

Lemma clockPart_mono (t1 t2 : time.Time) :
  time.absSecs t1 < time.absSecs t2 → slt (clockPart t1) (clockPart t2).
Proof.
  rewrite !absSecs_clock.
  pose proof (Hour_bound t1). pose proof (Hour_bound t2).
  pose proof (Minute_bound t1). pose proof (Minute_bound t2).
  pose proof (Second_bound t1). pose proof (Second_bound t2).
  intros Hlt. unfold slt, clockPart.
  rewrite compare_app by reflexivity.
  destruct (Z.lt_trichotomy (time.Hour t1) (time.Hour t2)) as [Hh|[Hh|Hh]]; [|..|lia].
  { by rewrite (pad2_mono (time.Hour t1) (time.Hour t2)) by lia. }
  rewrite Hh, compare_refl, compare_app_same.
  rewrite compare_app by reflexivity.
  destruct (Z.lt_trichotomy (time.Minute t1) (time.Minute t2)) as [Hm|[Hm|Hm]]; [|..|lia].
  { by rewrite (pad2_mono (time.Minute t1) (time.Minute t2)) by lia. }
  rewrite Hm, compare_refl, compare_app_same.
  apply (pad2_mono (time.Second_of t1) (time.Second_of t2)); lia.
Qed.

Lemma logName_mono (t1 t2 : time.Time) :
  sameDay t1 t2 → time.Unix t1 < time.Unix t2 → slt (logName t1) (logName t2).
Proof.
  unfold sameDay. intros Hday Hlt.
  assert (time.absSecs t1 < time.absSecs t2) as Hsecs.
  { unfold time.absSecs, time.secondsPerDay in *.
    pose proof (Z.div_mod (time.Unix t1) 86400 ltac:(lia)).
    pose proof (Z.div_mod (time.Unix t2) 86400 ltac:(lia)). lia. }
  assert (datePart t1 = datePart t2) as Hdate.
  { unfold datePart, time.Date_of, time.absDays. by rewrite Hday. }
  unfold slt, logName. rewrite !timestampOf_fields, Hdate, !append_assoc.
  rewrite !compare_app_same.
  rewrite compare_app by (by rewrite !clockPart_length).
  by rewrite (clockPart_mono _ _ Hsecs).
Qed.

End Names.

(** ** The file writer resolves the file name inside the directory *)

Section Writer.

Lemma noSlash_app (a b : string) : noSlash (a +:+ b) = noSlash a && noSlash b.
Proof. induction a as [|c a IH]; simpl; [done|]. by rewrite IH, andb_assoc. Qed.

Lemma BaseAux_noSlash (acc s : string) :
  noSlash s = true → lumberjack.BaseAux acc s = acc +:+ s.
Proof.
  revert acc; induction s as [|c s IH]; intros acc; simpl.
  - intros _. induction acc as [|x acc IHa]; simpl; [done|]. by f_equal.
  - intros [Hc Hs]%andb_true_iff. apply negb_true_iff in Hc. rewrite Hc.
    rewrite IH by done. by rewrite append_assoc.
Qed.

Lemma BaseAux_app (acc a b : string) :
  lumberjack.BaseAux acc (a +:+ b) = lumberjack.BaseAux (lumberjack.BaseAux acc a) b.
Proof.
  revert acc; induction a as [|c a IH]; intros acc; simpl; [done|].
  by destruct (c =? "/")%char.
Qed.

Lemma Base_join (dir name : string) :
  noSlash name = true → lumberjack.Base (dir +:+ "/" +:+ name) = name.
Proof.
  intros Hname. unfold lumberjack.Base. rewrite BaseAux_app. simpl.
  by rewrite BaseAux_noSlash.
Qed.

Lemma digitChar_noSlash (d : Z) : (strconv.digitChar d =? "/")%char = false.
Proof.
  unfold strconv.digitChar.
  pose proof (Z.mod_pos_bound d 10 ltac:(lia)) as Hr.
  assert (d mod 10 = 0 ∨ d mod 10 = 1 ∨ d mod 10 = 2 ∨ d mod 10 = 3 ∨ d mod 10 = 4 ∨
          d mod 10 = 5 ∨ d mod 10 = 6 ∨ d mod 10 = 7 ∨ d mod 10 = 8 ∨ d mod 10 = 9)
    as Hcases by lia.
  repeat (destruct Hcases as [->|Hcases]; [reflexivity|]). by rewrite Hcases.
Qed.

Lemma noSlash_digitsAux (fuel : nat) (u : Z) (acc : string) :
  noSlash acc = true → noSlash (strconv.digitsAux fuel u acc) = true.
Proof.
  revert u acc; induction fuel as [|fuel IH]; intros u acc Hacc; simpl.
  - by rewrite digitChar_noSlash.
  - destruct (u / 10 =? 0); [simpl; by rewrite digitChar_noSlash|].
    apply IH. simpl. by rewrite digitChar_noSlash.
Qed.

Lemma noSlash_zeros (n : nat) : noSlash (time.zeros n) = true.
Proof. induction n; simpl; auto. Qed.

Lemma noSlash_appendInt (x : Z) (width : nat) : noSlash (time.appendInt x width) = true.
Proof.
  unfold time.appendInt. rewrite !noSlash_app, noSlash_zeros.
  unfold strconv.digits. rewrite noSlash_digitsAux by done.
  by destruct (x <? 0).
Qed.

Lemma noSlash_logName (t : time.Time) : noSlash (logName t) = true.
Proof.
  unfold logName. rewrite timestampOf_fields. unfold datePart, clockPart, pad2.
  rewrite !noSlash_app, !noSlash_appendInt. simpl.
  by rewrite !digitChar_noSlash.
Qed.

Lemma Base_filenameOf (filepath : string) (t : time.Time) :
  lumberjack.Base (zapwrapper.filenameOf filepath t) = logName t.
Proof. rewrite filenameOf_logName. apply Base_join, noSlash_logName. Qed.

Lemma setFs_same w : os.setFs (os.fs w) w = w.
Proof. by destruct w. Qed.

Lemma lumberjack_Write_filenameOf (filepath : string) (t : time.Time) (data : string) w :
  lumberjack.Write (zapwrapper.filenameOf filepath t) data w
  = os.Returned (tt, os.setFs (written (logName t) data (os.fs w)) w).
Proof.
  unfold lumberjack.Write, written. rewrite Base_filenameOf.
  destruct (os.fs w) as [| |m e] eqn:E; try done.
  - by rewrite <- E, setFs_same.
  - destruct (m !! logName t) as [[?|?]|]; try done. by rewrite <- E, setFs_same.
Qed.

(** *** What a handle of the factory hands to its sinks *)

Lemma Write_handleOf now filepath logLevel (ent : zapcore.Entry)
    (fields : list zapcore.Field) :
  zapcore.Write (zap.core (handleOf now filepath logLevel)) ent fields
  = if zapcore.Enabled logLevel (zapcore.Level_ ent) then
      [(zapcore.Stdout, consoleLine ent fields);
       (zapcore.Lumberjack (zapwrapper.filenameOf filepath now), fileLine ent fields)]
    else [].
Proof.
  unfold zapcore.Write, handleOf, zapcore.NewTee. cbn [zap.core].
  rewrite !filter_cons, filter_nil. cbn [zapcore.enab].
  destruct (zapcore.Enabled logLevel (zapcore.Level_ ent)); by repeat case_decide.
Qed.

Lemma write_handleOf now filepath logLevel lvl at_ msg fields w :
  zap.write (handleOf now filepath logLevel) lvl at_ msg fields w
  = os.Returned (tt, if zapcore.Enabled logLevel lvl
                     then logged now lvl at_ msg fields w else w).
Proof.
  unfold zap.write. rewrite Write_handleOf. simpl.
  destruct (zapcore.Enabled logLevel lvl); [|done].
  unfold zap.writeAll, zap.writeTo, mbind, os.M_bind, os.WriteStdout.
  by rewrite lumberjack_Write_filenameOf.
Qed.

(** [Log] writes first; how it ends is a matter of the level alone. *)
Lemma Log_handleOf now filepath logLevel lvl at_ msg fields w :
  zap.Log (handleOf now filepath logLevel) lvl at_ msg fields w
  = match zap.after lvl with
    | zapcore.WriteThenNoop =>
        os.Returned (tt, if zapcore.Enabled logLevel lvl
                         then logged now lvl at_ msg fields w else w)
    | zapcore.WriteThenPanic => os.Panicked msg
    | zapcore.WriteThenFatal => os.Exited 1
    end.
Proof.
  unfold zap.Log, mbind, os.M_bind. rewrite write_handleOf.
  by destruct (zap.after lvl).
Qed.

End Writer.

(** ** The factory on a directory that lists without error *)

Section FactoryCases.

Lemma ReadDir_total w :
  ∃ files ok, os.ReadDir w = os.Returned ((files, ok), w).
Proof.
  unfold os.ReadDir. destruct (os.fs w) as [| |m [n|]]; by eexists _, _.
Qed.

(** With a non-negative [maxBackup] the factory returns its handle,
    whatever sits at the path. *)
Lemma NewLogger_returns now filepath maxBackup logLevel w :
  0 ≤ maxBackup →
  ∃ w', zapwrapper.NewLogger now filepath maxBackup logLevel w
        = os.Returned (handleOf now filepath logLevel, w')
        ∧ os.stdout w' = os.stdout w.
Proof.
  intros Hk.
  assert (os.fs w = os.Missing ∨ os.fs w ≠ os.Missing) as [Hfs|Hfs]
    by (destruct (os.fs w); auto).
  { exists w. by rewrite NewLogger_Missing. }
  destruct (ReadDir_total w) as (files & ok & Hread).
  rewrite (NewLogger_listed _ _ _ _ _ _ _ Hfs Hread).
  destruct (Z.gtb_spec (Z.of_nat (length files)) maxBackup) as [Hgt|_];
    [|by exists w].
  destruct (head_Slice_is_Some os.byName files) as [oldest ->].
  { intros ->. simpl in Hgt. lia. }
  eexists. split; [done|]. apply afterRemove_stdout.
Qed.

(** On a directory that lists without error: nothing happens up to
    [maxBackup] entries, and beyond that one [os.Remove] is issued, for
    an entry with a least name. *)
Lemma NewLogger_keep now filepath maxBackup logLevel w m :
  os.fs w = os.Dir m None →
  Z.of_nat (size m) ≤ maxBackup →
  zapwrapper.NewLogger now filepath maxBackup logLevel w
  = os.Returned (handleOf now filepath logLevel, w).
Proof.
  intros Hfs Hle.
  rewrite (NewLogger_listed _ _ _ _ _ _ _ ltac:(by rewrite Hfs) (ReadDir_Dir _ _ Hfs)).
  rewrite listing_length. by destruct (Z.gtb_spec (Z.of_nat (size m)) maxBackup); [lia|].
Qed.

Lemma NewLogger_prune now filepath maxBackup logLevel w m :
  os.fs w = os.Dir m None →
  Z.of_nat (size m) > maxBackup →
  m ≠ ∅ →
  ∃ name,
    least m name
    ∧ zapwrapper.NewLogger now filepath maxBackup logLevel w
      = os.Returned (handleOf now filepath logLevel, afterRemove filepath name w).
Proof.
  intros Hfs Hgt Hne.
  rewrite (NewLogger_listed _ _ _ _ _ _ _ ltac:(by rewrite Hfs) (ReadDir_Dir _ _ Hfs)).
  rewrite listing_length.
  destruct (Z.gtb_spec (Z.of_nat (size m)) maxBackup); [|lia].
  destruct (oldest_exists m Hne) as [oldest Hhead]. rewrite Hhead.
  exists (os.Name oldest). split; [|done]. by apply oldest_least.
Qed.

Lemma size_pos_nonempty m maxBackup :
  0 ≤ maxBackup → Z.of_nat (size m) > maxBackup → m ≠ ∅.
Proof. intros Hk Hgt ->. rewrite map_size_empty in Hgt. lia. Qed.

End FactoryCases.

(** ** The calendar fields of a reading *)

Section Calendar.

Lemma absDate_split (d0 : Z) :
  time.absDate d0
  = {| time.year := (yearDay d0).1;
       time.month := (monthDay (time.isLeap (yearDay d0).1) (yearDay d0).2).1;
       time.day := (monthDay (time.isLeap (yearDay d0).1) (yearDay d0).2).2 |}.
Proof.
  unfold time.absDate, yearDay, monthDay. cbv zeta. cbn [fst snd].
  destruct (_ && (_ =? _)); [done|].
  by destruct (_ >=? _).
Qed.

Lemma monthDay_bounds (leap : bool) (yday : Z) :
  0 ≤ yday ≤ 365 → (yday = 365 → leap = true) →
  1 ≤ (monthDay leap yday).1 ≤ 12 ∧ 1 ≤ (monthDay leap yday).2 ≤ 31.
Proof.
  intros Hy Hleap.
  pose (ok := λ (l : bool) y,
          let md := monthDay l y in
          (1 <=? md.1) && (md.1 <=? 12) && (1 <=? md.2) && (md.2 <=? 31)).
  assert (ok leap yday = true) as Hok.
  { destruct leap.
    - apply (forall_below (ok true) 366); [vm_compute; reflexivity|lia].
    - apply (forall_below (ok false) 365); [vm_compute; reflexivity|].
      assert (yday ≠ 365) by (intros E; by specialize (Hleap E)). lia. }
  unfold ok in Hok. cbv zeta in Hok. lia.
Qed.

Lemma yearDay_bounds (d0 : Z) :
  0 ≤ (yearDay d0).2 ≤ 365
  ∧ ((yearDay d0).2 = 365 → time.isLeap (yearDay d0).1 = true).
Proof.
  unfold yearDay, time.daysPer400Years, time.daysPer100Years, time.daysPer4Years.
  cbv zeta. cbn [fst snd].
  rewrite !Z.shiftr_div_pow2 by lia. change (2 ^ 2) with 4.
  change (365 * 400 + 97) with 146097. change (365 * 100 + 24) with 36524.
  change (365 * 4 + 1) with 1461.
  set (n1 := d0 / 146097).
  set (d1 := d0 - 146097 * n1).
  assert (0 ≤ d1 < 146097) as Hd1.
  { unfold d1, n1. pose proof (Z.div_mod d0 146097 ltac:(lia)).
    pose proof (Z.mod_pos_bound d0 146097 ltac:(lia)). lia. }
  clearbody d1. clearbody n1.
  set (n2 := d1 / 36524).
  assert (0 ≤ n2 ≤ 4 ∧ 36524 * n2 ≤ d1 < 36524 * n2 + 36524) as Hn2.
  { unfold n2. pose proof (Z.div_mod d1 36524 ltac:(lia)).
    pose proof (Z.mod_pos_bound d1 36524 ltac:(lia)). lia. }
  clearbody n2.
  set (n2' := n2 - n2 / 4).
  assert (n2 / 4 = if n2 =? 4 then 1 else 0) as Hq2.
  { destruct (Z.eqb_spec n2 4) as [->|]; [done|]. apply Z.div_small. lia. }
  set (d2 := d1 - 36524 * n2').
  assert (0 ≤ d2 ≤ 36524 ∧ (d2 = 36524 → n2' = 3) ∧ 0 ≤ n2' ≤ 3) as Hd2.
  { unfold d2, n2'. rewrite Hq2. destruct (Z.eqb_spec n2 4); lia. }
  clearbody d2. clearbody n2'. clear Hq2 Hn2 Hd1 d1 n2.
  set (n3 := d2 / 1461).
  assert (0 ≤ n3 ≤ 24 ∧ 1461 * n3 ≤ d2 < 1461 * n3 + 1461) as Hn3.
  { unfold n3. pose proof (Z.div_mod d2 1461 ltac:(lia)).
    pose proof (Z.mod_pos_bound d2 1461 ltac:(lia)). lia. }
  clearbody n3.
  set (d3 := d2 - 1461 * n3).
  assert (0 ≤ d3 < 1461 ∧ d2 = 1461 * n3 + d3) as Hd3 by (unfold d3; lia).
  clearbody d3.
  set (n4 := d3 / 365).
  assert (0 ≤ n4 ≤ 4 ∧ 365 * n4 ≤ d3 < 365 * n4 + 365) as Hn4.
  { unfold n4. pose proof (Z.div_mod d3 365 ltac:(lia)).
    pose proof (Z.mod_pos_bound d3 365 ltac:(lia)). lia. }
  clearbody n4.
  assert (n4 / 4 = if n4 =? 4 then 1 else 0) as Hq4.
  { destruct (Z.eqb_spec n4 4) as [->|]; [done|]. apply Z.div_small. lia. }
  rewrite Hq4. split.
  - destruct (Z.eqb_spec n4 4); lia.
  - intros Hyd.
    assert (n4 = 4 ∧ d3 = 1460) as [-> ->] by (destruct (Z.eqb_spec n4 4); lia).
    change (4 =? 4) with true. cbv iota.
    unfold time.isLeap.
    assert (n3 < 24 ∨ (n3 = 24 ∧ n2' = 3)) as Hcase by lia.
    assert (∀ a b, b ≠ 0 → (b | a) → (Z.rem a b =? 0) = true) as Hdiv.
    { intros a b Hb Hba. apply Z.eqb_eq. by apply Z.rem_divide. }
    assert (∀ a b, b ≠ 0 → ¬ (b | a) → (Z.rem a b =? 0) = false) as Hndiv.
    { intros a b Hb Hba. apply Z.eqb_neq. by rewrite Z.rem_divide. }
    rewrite (Hdiv _ 4) by (lia || (exists (100 * n1 + 25 * n2' + n3 + 1); lia)).
    destruct Hcase as [Hlt|[-> ->]].
    + rewrite (Hndiv _ 100); [done|lia|]. intros [k Hk]. lia.
    + rewrite (Hdiv _ 400) by (lia || (exists (n1 + 1); lia)).
      by rewrite orb_true_r.
Qed.

Lemma Date_bounds (t : time.Time) :
  1 ≤ time.month (time.Date_of t) ≤ 12 ∧ 1 ≤ time.day (time.Date_of t) ≤ 31.
Proof.
  unfold time.Date_of. rewrite absDate_split. cbn [time.month time.day].
  destruct (yearDay_bounds (time.absDays t)) as [Hyd Hleap].
  by apply monthDay_bounds.
Qed.

End Calendar.

(** ** What a record looks like on each sink *)

Section Lines.

Lemma nonEmpty_app_cons (a b : string) (c : ascii) :
  zapcore.nonEmpty (a +:+ String c b) = true.
Proof. by destruct a. Qed.

Lemma nonEmpty_app_l (a b : string) :
  zapcore.nonEmpty a = true → zapcore.nonEmpty (a +:+ b) = true.
Proof. by destruct a. Qed.

Lemma nonEmpty_sep (a b : string) :
  zapcore.nonEmpty (a +:+ zapcore.ConsoleSeparator +:+ b) = true.
Proof. apply nonEmpty_app_cons. Qed.

Lemma addSeparator_nonEmpty (line : string) :
  zapcore.nonEmpty line = true →
  zapcore.addSeparatorIfNecessary line = line +:+ zapcore.ConsoleSeparator.
Proof. unfold zapcore.addSeparatorIfNecessary. by intros ->. Qed.

Lemma join_two (sep a b : string) : zapcore.join sep [a; b] = a +:+ sep +:+ b.
Proof. reflexivity. Qed.

Lemma EncodeEntry_plain (c : zapcore.EncoderConfig) (ent : zapcore.Entry)
    (fields : list zapcore.Field) :
  zapcore.nonEmpty (zapcore.TimeKey c) = true →
  zapcore.nonEmpty (zapcore.LevelKey c) = true →
  zapcore.nonEmpty (zapcore.MessageKey c) = true →
  zapcore.LoggerName ent = "" → zapcore.Caller ent = None → zapcore.Stack ent = "" →
  zapcore.LineEnding c = zapcore.DefaultLineEnding →
  zapcore.EncodeEntry c ent fields
  = zapcore.EncodeTime c (zapcore.Time_ ent) +:+ zapcore.ConsoleSeparator
    +:+ zapcore.EncodeLevel c (zapcore.Level_ ent)
    +:+ lineTail (zapcore.Message ent) fields.
Proof.
  intros Ht Hl Hm Hname Hcaller Hstack Hend.
  unfold zapcore.EncodeEntry. rewrite Ht, Hl, Hm, Hname, Hcaller, Hstack, Hend.
  cbv zeta. cbn [app andb].
  change (zapcore.nonEmpty "") with false. cbn [andb].
  unfold lineTail, contextOf.
  set (T := zapcore.EncodeTime c (zapcore.Time_ ent)).
  set (L := zapcore.EncodeLevel c (zapcore.Level_ ent)).
  set (ctx := zapcore.addFields fields).
  rewrite join_two.
  rewrite (addSeparator_nonEmpty (T +:+ _)) by apply nonEmpty_sep.
  destruct (zapcore.nonEmpty ctx).
  - rewrite addSeparator_nonEmpty
      by (rewrite !append_assoc; apply nonEmpty_sep).
    by rewrite !append_assoc.
  - by rewrite !append_assoc.
Qed.

Lemma consoleLine_entry lvl at_ msg fields :
  consoleLine (zap.entry lvl at_ msg) fields
  = time.Format at_ "02-01-06 15:04:05" +:+ zapcore.ConsoleSeparator
    +:+ (zapwrapper.colorFor lvl +:+ zapcore.CapitalString lvl +:+ zapwrapper.colorReset)
    +:+ lineTail msg fields.
Proof. unfold consoleLine. by rewrite EncodeEntry_plain. Qed.

Lemma fileLine_entry lvl at_ msg fields :
  fileLine (zap.entry lvl at_ msg) fields
  = time.Format at_ "02-01-2006 15:04:05" +:+ zapcore.ConsoleSeparator
    +:+ zapcore.CapitalString lvl
    +:+ lineTail msg fields.
Proof. unfold fileLine. by rewrite EncodeEntry_plain. Qed.

Lemma NewLogger_handle now filepath maxBackup logLevel (w w' : os.World)
    (log : zap.Logger) :
  zapwrapper.NewLogger now filepath maxBackup logLevel w = os.Returned (log, w') →
  log = handleOf now filepath logLevel.
Proof.
  assert (os.fs w = os.Missing ∨ os.fs w ≠ os.Missing) as [Hfs|Hfs]
    by (destruct (os.fs w); auto).
  { rewrite NewLogger_Missing by done. by intros [= <- _]. }
  destruct (ReadDir_total w) as (files & ok & Hread).
  rewrite (NewLogger_listed _ _ _ _ _ _ _ Hfs Hread).
  destruct (_ >? _); [|by intros [= <- _]].
  destruct (head _); [by intros [= <- _]|done].
Qed.

End Lines.

Lemma timestampOf_zeroPadded (t : time.Time) : zapwrapper.timestampOf t = zeroPadded t.
Proof.
  rewrite timestampOf_fields. unfold datePart, clockPart, zeroPadded.
  destruct (Date_bounds t) as [Hm Hd].
  rewrite (appendInt_2 (time.day _)) by lia.
  rewrite (appendInt_2 (time.month _)) by lia.
  rewrite (appendInt_2 (Z.rem _ _))
    by (apply Z.rem_bound_pos; lia).
  by rewrite !append_assoc.
Qed.

(** ** Runs keep the directory bounded *)

Section Runs.

Lemma allRemovable_delete m name : allRemovable m → allRemovable (delete name m).
Proof.
  intros Hall other node Hlook. apply lookup_delete_Some in Hlook as [_ Hlook].
  by eapply Hall.
Qed.

Lemma allRemovable_insert m name data :
  allRemovable m → allRemovable (<[ name := os.RegularFile data ]> m).
Proof.
  intros Hall other node Hlook.
  apply lookup_insert_Some in Hlook as [[_ <-]|[_ Hlook]]; [done|by eapply Hall].
Qed.

Lemma NewLogger_bounded now filepath maxBackup logLevel w :
  0 ≤ maxBackup →
  bounded (maxBackup + 1) w →
  ∃ w', zapwrapper.NewLogger now filepath maxBackup logLevel w
        = os.Returned (handleOf now filepath logLevel, w')
        ∧ bounded maxBackup w'.
Proof.
  intros Hk (m & Hfs & Hall & Hsize).
  destruct (Z.le_gt_cases (Z.of_nat (size m)) maxBackup) as [Hle|Hgt].
  { exists w. split; [by eapply NewLogger_keep|]. by exists m. }
  destruct (NewLogger_prune now filepath maxBackup logLevel w m Hfs ltac:(lia))
    as (name & [[node Hnode] _] & Hret); [eapply size_pos_nonempty; [done|lia]|].
  eexists. split; [exact Hret|].
  exists (delete name m). split; [|split].
  - rewrite (afterRemove_fs _ _ _ _ _ _ Hfs Hnode). by rewrite (Hall _ _ Hnode).
  - by apply allRemovable_delete.
  - rewrite map_size_delete, Hnode.
    assert (size m ≠ 0%nat) by lia. lia.
Qed.

Lemma logged_boundedWith now lvl at_ msg fields bound w :
  boundedWith (logName now) bound w →
  boundedWith (logName now) bound (logged now lvl at_ msg fields w).
Proof.
  intros (m & Hfs & Hall & Hsize). unfold logged, boundedWith. cbn [os.fs].
  rewrite Hfs. unfold written.
  destruct (m !! logName now) as [[old|n]|] eqn:Hlook.
  - eexists. split; [done|]. split; [by apply allRemovable_insert|].
    rewrite map_size_insert_Some by done. rewrite lookup_insert_eq.
    destruct Hsize as [?|[_ ?]]; [left; lia|right; split; [done|lia]].
  - exists m. by rewrite Hlook.
  - eexists. split; [done|]. split; [by apply allRemovable_insert|].
    rewrite map_size_insert_None by done. rewrite lookup_insert_eq.
    destruct Hsize as [?|[[? Habs] _]]; [|congruence].
    right. split; [done|lia].
Qed.

Lemma emit_boundedWith now filepath logLevel bound (rs : list zapwrapper.Record_) w :
  boundedWith (logName now) bound w →
  ∃ w', zapwrapper.emit (handleOf now filepath logLevel) now rs w
        = os.Returned (endOf rs, w')
        ∧ boundedWith (logName now) bound w'.
Proof.
  revert w; induction rs as [|r rs IH]; intros w Hw; cbn [zapwrapper.emit endOf].
  { by exists w. }
  unfold mbind, os.M_bind. rewrite write_handleOf.
  assert (boundedWith (logName now) bound
            (if zapcore.Enabled logLevel (zapwrapper.level r)
             then logged now (zapwrapper.level r) now (zapwrapper.msg r)
                    (zapwrapper.fields r) w
             else w)) as Hw1.
  { destruct (zapcore.Enabled _ _); [|done]. by apply logged_boundedWith. }
  destruct (zap.after (zapwrapper.level r)); [by apply IH|by eexists..].
Qed.

Lemma call_bounded filepath maxBackup logLevel (c : zapwrapper.Call) w :
  0 ≤ maxBackup →
  bounded (maxBackup + 1) w →
  ∃ w', zapwrapper.call filepath maxBackup logLevel c w
        = os.Returned (endOf (zapwrapper.records c), w')
        ∧ bounded (maxBackup + 1) w'.
Proof.
  intros Hk Hw. unfold zapwrapper.call, mbind, os.M_bind.
  destruct (NewLogger_bounded (zapwrapper.now c) filepath maxBackup logLevel w Hk Hw)
    as (w1 & -> & m1 & Hfs1 & Hall1 & Hsize1).
  destruct (emit_boundedWith (zapwrapper.now c) filepath logLevel maxBackup
              (zapwrapper.records c) w1) as (w2 & -> & m2 & Hfs2 & Hall2 & Hsize2).
  { exists m1. auto. }
  exists w2. split; [done|]. exists m2. split; [done|]. split; [done|].
  destruct Hsize2 as [?|[_ ?]]; lia.
Qed.

Lemma run_bounded filepath maxBackup logLevel (cs : list zapwrapper.Call) w :
  0 ≤ maxBackup →
  bounded (maxBackup + 1) w →
  ∃ w', zapwrapper.run filepath maxBackup logLevel cs w = os.Returned (tt, w')
        ∧ bounded (maxBackup + 1) w'.
Proof.
  intros Hk. revert w; induction cs as [|c cs IH]; intros w Hw; simpl.
  { by exists w. }
  unfold mbind, os.M_bind.
  destruct (call_bounded filepath maxBackup logLevel c w Hk Hw) as (w1 & -> & Hw1).
  by apply IH.
Qed.

Lemma emptyDir_bounded (bound : Z) : 0 ≤ bound → bounded bound zapwrapper.emptyDir.
Proof.
  intros Hb. exists ∅. split; [done|]. split.
  - intros name node Hlook. by rewrite lookup_empty in Hlook.
  - rewrite map_size_empty. lia.
Qed.

End Runs.

Lemma testCalls_oneSecondApart : oneSecondApart testCalls.
Proof.
  intros i c1 c2 H1 H2.
  do 5 (destruct i as [|i];
        [vm_compute in H1, H2; try discriminate;
         injection H1 as <-; injection H2 as <-; vm_compute; discriminate|]).
  discriminate.
Qed.

(** ** Programs whose records go through the handle made last *)

Section Programs.

Lemma latestOnly_take (n made : nat) (steps : list zapwrapper.Step) :
  latestOnly made steps = true → latestOnly made (take n steps) = true.
Proof.
  revert n made; induction steps as [|[now|i at_ r] steps IH]; intros [|n] made; try done.
  - cbn [take latestOnly]. apply IH.
  - cbn [take latestOnly]. intros [Hi Hrest]%andb_true_iff.
    by rewrite Hi, (IH _ _ Hrest).
Qed.

Lemma keptBy_bounded filepath logLevel (bound : Z) handles w :
  keptBy filepath logLevel bound handles w → bounded (bound + 1) w.
Proof.
  unfold keptBy. destruct (last handles) as [log|].
  - intros (now & _ & m & Hfs & Hall & Hsize). exists m. split; [done|]. split; [done|].
    destruct Hsize as [?|[_ ?]]; lia.
  - intros (m & Hfs & Hall & Hsize). exists m. split; [done|]. split; [done|]. lia.
Qed.

Lemma play_latestOnly filepath maxBackup logLevel (steps : list zapwrapper.Step) :
  0 ≤ maxBackup →
  ∀ handles w,
    latestOnly (length handles) steps = true → Forall returning steps →
    keptBy filepath logLevel maxBackup handles w →
    ∃ handles' w',
      zapwrapper.play filepath maxBackup logLevel steps handles w
      = os.Returned (handles', w')
      ∧ keptBy filepath logLevel maxBackup handles' w'.
Proof.
  intros Hk. induction steps as [|[now|i at_ r] steps IH]; intros handles w Hlatest Hret Hw.
  { by exists handles, w. }
  - apply Forall_cons in Hret as [_ Hret]. cbn [latestOnly] in Hlatest.
    cbn [zapwrapper.play]. unfold mbind, os.M_bind.
    destruct (NewLogger_bounded now filepath maxBackup logLevel w Hk
                (keptBy_bounded _ _ _ _ _ Hw)) as (w1 & -> & m1 & Hfs1 & Hall1 & Hsize1).
    apply IH; [by rewrite length_app, Nat.add_1_r|done|].
    unfold keptBy. rewrite last_snoc. exists now. split; [done|].
    exists m1. split; [done|]. split; [done|]. by left.
  - apply Forall_cons in Hret as [Hr Hret]. cbn [latestOnly] in Hlatest.
    apply andb_true_iff in Hlatest as [Hi%Nat.eqb_eq Hlatest].
    cbn [zapwrapper.play]. unfold keptBy in Hw. rewrite last_lookup, <- Hi in Hw.
    cbn [Init.Nat.pred] in Hw.
    destruct (handles !! i) as [log|] eqn:Hlog; [|by apply IH; [..|unfold keptBy;
      rewrite last_lookup, <- Hi; cbn [Init.Nat.pred]; rewrite Hlog]].
    destruct Hw as (now & -> & Hw). unfold mbind, os.M_bind.
    rewrite Log_handleOf. cbn [returning] in Hr. rewrite Hr.
    apply IH; [done|done|]. unfold keptBy. rewrite last_lookup, <- Hi.
    cbn [Init.Nat.pred]. rewrite Hlog. exists now. split; [done|].
    destruct (zapcore.Enabled _ _); [|done]. by apply logged_boundedWith.
Qed.

Lemma lateWrites_callsApart : callsApart lateWrites.
Proof.
  intros i t1 t2 H1 H2.
  do 4 (destruct i as [|i];
        [vm_compute in H1, H2; try discriminate;
         injection H1 as <-; injection H2 as <-; vm_compute; discriminate|]).
  discriminate.
Qed.

End Programs.

(** ** One call after another *)

Section FiveCalls.

Lemma emit_one filepath logLevel (c : zapwrapper.Call) (r : zapwrapper.Record_) w :
  zapwrapper.records c = [r] → logLevel ≤ zapwrapper.level r →
  zapwrapper.emit (handleOf (zapwrapper.now c) filepath logLevel) (zapwrapper.now c)
    (zapwrapper.records c) w
  = os.Returned (endOf (zapwrapper.records c),
                 logged (zapwrapper.now c) (zapwrapper.level r) (zapwrapper.now c)
                   (zapwrapper.msg r) (zapwrapper.fields r) w).
Proof.
  intros -> Hlvl. cbn [zapwrapper.emit endOf]. unfold mbind, os.M_bind.
  rewrite write_handleOf.
  assert (zapcore.Enabled logLevel (zapwrapper.level r) = true) as ->
    by (unfold zapcore.Enabled; lia).
  by destruct (zap.after (zapwrapper.level r)).
Qed.

(** A call on a directory with room left only adds its file. *)
Lemma call_writes filepath maxBackup logLevel (c : zapwrapper.Call) w m :
  writesOne logLevel c →
  os.fs w = os.Dir m None →
  Z.of_nat (size m) ≤ maxBackup →
  m !! logName (zapwrapper.now c) = None →
  ∃ w' data,
    zapwrapper.call filepath maxBackup logLevel c w
    = os.Returned (endOf (zapwrapper.records c), w')
    ∧ os.fs w' = os.Dir (<[ logName (zapwrapper.now c) := os.RegularFile data ]> m) None.
Proof.
  intros (r & Hrs & Hlvl) Hfs Hsize Hfresh.
  unfold zapwrapper.call, mbind, os.M_bind.
  rewrite (NewLogger_keep _ _ _ _ _ _ Hfs Hsize).
  rewrite (emit_one _ _ _ r) by done.
  eexists _, _. split; [done|]. unfold logged, written. cbn [os.fs].
  by rewrite Hfs, Hfresh.
Qed.

(** A call on a directory that is over the limit removes the file with
    the least name, then adds its own. *)
Lemma call_prunes filepath maxBackup logLevel (c : zapwrapper.Call) w m
    (name old : string) :
  writesOne logLevel c →
  os.fs w = os.Dir m None →
  Z.of_nat (size m) > maxBackup →
  least m name →
  m !! name = Some (os.RegularFile old) →
  delete name m !! logName (zapwrapper.now c) = None →
  ∃ w' data,
    zapwrapper.call filepath maxBackup logLevel c w
    = os.Returned (endOf (zapwrapper.records c), w')
    ∧ os.fs w'
      = os.Dir (<[ logName (zapwrapper.now c) := os.RegularFile data ]> (delete name m))
          None.
Proof.
  intros (r & Hrs & Hlvl) Hfs Hsize Hleast Hold Hfresh.
  unfold zapwrapper.call, mbind, os.M_bind.
  destruct (NewLogger_prune (zapwrapper.now c) filepath maxBackup logLevel w m Hfs Hsize)
    as (name' & Hleast' & ->).
  { intros ->. by rewrite lookup_empty in Hold. }
  assert (name' = name) as -> by (by eapply least_unique).
  rewrite (emit_one _ _ _ r) by done.
  eexists _, _. split; [done|]. unfold logged, written. cbn [os.fs].
  rewrite (afterRemove_fs _ _ _ _ _ _ Hfs Hold). cbn [removable].
  by rewrite Hfresh.
Qed.

Lemma Unix_apart (t1 t2 : time.Time) :
  t1 + time.Second ≤ t2 → time.Unix t1 < time.Unix t2.
Proof.
  unfold time.Unix, time.Second. intros Hle.
  pose proof (Z.div_le_mono _ _ 1000000000 ltac:(lia) Hle) as Hdiv.
  replace (t1 + 1000000000) with (t1 + 1 * 1000000000) in Hdiv by lia.
  rewrite Z.div_add in Hdiv by lia. lia.
Qed.

Lemma sameDay_between (t1 t2 t3 : time.Time) :
  sameDay t1 t3 → time.Unix t1 ≤ time.Unix t2 → time.Unix t2 ≤ time.Unix t3 →
  sameDay t1 t2 ∧ sameDay t2 t3.
Proof.
  unfold sameDay, time.secondsPerDay. intros Hday H12 H23.
  pose proof (Z.div_le_mono _ _ 86400 ltac:(lia) H12).
  pose proof (Z.div_le_mono _ _ 86400 ltac:(lia) H23).
  lia.
Qed.

End FiveCalls.

(** ** What the factory leaves alone *)

Section Frame.

Lemma afterRemove_fs_cases dir name w :
  os.fs (afterRemove dir name w) = os.fs w
  ∨ ∃ m e, os.fs w = os.Dir m e ∧ is_Some (m !! name)
           ∧ os.fs (afterRemove dir name w) = os.Dir (delete name m) e.
Proof.
  unfold afterRemove, os.Remove.
  destruct (os.fs w) as [| |m e] eqn:Hfs; [by left|by left|].
  destruct (m !! name) as [[c|[|n]]|] eqn:Hm; cbn [os.fs os.setFs].
  - right. exists m, e. by rewrite Hm.
  - right. exists m, e. by rewrite Hm.
  - by left.
  - by left.
Qed.

Lemma ReadDir_names w files ok (e : os.DirEntry) :
  os.ReadDir w = os.Returned ((files, ok), w) → e ∈ files →
  ∃ m err, os.fs w = os.Dir m err ∧ is_Some (m !! os.Name e).
Proof.
  unfold os.ReadDir. intros Hread He.
  destruct (os.fs w) as [| |m [n|]] eqn:Hfs; injection Hread as <- _;
    try (by apply not_elem_of_nil in He); exists m; eexists; (split; [done|]).
  - rewrite Slice_perm in He. apply list_elem_of_fmap in He as ([name node] & -> & Hin).
    apply elem_of_take in Hin as (i & Hin & _).
    apply list_elem_of_lookup_2 in Hin. apply elem_of_map_to_list in Hin. by exists node.
  - apply elem_of_listing in He as (node & Hnode & _). by exists node.
Qed.

End Frame.

(** ** Sessions: what the records of a call leave behind *)

Section Sessions.

Lemma emitted_cons now logLevel (at_ : time.Time) (r : zapwrapper.Record_)
    (rs : list zapwrapper.Record_) w :
  emitted now logLevel at_ (r :: rs) w
  = emitted now logLevel at_ rs
      (if zapcore.Enabled logLevel (zapwrapper.level r)
       then logged now (zapwrapper.level r) at_ (zapwrapper.msg r) (zapwrapper.fields r) w
       else w).
Proof. reflexivity. Qed.

Lemma emit_handleOf now filepath logLevel (at_ : time.Time)
    (rs : list zapwrapper.Record_) w :
  zapwrapper.emit (handleOf now filepath logLevel) at_ rs w
  = os.Returned (endOf rs, emitted now logLevel at_ (reached rs) w).
Proof.
  revert w; induction rs as [|r rs IH]; intros w; [done|].
  cbn [zapwrapper.emit reached endOf]. unfold mbind, os.M_bind. rewrite write_handleOf.
  rewrite emitted_cons. by destruct (zap.after (zapwrapper.level r)).
Qed.

Lemma emitted_removeCalls now logLevel (at_ : time.Time) (rs : list zapwrapper.Record_) w :
  os.removeCalls (emitted now logLevel at_ rs w) = os.removeCalls w.
Proof.
  revert w; induction rs as [|r rs IH]; intros w; [done|].
  rewrite emitted_cons, IH. by destruct (zapcore.Enabled _ _).
Qed.

Lemma filter_cons_accepted logLevel (r : zapwrapper.Record_) (rs : list zapwrapper.Record_) :
  List.filter (λ r, zapcore.Enabled logLevel (zapwrapper.level r)) (r :: rs)
  = if zapcore.Enabled logLevel (zapwrapper.level r)
    then r :: List.filter (λ r, zapcore.Enabled logLevel (zapwrapper.level r)) rs
    else List.filter (λ r, zapcore.Enabled logLevel (zapwrapper.level r)) rs.
Proof. reflexivity. Qed.

Lemma emitted_stdout now logLevel (c : zapwrapper.Call) w :
  os.stdout (emitted now logLevel (zapwrapper.now c) (reached (zapwrapper.records c)) w)
  = (os.stdout w ++ consoleLinesOf logLevel c)%list.
Proof.
  unfold consoleLinesOf, acceptedOf.
  revert w; induction (reached (zapwrapper.records c)) as [|r rs IH]; intros w.
  { cbn. by rewrite app_nil_r. }
  rewrite emitted_cons, IH, filter_cons_accepted.
  destruct (zapcore.Enabled _ _); [|done].
  cbn [logged os.stdout fmap list_fmap]. by rewrite <- app_assoc.
Qed.

Lemma emitted_fs now logLevel (c : zapwrapper.Call) w :
  os.fs (emitted now logLevel (zapwrapper.now c) (reached (zapwrapper.records c)) w)
  = foldl (λ st d, written (logName now) d st) (os.fs w) (fileLinesOf logLevel c).
Proof.
  unfold fileLinesOf, acceptedOf.
  revert w; induction (reached (zapwrapper.records c)) as [|r rs IH]; intros w; [done|].
  rewrite emitted_cons, IH, filter_cons_accepted.
  by destruct (zapcore.Enabled _ _).
Qed.

Lemma append_nil_r (a : string) : a +:+ "" = a.
Proof. induction a as [|x a IH]; cbn; [done|]. by f_equal. Qed.

Lemma foldl_append (old : string) (ds : list string) :
  foldl String.append old ds = old +:+ String.concat "" ds.
Proof.
  revert old; induction ds as [|d ds IH]; intros old; cbn [foldl].
  { cbn. by rewrite append_nil_r. }
  rewrite IH. destruct ds as [|d' ds]; cbn [String.concat].
  - by rewrite append_nil_r.
  - rewrite append_assoc. by change ("" +:+ ?x) with x.
Qed.

(** Further writes to a file that is there append to it. *)
Lemma written_all_present (name old : string) (ds : list string) m e :
  m !! name = Some (os.RegularFile old) →
  foldl (λ st d, written name d st) (os.Dir m e) ds
  = os.Dir (<[ name := os.RegularFile (foldl String.append old ds) ]> m) e.
Proof.
  revert m old; induction ds as [|d ds IH]; intros m old Hm; cbn [foldl].
  { by rewrite insert_id. }
  unfold written at 2. rewrite Hm.
  rewrite (IH _ (old +:+ d)) by apply lookup_insert_eq.
  by rewrite insert_insert_eq.
Qed.

(** The writes of a session to a file that is not there yet. *)
Lemma written_all_fresh (name : string) (ds : list string) m e :
  m !! name = None →
  foldl (λ st d, written name d st) (os.Dir m e) ds
  = match ds with
    | [] => os.Dir m e
    | _ => os.Dir (<[ name := os.RegularFile (String.concat "" ds) ]> m) e
    end.
Proof.
  intros Hm. destruct ds as [|d ds]; [done|]. cbn [foldl].
  unfold written at 2. rewrite Hm.
  rewrite (written_all_present name d) by apply lookup_insert_eq.
  rewrite insert_insert_eq, foldl_append.
  destruct ds as [|d' ds]; cbn [String.concat]; [by rewrite append_nil_r|].
  by change ("" +:+ ?x) with x.
Qed.

Lemma written_all_Missing (name : string) (ds : list string) :
  foldl (λ st d, written name d st) os.Missing ds
  = match ds with
    | [] => os.Missing
    | _ => os.Dir {[ name := os.RegularFile (String.concat "" ds) ]} None
    end.
Proof.
  destruct ds as [|d ds]; [done|]. cbn [foldl]. unfold written at 2.
  rewrite (written_all_present name d) by apply lookup_singleton_eq.
  rewrite insert_singleton_eq, foldl_append.
  destruct ds as [|d' ds]; cbn [String.concat]; [by rewrite append_nil_r|].
  by change ("" +:+ ?x) with x.
Qed.

End Sessions.

(** ** The factory, case by case *)

Section FactoryOutcome.

(** A call that returns has either done nothing or handed one listed
    entry to [os.Remove]. *)
Lemma NewLogger_cases now filepath maxBackup logLevel w w' (log : zap.Logger) :
  zapwrapper.NewLogger now filepath maxBackup logLevel w = os.Returned (log, w') →
  w' = w
  ∨ ∃ files ok e, os.ReadDir w = os.Returned ((files, ok), w) ∧ e ∈ files
                  ∧ w' = afterRemove filepath (os.Name e) w.
Proof.
  assert (os.fs w = os.Missing ∨ os.fs w ≠ os.Missing) as [Hfs|Hfs]
    by (destruct (os.fs w); auto).
  { rewrite NewLogger_Missing by done. intros [= _ <-]. by left. }
  destruct (ReadDir_total w) as (files & ok & Hread).
  rewrite (NewLogger_listed _ _ _ _ _ _ _ Hfs Hread).
  destruct (_ >? _); [|intros [= _ <-]; by left].
  destruct (head _) as [oldest|] eqn:Hhead; [|done].
  intros [= _ <-]. right. exists files, ok, oldest. split; [done|]. split; [|done].
  by apply (head_Slice_least _ byName_irrefl byName_trans byName_cotrans) in Hhead as [? _].
Qed.

(** On a directory, the entries after a call are those before it, less
    at most one. *)
Lemma NewLogger_Dir_cases now filepath maxBackup logLevel w w' (log : zap.Logger) m e :
  os.fs w = os.Dir m e →
  zapwrapper.NewLogger now filepath maxBackup logLevel w = os.Returned (log, w') →
  ∃ m', os.fs w' = os.Dir m' e
        ∧ (m' = m ∨ ∃ name, is_Some (m !! name) ∧ m' = delete name m).
Proof.
  intros Hfs [->|(files & ok & entry & _ & _ & ->)]%NewLogger_cases.
  { exists m. auto. }
  destruct (afterRemove_fs_cases filepath (os.Name entry) w)
    as [->|(m0 & e0 & Hfs0 & Hin & ->)].
  { exists m. auto. }
  rewrite Hfs in Hfs0. injection Hfs0 as <- <-.
  eexists. split; [done|]. right. by exists (os.Name entry).
Qed.

Lemma call_emitted filepath maxBackup logLevel (c : zapwrapper.Call) w w1
    (log : zap.Logger) :
  zapwrapper.NewLogger (zapwrapper.now c) filepath maxBackup logLevel w
  = os.Returned (log, w1) →
  zapwrapper.call filepath maxBackup logLevel c w
  = os.Returned (endOf (zapwrapper.records c),
                 emitted (zapwrapper.now c) logLevel (zapwrapper.now c)
                   (reached (zapwrapper.records c)) w1).
Proof.
  intros Hnew. unfold zapwrapper.call, mbind, os.M_bind. rewrite Hnew.
  rewrite (NewLogger_handle _ _ _ _ _ _ _ Hnew). apply emit_handleOf.
Qed.

End FactoryOutcome.

(** ** One step of a run on a directory of removable entries *)

Section Steps.

(** The factory on such a directory: nothing up to [maxBackup] entries,
    the entry with the least name gone beyond. *)
Lemma NewLogger_step now filepath maxBackup logLevel w m :
  os.fs w = os.Dir m None → allRemovable m → 0 ≤ maxBackup →
  ∃ w1 m1,
    zapwrapper.NewLogger now filepath maxBackup logLevel w
    = os.Returned (handleOf now filepath logLevel, w1)
    ∧ os.fs w1 = os.Dir m1 None
    ∧ ((Z.of_nat (size m) ≤ maxBackup ∧ m1 = m)
       ∨ (Z.of_nat (size m) > maxBackup ∧ ∃ oldest, least m oldest ∧ m1 = delete oldest m)).
Proof.
  intros Hfs Hall Hk.
  destruct (Z.le_gt_cases (Z.of_nat (size m)) maxBackup) as [Hle|Hgt].
  { exists w, m. split; [by eapply NewLogger_keep|]. split; [done|]. by left. }
  destruct (NewLogger_prune now filepath maxBackup logLevel w m Hfs ltac:(lia))
    as (name & Hleast & Hret); [eapply size_pos_nonempty; [done|lia]|].
  destruct Hleast as [[node Hnode] Hmin].
  exists (afterRemove filepath name w), (delete name m). split; [done|]. split.
  - rewrite (afterRemove_fs _ _ _ _ _ _ Hfs Hnode). by rewrite (Hall _ _ Hnode).
  - right. split; [lia|]. exists name. split; [|done]. split; [by exists node|done].
Qed.

Lemma fileLinesOf_nil logLevel (c : zapwrapper.Call) :
  fileLinesOf logLevel c = [] ↔ acceptedOf logLevel c = [].
Proof. unfold fileLinesOf. split; [apply fmap_nil_inv|by intros ->]. Qed.

(** A whole call: the factory, then the records. *)
Lemma call_step filepath maxBackup logLevel (c : zapwrapper.Call) w m :
  os.fs w = os.Dir m None → allRemovable m → 0 ≤ maxBackup →
  ∃ w' m1,
    zapwrapper.call filepath maxBackup logLevel c w
    = os.Returned (endOf (zapwrapper.records c), w')
    ∧ ((Z.of_nat (size m) ≤ maxBackup ∧ m1 = m)
       ∨ (Z.of_nat (size m) > maxBackup ∧ ∃ oldest, least m oldest ∧ m1 = delete oldest m))
    ∧ os.fs w'
      = foldl (λ st d, written (logName (zapwrapper.now c)) d st) (os.Dir m1 None)
          (fileLinesOf logLevel c).
Proof.
  intros Hfs Hall Hk.
  destruct (NewLogger_step (zapwrapper.now c) filepath maxBackup logLevel w m Hfs Hall Hk)
    as (w1 & m1 & Hnew & Hfs1 & Hm1).
  rewrite (call_emitted _ _ _ _ _ _ _ Hnew). eexists _, m1. split; [done|].
  split; [done|]. by rewrite emitted_fs, Hfs1.
Qed.

Lemma fileLinesOf_nil_iff logLevel (c : zapwrapper.Call) :
  writesSome logLevel c ↔ fileLinesOf logLevel c ≠ [].
Proof. unfold writesSome. by rewrite fileLinesOf_nil. Qed.

End Steps.

(** ** Counting the entries along a run *)

Section Counting.

Lemma run_cons filepath maxBackup logLevel (c : zapwrapper.Call) cs w w1
    (ending : zapcore.CheckWriteAction) :
  zapwrapper.call filepath maxBackup logLevel c w = os.Returned (ending, w1) →
  zapwrapper.run filepath maxBackup logLevel (c :: cs) w
  = zapwrapper.run filepath maxBackup logLevel cs w1.
Proof. intros Hcall. cbn [zapwrapper.run]. unfold mbind, os.M_bind. by rewrite Hcall. Qed.

Lemma size_after_prune m maxBackup m1 :
  (Z.of_nat (size m) ≤ maxBackup ∧ m1 = m)
  ∨ (Z.of_nat (size m) > maxBackup ∧ ∃ oldest, least m oldest ∧ m1 = delete oldest m) →
  0 ≤ maxBackup →
  Z.of_nat (size m1)
  = (if Z.of_nat (size m) >? maxBackup then Z.of_nat (size m) - 1 else Z.of_nat (size m)).
Proof.
  intros [[Hle ->]|(Hgt & oldest & [[node Hnode] _] & ->)] Hk;
    destruct (Z.gtb_spec (Z.of_nat (size m)) maxBackup); try lia.
  rewrite map_size_delete_Some by (by rewrite Hnode). lia.
Qed.

Lemma allRemovable_after_prune m maxBackup m1 :
  (Z.of_nat (size m) ≤ maxBackup ∧ m1 = m)
  ∨ (Z.of_nat (size m) > maxBackup ∧ ∃ oldest, least m oldest ∧ m1 = delete oldest m) →
  allRemovable m → allRemovable m1.
Proof.
  intros [[_ ->]|(_ & oldest & _ & ->)] Hall; [done|by apply allRemovable_delete].
Qed.

Lemma fresh_after_prune m maxBackup m1 name :
  (Z.of_nat (size m) ≤ maxBackup ∧ m1 = m)
  ∨ (Z.of_nat (size m) > maxBackup ∧ ∃ oldest, least m oldest ∧ m1 = delete oldest m) →
  m !! name = None → m1 !! name = None.
Proof.
  intros [[_ ->]|(_ & oldest & _ & ->)] Hm; [done|].
  apply lookup_delete_None. by right.
Qed.

(** Calls that each write to a file of a name not used before. *)
Lemma run_fresh_count filepath maxBackup logLevel (cs : list zapwrapper.Call) :
  0 ≤ maxBackup →
  ∀ w m,
    os.fs w = os.Dir m None → allRemovable m →
    Forall (writesSome logLevel) cs → NoDup (namesOf cs) →
    (∀ name, name ∈ namesOf cs → m !! name = None) →
    ∃ w' m',
      zapwrapper.run filepath maxBackup logLevel cs w = os.Returned (tt, w')
      ∧ os.fs w' = os.Dir m' None ∧ allRemovable m'
      ∧ Z.of_nat (size m')
        = Z.max (Z.of_nat (size m))
            (Z.min (Z.of_nat (size m) + Z.of_nat (length cs)) (maxBackup + 1)).
Proof.
  intros Hk. induction cs as [|c cs IH]; intros w m Hfs Hall Hsome Hdup Hfresh.
  { exists w, m. cbn [length]. repeat split; try done. lia. }
  apply Forall_cons in Hsome as [Hc Hsome].
  unfold namesOf in Hdup, Hfresh. rewrite fmap_cons in Hdup, Hfresh.
  apply NoDup_cons in Hdup as [Hnew Hdup].
  destruct (call_step filepath maxBackup logLevel c w m Hfs Hall Hk)
    as (w1 & m1 & Hcall & Hm1 & Hfs1).
  assert (m1 !! logName (zapwrapper.now c) = None) as Hfresh1.
  { eapply fresh_after_prune; [done|]. apply Hfresh. left. }
  rewrite (written_all_fresh _ _ _ _ Hfresh1) in Hfs1.
  assert (fileLinesOf logLevel c ≠ []) as Hlines by (by rewrite fileLinesOf_nil).
  destruct (fileLinesOf logLevel c) as [|d ds] eqn:Hds; [done|]. clear Hlines.
  destruct (IH w1 _ Hfs1) as (w' & m' & Hrun & Hfs' & Hall' & Hsize'); try done.
  { apply allRemovable_insert. by eapply allRemovable_after_prune. }
  { intros name Hname. rewrite lookup_insert_ne by (by intros <-).
    eapply fresh_after_prune; [done|]. apply Hfresh. by right. }
  exists w', m'. rewrite (run_cons _ _ _ _ _ _ _ _ Hcall).
  split; [done|]. split; [done|]. split; [done|].
  rewrite Hsize', (map_size_insert_None _ _ _ Hfresh1).
  pose proof (size_after_prune _ _ _ Hm1 Hk) as Hs.
  destruct (Z.gtb_spec (Z.of_nat (size m)) maxBackup); cbn [length]; lia.
Qed.

(** Calls that write nothing. *)
Lemma run_silent_count filepath maxBackup logLevel (cs : list zapwrapper.Call) :
  0 ≤ maxBackup →
  ∀ w m,
    os.fs w = os.Dir m None → allRemovable m →
    Forall (λ c, acceptedOf logLevel c = []) cs →
    ∃ w' m',
      zapwrapper.run filepath maxBackup logLevel cs w = os.Returned (tt, w')
      ∧ os.fs w' = os.Dir m' None ∧ m' ⊆ m
      ∧ Z.of_nat (size m')
        = Z.max (Z.min (Z.of_nat (size m)) maxBackup)
            (Z.of_nat (size m) - Z.of_nat (length cs)).
Proof.
  intros Hk. induction cs as [|c cs IH]; intros w m Hfs Hall Hnone.
  { exists w, m. cbn [length]. repeat split; try done. lia. }
  apply Forall_cons in Hnone as [Hc Hnone].
  destruct (call_step filepath maxBackup logLevel c w m Hfs Hall Hk)
    as (w1 & m1 & Hcall & Hm1 & Hfs1).
  apply fileLinesOf_nil in Hc. rewrite Hc in Hfs1. cbn [foldl] in Hfs1.
  destruct (IH w1 _ Hfs1) as (w' & m' & Hrun & Hfs' & Hsub & Hsize'); try done.
  { by eapply allRemovable_after_prune. }
  exists w', m'. rewrite (run_cons _ _ _ _ _ _ _ _ Hcall).
  split; [done|]. split; [done|]. split.
  - etrans; [done|]. destruct Hm1 as [[_ ->]|(_ & oldest & _ & ->)]; [done|].
    apply delete_subseteq.
  - rewrite Hsize'. pose proof (size_after_prune _ _ _ Hm1 Hk) as Hs.
    destruct (Z.gtb_spec (Z.of_nat (size m)) maxBackup); cbn [length]; lia.
Qed.

(** What a handle writes adds at most one entry, a regular file. *)
Lemma written_all_size (name : string) (ds : list string) m :
  allRemovable m →
  ∃ m', foldl (λ st d, written name d st) (os.Dir m None) ds = os.Dir m' None
        ∧ allRemovable m' ∧ (size m ≤ size m' ≤ size m + 1)%nat.
Proof.
  intros Hall. destruct (m !! name) as [[old|n]|] eqn:Hlook.
  - rewrite (written_all_present _ _ _ _ _ Hlook). eexists. split; [done|].
    split; [by apply allRemovable_insert|].
    rewrite map_size_insert_Some by done. lia.
  - exists m. split; [|split; [done|lia]].
    induction ds as [|d ds IH]; [done|]. cbn [foldl]. unfold written at 2.
    by rewrite Hlook.
  - rewrite (written_all_fresh _ _ _ _ Hlook). destruct ds as [|d ds].
    + exists m. split; [done|]. split; [done|lia].
    + eexists. split; [done|]. split; [by apply allRemovable_insert|].
      rewrite map_size_insert_None by done. lia.
Qed.

(** Any calls at all. *)
Lemma run_any_count filepath maxBackup logLevel (cs : list zapwrapper.Call) :
  0 ≤ maxBackup →
  ∀ w m,
    os.fs w = os.Dir m None → allRemovable m →
    ∃ w' m',
      zapwrapper.run filepath maxBackup logLevel cs w = os.Returned (tt, w')
      ∧ os.fs w' = os.Dir m' None ∧ allRemovable m'
      ∧ Z.max (Z.min (Z.of_nat (size m)) maxBackup)
          (Z.of_nat (size m) - Z.of_nat (length cs))
        ≤ Z.of_nat (size m')
        ≤ Z.max (Z.of_nat (size m))
            (Z.min (Z.of_nat (size m) + Z.of_nat (length cs)) (maxBackup + 1)).
Proof.
  intros Hk. induction cs as [|c cs IH]; intros w m Hfs Hall.
  { exists w, m. cbn [length]. repeat split; try done; lia. }
  destruct (call_step filepath maxBackup logLevel c w m Hfs Hall Hk)
    as (w1 & m1 & Hcall & Hm1 & Hfs1).
  destruct (written_all_size (logName (zapwrapper.now c)) (fileLinesOf logLevel c) m1)
    as (m2 & Hw & Hall2 & Hsize2); [by eapply allRemovable_after_prune|].
  rewrite Hw in Hfs1.
  destruct (IH w1 m2 Hfs1 Hall2) as (w' & m' & Hrun & Hfs' & Hall' & Hsize').
  exists w', m'. rewrite (run_cons _ _ _ _ _ _ _ _ Hcall).
  split; [done|]. split; [done|]. split; [done|].
  pose proof (size_after_prune _ _ _ Hm1 Hk) as Hs.
  destruct (Z.gtb_spec (Z.of_nat (size m)) maxBackup); cbn [length]; lia.
Qed.

End Counting.

(** ** The example directories and calls *)

Section Examples.

Lemma twoLogs_allRemovable : allRemovable twoLogs.
Proof.
  intros name node Hnode. unfold twoLogs in Hnode.
  apply lookup_insert_Some in Hnode as [[_ <-]|[_ Hnode]]; [done|].
  by apply lookup_singleton_Some in Hnode as [_ <-].
Qed.

Lemma testCalls_names :
  namesOf testCalls
  = ["logs_10-03-24_12-00-00.log"; "logs_10-03-24_12-00-01.log";
     "logs_10-03-24_12-00-02.log"; "logs_10-03-24_12-00-03.log";
     "logs_10-03-24_12-00-04.log"].
Proof. vm_compute. reflexivity. Qed.

Lemma testCalls_writesSome : Forall (writesSome zapcore.DebugLevel) testCalls.
Proof. repeat apply Forall_cons_2; try apply Forall_nil_2; intros Habs; by vm_compute in Habs. Qed.

Lemma testCalls_silent :
  Forall (λ c, acceptedOf zapcore.ErrorLevel c = []) testCalls.
Proof. repeat apply Forall_cons_2; try apply Forall_nil_2; vm_compute; reflexivity. Qed.

Lemma archive_least : least archiveAndLog "archive".
Proof.
  split; [by eexists|]. unfold archiveAndLog.
  intros other [<-|Hother]%lookup_insert_is_Some'; [by vm_compute|].
  apply lookup_singleton_is_Some in Hother as <-. by vm_compute.
Qed.

Lemma testCalls_withinOneDay : withinOneDay testCalls.
Proof.
  assert (∀ c, c ∈ testCalls →
               time.Unix (zapwrapper.now c) / time.secondsPerDay = 19792) as Hday.
  { intros c Hc. unfold testCalls in Hc.
    apply list_elem_of_fmap in Hc as (s & -> & Hs).
    repeat (apply elem_of_cons in Hs as [->|Hs]); [by vm_compute..|].
    by apply not_elem_of_nil in Hs. }
  intros c1 c2 H1 H2. unfold sameDay. by rewrite (Hday c1), (Hday c2).
Qed.

End Examples.

(** ** Two digits compare as their number *)

Section Digits.

Lemma pad2_compare (x y : Z) :
  0 ≤ x < 100 → 0 ≤ y < 100 → (pad2 x ?= pad2 y)%string = (x ?= y).
Proof.
  intros Hx Hy.
  pose (P := λ a, forallb (λ b, bool_decide ((pad2 a ?= pad2 b)%string = (a ?= b)))
                    (Z.of_nat <$> seq 0 100)).
  assert (P x = true) as HP.
  { apply (forall_below P 100); [by vm_compute|lia]. }
  unfold P in HP. pose proof (forall_below _ _ HP y ltac:(lia)) as Hxy.
  cbv beta in Hxy. by apply bool_decide_eq_true in Hxy.
Qed.

Lemma stampFields_bounds (t : time.Time) : Forall (λ x, 0 ≤ x < 100) (stampFields t).
Proof.
  destruct (Date_bounds t) as [Hm Hd].
  pose proof (Hour_bound t). pose proof (Minute_bound t). pose proof (Second_bound t).
  pose proof (Z.rem_bound_pos (Z.abs (time.year (time.Date_of t))) 100
                ltac:(lia) ltac:(lia)).
  unfold stampFields. repeat apply Forall_cons_2; try apply Forall_nil_2; lia.
Qed.

End Digits.

(** ** Which entries a run keeps *)

Section Survivors.

Lemma lastN_snoc {A} (K : nat) (l : list A) (x : A) :
  ((length (lastN (S K) l) ≤ K)%nat
   ∧ lastN (S K) (l ++ [x])%list = (lastN (S K) l ++ [x])%list)
  ∨ ∃ h T, lastN (S K) l = h :: T ∧ length T = K
           ∧ lastN (S K) (l ++ [x])%list = (T ++ [x])%list.
Proof.
  unfold lastN. rewrite length_app. cbn [length].
  destruct (decide (length l ≤ K)%nat) as [Hle|Hgt].
  - left. replace (length l - S K)%nat with 0%nat by lia.
    replace (length l + 1 - S K)%nat with 0%nat by lia.
    rewrite !drop_0. split; [lia|done].
  - right. destruct (drop (length l - S K) l) as [|h T] eqn:HL.
    { apply (f_equal length) in HL. rewrite length_drop in HL. cbn in HL. lia. }
    exists h, T. split; [done|]. split.
    + apply (f_equal length) in HL. rewrite length_drop in HL. cbn in HL. lia.
    + replace (length l + 1 - S K)%nat with ((length l - S K) + 1)%nat by lia.
      rewrite drop_app_le by lia. rewrite <- drop_drop, HL. done.
Qed.

Lemma lastN_sorted (K : nat) (l : list string) :
  StronglySorted slt l → StronglySorted slt (lastN K l).
Proof.
  intros Hl. unfold lastN. rewrite <- (take_drop (length l - K) l) in Hl.
  by apply StronglySorted_app_1_r in Hl.
Qed.

Lemma elem_of_lastN {A} (K : nat) (l : list A) (x : A) : x ∈ lastN K l → x ∈ l.
Proof.
  unfold lastN. intros Hx. rewrite <- (take_drop (length l - K) l).
  apply elem_of_app. by right.
Qed.

Lemma namesOf_sorted (cs : list zapwrapper.Call) :
  oneSecondApart cs → withinOneDay cs → StronglySorted slt (namesOf cs).
Proof.
  intros Hsec Hday. apply Sorted_StronglySorted.
  { intros a b c. apply slt_trans. }
  induction cs as [|c cs IH]; [constructor|].
  unfold namesOf. rewrite fmap_cons. constructor.
  - apply IH.
    + intros i c1 c2 H1 H2. by apply (Hsec (S i)).
    + intros c1 c2 H1 H2. apply Hday; by right.
  - destruct cs as [|c' cs]; constructor.
    apply logName_mono.
    + apply Hday; [left|right; left].
    + apply Unix_apart. by apply (Hsec 0%nat).
Qed.

Lemma sorted_NoDup (l : list string) : StronglySorted slt l → NoDup l.
Proof.
  induction 1 as [|x l _ IH Hx]; [apply NoDup_nil_2|].
  apply NoDup_cons_2; [|done]. intros Hin.
  rewrite Forall_forall in Hx. by apply Hx, slt_irrefl in Hin.
Qed.

Lemma namesOf_lastN (K : nat) (cs : list zapwrapper.Call) :
  namesOf (lastN K cs) = lastN K (namesOf cs).
Proof. unfold namesOf, lastN. by rewrite fmap_drop, length_fmap. Qed.

Lemma filesOfCalls_keys logLevel (cs : list zapwrapper.Call) :
  (fileOfCall logLevel <$> cs).*1 = namesOf cs.
Proof. unfold namesOf. rewrite <- list_fmap_compose. done. Qed.

Lemma filesOfCalls_lookup_None logLevel (cs : list zapwrapper.Call) (name : string) :
  name ∉ namesOf cs → filesOfCalls logLevel cs !! name = None.
Proof.
  intros Hn. apply not_elem_of_list_to_map_1. by rewrite filesOfCalls_keys.
Qed.

Lemma filesOfCalls_is_Some logLevel (cs : list zapwrapper.Call) (name : string) :
  is_Some (filesOfCalls logLevel cs !! name) → name ∈ namesOf cs.
Proof.
  intros Hsome. destruct (decide (name ∈ namesOf cs)) as [|Hn]; [done|].
  rewrite (filesOfCalls_lookup_None _ _ _ Hn) in Hsome. by destruct Hsome.
Qed.

Lemma filesOfCalls_allRemovable logLevel (cs : list zapwrapper.Call) :
  allRemovable (filesOfCalls logLevel cs).
Proof.
  intros name node Hnode. apply elem_of_list_to_map_2 in Hnode.
  by apply list_elem_of_fmap in Hnode as (c & [= _ ->] & _).
Qed.

Lemma filesOfCalls_size logLevel (cs : list zapwrapper.Call) :
  StronglySorted slt (namesOf cs) → size (filesOfCalls logLevel cs) = length cs.
Proof.
  intros Hs. unfold filesOfCalls. rewrite map_size_list_to_map, length_fmap; [done|].
  rewrite filesOfCalls_keys. by apply sorted_NoDup.
Qed.

Lemma filesOfCalls_snoc logLevel (cs : list zapwrapper.Call) (c : zapwrapper.Call) :
  logName (zapwrapper.now c) ∉ namesOf cs →
  filesOfCalls logLevel (cs ++ [c])
  = <[ logName (zapwrapper.now c) :=
         os.RegularFile (String.concat "" (fileLinesOf logLevel c)) ]>
      (filesOfCalls logLevel cs).
Proof.
  intros Hn. unfold filesOfCalls. rewrite fmap_app. cbn [fmap list_fmap].
  unfold fileOfCall at 2. apply list_to_map_snoc. by rewrite filesOfCalls_keys.
Qed.

(** The invariant of a run whose names go up: the directory holds the
    files of the last [maxBackup + 1] calls. *)
Lemma run_survivors filepath maxBackup logLevel :
  0 ≤ maxBackup →
  ∀ (cs pre : list zapwrapper.Call) w,
    StronglySorted slt (namesOf (pre ++ cs)) →
    Forall (writesSome logLevel) cs →
    os.fs w = os.Dir (filesOfCalls logLevel (lastN (S (Z.to_nat maxBackup)) pre)) None →
    ∃ w',
      zapwrapper.run filepath maxBackup logLevel cs w = os.Returned (tt, w')
      ∧ os.fs w'
        = os.Dir (filesOfCalls logLevel (lastN (S (Z.to_nat maxBackup)) (pre ++ cs))) None.
Proof.
  intros Hk. induction cs as [|c cs IH]; intros pre w Hsorted Hsome Hfs.
  { exists w. by rewrite app_nil_r. }
  apply Forall_cons in Hsome as [Hc Hsome].
  set (K := Z.to_nat maxBackup) in *.
  set (n := logName (zapwrapper.now c)).
  assert (namesOf (pre ++ c :: cs) = (namesOf pre ++ n :: namesOf cs)%list) as Hnames.
  { unfold namesOf. by rewrite fmap_app, fmap_cons. }
  rewrite Hnames in Hsorted.
  assert (∀ x, x ∈ namesOf pre → slt x n) as Hbelow.
  { intros x Hx. eapply StronglySorted_app_1_elem_of; [done|done|left]. }
  assert (StronglySorted slt (namesOf (lastN (S K) pre))) as HL.
  { rewrite namesOf_lastN. apply lastN_sorted.
    by apply StronglySorted_app_1_l in Hsorted. }
  assert (∀ T, (∀ x, x ∈ namesOf T → x ∈ namesOf pre) → n ∉ namesOf T) as Hnew.
  { intros T HT Hn%HT%Hbelow. by apply slt_irrefl in Hn. }
  assert (∀ x, x ∈ namesOf (lastN (S K) pre) → x ∈ namesOf pre) as Hsub.
  { intros x. rewrite namesOf_lastN. apply elem_of_lastN. }
  destruct (call_step filepath maxBackup logLevel c w _ Hfs
              (filesOfCalls_allRemovable _ _) Hk) as (w1 & m1 & Hcall & Hm1 & Hfs1).
  fold n in Hfs1. rewrite (filesOfCalls_size _ _ HL) in Hm1.
  rewrite (run_cons _ _ _ _ _ _ _ _ Hcall).
  replace (pre ++ c :: cs)%list with ((pre ++ [c]) ++ cs)%list
    by (by rewrite <- app_assoc).
  apply (IH (pre ++ [c])%list); [|done|].
  { rewrite <- app_assoc. cbn [app]. by rewrite Hnames. }
  apply fileLinesOf_nil_iff in Hc.
  destruct (lastN_snoc K pre c) as [[Hlen ->]|(h & T & HhT & HT & ->)].
  - destruct Hm1 as [[_ ->]|[Hgt _]]; [|lia].
    rewrite Hfs1, written_all_fresh
      by (apply filesOfCalls_lookup_None, Hnew, Hsub).
    destruct (fileLinesOf logLevel c) as [|d ds] eqn:Hds; [done|].
    rewrite filesOfCalls_snoc by apply Hnew, Hsub. by rewrite Hds.
  - rewrite HhT in *. destruct Hm1 as [[Hle _]|(_ & oldest & [Hold Hmin] & ->)].
    { cbn [length] in Hle. lia. }
    unfold namesOf in HL. rewrite fmap_cons in HL. fold (namesOf T) in HL.
    apply StronglySorted_inv in HL as [_ Hh]. rewrite Forall_forall in Hh.
    assert (∀ x, x ∈ namesOf T → x ∈ namesOf pre) as HsubT.
    { intros x Hx. apply Hsub. unfold namesOf. rewrite fmap_cons. by right. }
    assert (oldest = logName (zapwrapper.now h)) as ->.
    { apply filesOfCalls_is_Some in Hold. unfold namesOf in Hold.
      rewrite fmap_cons in Hold. apply elem_of_cons in Hold as [?|Hold]; [done|].
      apply Hh in Hold. specialize (Hmin (logName (zapwrapper.now h))).
      apply sle_iff in Hmin; [done|].
      unfold filesOfCalls. rewrite fmap_cons. unfold fileOfCall at 1.
      rewrite list_to_map_cons, lookup_insert_eq. by eexists. }
    assert (delete (logName (zapwrapper.now h)) (filesOfCalls logLevel (h :: T))
            = filesOfCalls logLevel T) as Hdel.
    { unfold filesOfCalls. rewrite fmap_cons. unfold fileOfCall at 1.
      rewrite list_to_map_cons. apply delete_insert_id.
      apply filesOfCalls_lookup_None. intros Hin. by apply Hh, slt_irrefl in Hin. }
    rewrite Hfs1, Hdel, written_all_fresh
      by (apply filesOfCalls_lookup_None, Hnew, HsubT).
    destruct (fileLinesOf logLevel c) as [|d ds] eqn:Hds; [done|].
    rewrite filesOfCalls_snoc by apply Hnew, HsubT. by rewrite Hds.
Qed.

End Survivors.

(** ** The run of the package's test *)

Section TestRun.

Lemma regularOnly_allRemovable m : regularOnly m → allRemovable m.
Proof. intros Hreg name node Hnode. by destruct (Hreg _ _ Hnode) as [[data ->] _]. Qed.

Lemma logName_nonempty now : logName now ≠ "".
Proof. unfold logName. cbn [String.append]. discriminate. Qed.

Lemma NewLogger_stdout now filepath maxBackup logLevel w w' (log : zap.Logger) :
  zapwrapper.NewLogger now filepath maxBackup logLevel w = os.Returned (log, w') →
  os.stdout w' = os.stdout w.
Proof.
  intros [->|(files & ok & entry & _ & _ & ->)]%NewLogger_cases; [done|].
  apply afterRemove_stdout.
Qed.

(** One round of the loop keeps the directory within four regular files
    and prints one line. *)
Lemma iteration_step (clock : nat → time.Time) (i : nat) w m :
  os.fs w = os.Dir m None → regularOnly m → Z.of_nat (size m) ≤ 4 →
  ∃ w' m',
    zapwrapper_test.iteration clock i w = os.Returned (tt, w')
    ∧ os.fs w' = os.Dir m' None ∧ regularOnly m' ∧ Z.of_nat (size m') ≤ 4
    ∧ os.stdout w'
      = (os.stdout w
         ++ [consoleLine
               (zap.entry zapcore.InfoLevel (clock (2 + 2 * i)%nat)
                  "This is a test log message")
               [zapwrapper_test.iterationField i]])%list.
Proof.
  intros Hfs Hreg Hsize. unfold zapwrapper_test.iteration, mbind, os.M_bind.
  destruct (NewLogger_step (clock (1 + 2 * i)%nat) zapwrapper_test.testLogDir
              zapwrapper_test.maxBackup zapcore.DebugLevel w m Hfs
              (regularOnly_allRemovable _ Hreg) ltac:(done))
    as (w1 & m1 & Hnew & Hfs1 & Hm1).
  rewrite Hnew, Log_handleOf.
  change (zapcore.Enabled zapcore.DebugLevel zapcore.InfoLevel) with true.
  cbv beta iota. unfold zapwrapper_test.Sync, mret, os.M_ret.
  assert (regularOnly m1 ∧ Z.of_nat (size m1) ≤ 3) as [Hreg1 Hsize1].
  { unfold zapwrapper_test.maxBackup in Hm1.
    destruct Hm1 as [[Hle ->]|(Hgt & oldest & [Hold _] & ->)]; [done|]. split.
    - intros name node [_ Hnode]%lookup_delete_Some. by eapply Hreg.
    - rewrite map_size_delete_Some by done. lia. }
  assert (∃ m2, written (logName (clock (1 + 2 * i)%nat))
                  (fileLine (zap.entry zapcore.InfoLevel (clock (2 + 2 * i)%nat)
                               "This is a test log message")
                     [zapwrapper_test.iterationField i]) (os.Dir m1 None)
                = os.Dir m2 None
                ∧ regularOnly m2 ∧ Z.of_nat (size m2) ≤ 4) as (m2 & Hw & Hreg2 & Hsize2).
  { unfold written.
    destruct (m1 !! logName (clock (1 + 2 * i)%nat)) as [[old|n]|] eqn:Hlook.
    - eexists. split; [done|]. split.
      + intros name node [[<- <-]|[_ Hnode]]%lookup_insert_Some;
          [split; [by eexists|apply logName_nonempty]|by eapply Hreg1].
      + rewrite map_size_insert_Some by done. lia.
    - by destruct (Hreg1 _ _ Hlook) as [[? ?] _].
    - eexists. split; [done|]. split.
      + intros name node [[<- <-]|[_ Hnode]]%lookup_insert_Some;
          [split; [by eexists|apply logName_nonempty]|by eapply Hreg1].
      + rewrite map_size_insert_None by done. lia. }
  eexists _, m2. split; [done|]. unfold logged. cbn [os.fs os.stdout].
  rewrite Hfs1, (NewLogger_stdout _ _ _ _ _ _ _ Hnew). by rewrite Hw.
Qed.

Lemma loop_steps (clock : nat → time.Time) (indices : list nat) :
  ∀ w m,
    os.fs w = os.Dir m None → regularOnly m → Z.of_nat (size m) ≤ 4 →
    ∃ w' m',
      zapwrapper_test.loop clock indices w = os.Returned (tt, w')
      ∧ os.fs w' = os.Dir m' None ∧ regularOnly m' ∧ Z.of_nat (size m') ≤ 4
      ∧ os.stdout w'
        = (os.stdout w
           ++ ((λ i, consoleLine
                       (zap.entry zapcore.InfoLevel (clock (2 + 2 * i)%nat)
                          "This is a test log message")
                       [zapwrapper_test.iterationField i]) <$> indices))%list.
Proof.
  induction indices as [|i rest IH]; intros w m Hfs Hreg Hsize.
  { exists w, m. cbn. by rewrite app_nil_r. }
  destruct (iteration_step clock i w m Hfs Hreg Hsize)
    as (w1 & m1 & Hit & Hfs1 & Hreg1 & Hsize1 & Hout1).
  destruct (IH w1 m1 Hfs1 Hreg1 Hsize1) as (w' & m' & Hloop & Hfs' & Hreg' & Hsize' & Hout').
  exists w', m'. cbn [zapwrapper_test.loop]. unfold mbind, os.M_bind. rewrite Hit.
  split; [done|]. split; [done|]. split; [done|]. split; [done|].
  by rewrite Hout', Hout1, fmap_cons, <- app_assoc.
Qed.

Lemma checkFiles_pass (files : list os.DirEntry) :
  Forall (λ e, os.IsDir e = false ∧ os.Name e ≠ "") files →
  zapwrapper_test.checkFiles files = zapwrapper_test.Pass.
Proof.
  induction 1 as [|e files [Hdir Hname] _ IH]; [done|].
  cbn [zapwrapper_test.checkFiles]. unfold zapwrapper_test.IsRegular. rewrite Hdir.
  cbn [negb]. by destruct (os.Name e).
Qed.

Lemma checkDirectory_pass w m :
  os.fs w = os.Dir m None → regularOnly m → Z.of_nat (size m) ≤ 4 →
  zapwrapper_test.checkDirectory w = os.Returned (zapwrapper_test.Pass, w).
Proof.
  intros Hfs Hreg Hsize. unfold zapwrapper_test.checkDirectory, mbind, os.M_bind.
  rewrite (ReadDir_Dir _ _ Hfs). cbn [negb]. rewrite listing_length.
  unfold zapwrapper_test.maxBackup.
  destruct (Z.gtb_spec (Z.of_nat (size m)) (3 + 1)); [lia|].
  unfold mret, os.M_ret. rewrite checkFiles_pass; [done|].
  apply Forall_forall. intros e (node & Hnode & ->)%elem_of_listing.
  destruct (Hreg _ _ Hnode) as [[data ->] Hname]. done.
Qed.

Lemma Mkdir_fresh w :
  os.fs w = os.Missing ∨ os.fs w = os.Dir ∅ None →
  ∃ w0, zapwrapper_test.Mkdir w = os.Returned (tt, w0)
        ∧ os.fs w0 = os.Dir ∅ None ∧ os.stdout w0 = os.stdout w.
Proof.
  unfold zapwrapper_test.Mkdir. intros [Hfs|Hfs]; rewrite Hfs; eexists; by split.
Qed.

(** On a path that is not a directory the factory does nothing, and no
    record reaches a file. *)
Lemma NewLogger_NotDir now filepath maxBackup logLevel w :
  os.fs w = os.NotDir → 0 ≤ maxBackup →
  zapwrapper.NewLogger now filepath maxBackup logLevel w
  = os.Returned (handleOf now filepath logLevel, w).
Proof.
  intros Hfs Hk.
  rewrite (NewLogger_listed _ _ _ _ w [] false) by (unfold os.ReadDir; by rewrite Hfs).
  cbn [length]. by destruct (Z.gtb_spec (Z.of_nat 0) maxBackup); [lia|].
Qed.

Lemma loop_NotDir (clock : nat → time.Time) (indices : list nat) :
  ∀ w, os.fs w = os.NotDir →
    ∃ w', zapwrapper_test.loop clock indices w = os.Returned (tt, w')
          ∧ os.fs w' = os.NotDir
          ∧ os.removeCalls w' = os.removeCalls w
          ∧ os.stdout w'
            = (os.stdout w
               ++ ((λ i, consoleLine
                           (zap.entry zapcore.InfoLevel (clock (2 + 2 * i)%nat)
                              "This is a test log message")
                           [zapwrapper_test.iterationField i]) <$> indices))%list.
Proof.
  induction indices as [|i rest IH]; intros w Hfs.
  { exists w. cbn. by rewrite app_nil_r. }
  cbn [zapwrapper_test.loop]. unfold zapwrapper_test.iteration, mbind, os.M_bind.
  rewrite (NewLogger_NotDir _ _ _ _ _ Hfs) by done. rewrite Log_handleOf.
  change (zapcore.Enabled zapcore.DebugLevel zapcore.InfoLevel) with true.
  cbv beta iota. unfold zapwrapper_test.Sync, mret, os.M_ret.
  set (w1 := logged _ _ _ _ _ w).
  destruct (IH w1) as (w' & Hloop & Hfs' & Hrm' & Hout').
  { unfold w1, logged. cbn [os.fs]. by rewrite Hfs. }
  exists w'. split; [done|]. split; [done|]. split; [by rewrite Hrm'|].
  rewrite Hout', fmap_cons. unfold w1, logged. cbn [os.stdout]. by rewrite <- app_assoc.
Qed.

End TestRun.

(** ** Directories that the pruning cannot shrink *)

Section Growth.

Lemma slt_append (d a x : string) : slt d a → slt d (a +:+ x).
Proof.
  unfold slt. revert d; induction a as [|c a IH]; intros [|e d]; cbn; try done.
  destruct (Ascii.compare e c); [apply IH|done|done].
Qed.

Lemma slt_logName (d : string) now : slt d "logs_" → slt d (logName now).
Proof. intros Hd. unfold logName. by apply slt_append. Qed.

(** A listing that returns no more than [maxBackup] entries, with or
    without an error, leaves the factory nothing to do. *)
Lemma NewLogger_short_listing now filepath maxBackup logLevel w files ok :
  os.ReadDir w = os.Returned ((files, ok), w) →
  Z.of_nat (length files) ≤ maxBackup →
  zapwrapper.NewLogger now filepath maxBackup logLevel w
  = os.Returned (handleOf now filepath logLevel, w).
Proof.
  intros Hread Hlen.
  assert (os.fs w = os.Missing ∨ os.fs w ≠ os.Missing) as [Hfs|Hfs]
    by (destruct (os.fs w); auto).
  { by apply NewLogger_Missing. }
  rewrite (NewLogger_listed _ _ _ _ _ _ _ Hfs Hread).
  by destruct (Z.gtb_spec (Z.of_nat (length files)) maxBackup); [lia|].
Qed.

Lemma ReadDir_partial w m (j : nat) :
  os.fs w = os.Dir m (Some j) →
  ∃ files, os.ReadDir w = os.Returned ((files, false), w) ∧ (length files ≤ j)%nat.
Proof.
  intros Hfs. unfold os.ReadDir. rewrite Hfs. eexists. split; [done|].
  rewrite Slice_length, length_fmap, length_take. lia.
Qed.

(** The listing breaks off after at most [maxBackup] entries: nothing is
    ever removed. *)
Lemma run_unlisted filepath maxBackup logLevel (j : nat) (cs : list zapwrapper.Call) :
  Z.of_nat j ≤ maxBackup →
  ∀ w m,
    os.fs w = os.Dir m (Some j) →
    Forall (writesSome logLevel) cs → NoDup (namesOf cs) →
    (∀ name, name ∈ namesOf cs → m !! name = None) →
    ∃ w' m',
      zapwrapper.run filepath maxBackup logLevel cs w = os.Returned (tt, w')
      ∧ os.fs w' = os.Dir m' (Some j) ∧ m ⊆ m'
      ∧ size m' = (size m + length cs)%nat
      ∧ os.removeCalls w' = os.removeCalls w.
Proof.
  intros Hj. induction cs as [|c cs IH]; intros w m Hfs Hsome Hdup Hfresh.
  { exists w, m. cbn [length]. rewrite Nat.add_0_r. by repeat split. }
  apply Forall_cons in Hsome as [Hc Hsome].
  unfold namesOf in Hdup, Hfresh. rewrite fmap_cons in Hdup, Hfresh.
  apply NoDup_cons in Hdup as [Hnew Hdup].
  destruct (ReadDir_partial w m j Hfs) as (files & Hread & Hlen).
  pose proof (NewLogger_short_listing (zapwrapper.now c) filepath maxBackup logLevel
                w files false Hread ltac:(lia)) as Hnew_.
  pose proof (call_emitted _ _ _ _ _ _ _ Hnew_) as Hcall.
  set (w1 := emitted _ _ _ _ w) in Hcall.
  assert (m !! logName (zapwrapper.now c) = None) as Hn by (apply Hfresh; left).
  assert (os.fs w1
          = os.Dir (<[ logName (zapwrapper.now c) :=
                         os.RegularFile (String.concat "" (fileLinesOf logLevel c)) ]> m)
              (Some j)) as Hfs1.
  { unfold w1. rewrite emitted_fs, Hfs, (written_all_fresh _ _ _ _ Hn).
    apply fileLinesOf_nil_iff in Hc. by destruct (fileLinesOf logLevel c). }
  destruct (IH w1 _ Hfs1 Hsome Hdup) as (w' & m' & Hrun & Hfs' & Hsub & Hsize & Hrm).
  { intros name Hname. rewrite lookup_insert_ne by (by intros <-).
    apply Hfresh. by right. }
  exists w', m'. rewrite (run_cons _ _ _ _ _ _ _ _ Hcall).
  split; [done|]. split; [done|]. split; [|split].
  - etrans; [|done]. by apply insert_subseteq.
  - rewrite Hsize, (map_size_insert_None _ _ _ Hn). cbn [length]. lia.
  - rewrite Hrm. unfold w1. apply emitted_removeCalls.
Qed.

(** The entry with the least name is a subdirectory that is not empty,
    and sorts before every log file: each removal fails. *)
Lemma run_blocked filepath maxBackup logLevel (d : string) (children : nat)
    (cs : list zapwrapper.Call) :
  slt d "logs_" →
  ∀ w m,
    os.fs w = os.Dir m None →
    m !! d = Some (os.SubDir (S children)) → least m d →
    Forall (writesSome logLevel) cs → NoDup (namesOf cs) →
    (∀ name, name ∈ namesOf cs → m !! name = None) →
    ∃ w' m' (tries : nat),
      zapwrapper.run filepath maxBackup logLevel cs w = os.Returned (tt, w')
      ∧ os.fs w' = os.Dir m' None ∧ m ⊆ m'
      ∧ size m' = (size m + length cs)%nat
      ∧ os.removeCalls w'
        = (os.removeCalls w ++ replicate tries (filepath +:+ "/" +:+ d))%list.
Proof.
  intros Hd. induction cs as [|c cs IH]; intros w m Hfs Hsub Hleast Hsome Hdup Hfresh.
  { exists w, m, 0%nat. cbn [length replicate]. rewrite Nat.add_0_r, app_nil_r.
    by repeat split. }
  apply Forall_cons in Hsome as [Hc Hsome].
  unfold namesOf in Hdup, Hfresh. rewrite fmap_cons in Hdup, Hfresh.
  apply NoDup_cons in Hdup as [Hnew Hdup].
  assert (m !! logName (zapwrapper.now c) = None) as Hn by (apply Hfresh; left).
  assert (∃ w0 (t0 : nat),
            zapwrapper.NewLogger (zapwrapper.now c) filepath maxBackup logLevel w
            = os.Returned (handleOf (zapwrapper.now c) filepath logLevel, w0)
            ∧ os.fs w0 = os.Dir m None
            ∧ os.removeCalls w0
              = (os.removeCalls w ++ replicate t0 (filepath +:+ "/" +:+ d))%list)
    as (w0 & t0 & Hnew_ & Hfs0 & Hrm0).
  { destruct (Z.le_gt_cases (Z.of_nat (size m)) maxBackup) as [Hle|Hgt].
    - exists w, 0%nat. rewrite (NewLogger_keep _ _ _ _ _ _ Hfs Hle).
      cbn [replicate]. by rewrite app_nil_r.
    - destruct (NewLogger_prune (zapwrapper.now c) filepath maxBackup logLevel w m Hfs
                  ltac:(lia)) as (name & Hname & Hret).
      { intros ->. by rewrite lookup_empty in Hsub. }
      rewrite (least_unique _ _ _ Hname Hleast) in Hret.
      exists (afterRemove filepath d w), 1%nat. split; [done|]. split.
      + by rewrite (afterRemove_fs _ _ _ _ _ _ Hfs Hsub).
      + by rewrite afterRemove_calls. }
  pose proof (call_emitted _ _ _ _ _ _ _ Hnew_) as Hcall.
  set (w1 := emitted _ _ _ _ w0) in Hcall.
  set (m1 := <[ logName (zapwrapper.now c) :=
                  os.RegularFile (String.concat "" (fileLinesOf logLevel c)) ]> m).
  assert (os.fs w1 = os.Dir m1 None) as Hfs1.
  { unfold w1. rewrite emitted_fs, Hfs0, (written_all_fresh _ _ _ _ Hn).
    apply fileLinesOf_nil_iff in Hc. by destruct (fileLinesOf logLevel c). }
  assert (d ≠ logName (zapwrapper.now c)) as Hne by (intros ->; congruence).
  destruct (IH w1 m1 Hfs1) as (w' & m' & t' & Hrun & Hfs' & Hsub' & Hsize & Hrm);
    try done.
  { unfold m1. by rewrite lookup_insert_ne. }
  { destruct Hleast as [Hin Hmin]. split.
    - unfold m1. by rewrite lookup_insert_ne.
    - intros other [<-|Hother]%lookup_insert_is_Some'; [|by apply Hmin].
      by apply slt_sle, slt_logName. }
  { intros name Hname. unfold m1. rewrite lookup_insert_ne by (by intros <-).
    apply Hfresh. by right. }
  exists w', m', (t0 + t')%nat. rewrite (run_cons _ _ _ _ _ _ _ _ Hcall).
  split; [done|]. split; [done|]. split; [|split].
  - etrans; [|done]. by apply insert_subseteq.
  - rewrite Hsize. unfold m1. rewrite (map_size_insert_None _ _ _ Hn). cbn [length]. lia.
  - rewrite Hrm. unfold w1. rewrite emitted_removeCalls, Hrm0, replicate_add.
    by rewrite app_assoc.
Qed.

End Growth.

(** * The claims *)

(** ** C1: the scenario of five calls *)

(** C1, counterexample: the five calls of the package's test. Pruning
    removes one file per call and first triggers at the fifth call, so
    the file of the second call is still there afterwards. *)
Lemma C1_second_file_survives :
  ¬ firstTwoGone "./test_logs" zapcore.DebugLevel testCalls.
Proof.
  intros (w' & c1 & c2 & _ & H2 & Hw & _ & _ & Hgone).
  injection H2 as <-.
  assert (hasEntry (logName (zapwrapper.now (testCall 1710072001))) <$>
            worldAfter (zapwrapper.run "./test_logs" 3 zapcore.DebugLevel testCalls
                          zapwrapper.emptyDir)
          = Some true) as Hrun by (vm_compute; reflexivity).
  rewrite Hw in Hrun. cbn [fmap option_fmap option_map] in Hrun. congruence.
Qed.

(** C1, amended: from an empty directory with [maxBackup = 3], five
    calls at least one second apart within one calendar day, each writing
    one accepted record, leave exactly four files: the file of the first
    call is gone and those of the second to the fifth call are there. *)
Theorem C1_five_calls filepath logLevel (c1 c2 c3 c4 c5 : zapwrapper.Call) :
  Forall (writesOne logLevel) [c1; c2; c3; c4; c5] →
  oneSecondApart [c1; c2; c3; c4; c5] →
  sameDay (zapwrapper.now c1) (zapwrapper.now c5) →
  ∃ w', zapwrapper.run filepath 3 logLevel [c1; c2; c3; c4; c5] zapwrapper.emptyDir
        = os.Returned (tt, w')
        ∧ zapwrapper.count w' = 4%nat
        ∧ hasEntry (logName (zapwrapper.now c1)) w' = false
        ∧ Forall (λ c, hasEntry (logName (zapwrapper.now c)) w' = true) [c2; c3; c4; c5].
Proof.
  intros Hone Hapart Hday.
  pose proof (Unix_apart _ _ (Hapart 0%nat c1 c2 eq_refl eq_refl)) as H12.
  pose proof (Unix_apart _ _ (Hapart 1%nat c2 c3 eq_refl eq_refl)) as H23.
  pose proof (Unix_apart _ _ (Hapart 2%nat c3 c4 eq_refl eq_refl)) as H34.
  pose proof (Unix_apart _ _ (Hapart 3%nat c4 c5 eq_refl eq_refl)) as H45.
  destruct (sameDay_between _ (zapwrapper.now c2) _ Hday) as [D12 D25]; [lia|lia|].
  destruct (sameDay_between _ (zapwrapper.now c3) _ D25) as [D23 D35]; [lia|lia|].
  destruct (sameDay_between _ (zapwrapper.now c4) _ D35) as [D34 D45]; [lia|lia|].
  pose proof (logName_mono _ _ D12 H12) as L12.
  pose proof (logName_mono _ _ D23 H23) as L23.
  pose proof (logName_mono _ _ D34 H34) as L34.
  pose proof (logName_mono _ _ D45 H45) as L45.
  apply Forall_cons in Hone as [W1 Hone]. apply Forall_cons in Hone as [W2 Hone].
  apply Forall_cons in Hone as [W3 Hone]. apply Forall_cons in Hone as [W4 Hone].
  apply Forall_cons in Hone as [W5 _].
  set (n1 := logName (zapwrapper.now c1)) in *.
  set (n2 := logName (zapwrapper.now c2)) in *.
  set (n3 := logName (zapwrapper.now c3)) in *.
  set (n4 := logName (zapwrapper.now c4)) in *.
  set (n5 := logName (zapwrapper.now c5)) in *.
  pose proof (slt_trans _ _ _ L12 L23) as L13.
  pose proof (slt_trans _ _ _ L13 L34) as L14.
  pose proof (slt_trans _ _ _ L14 L45) as L15.
  pose proof (slt_trans _ _ _ L23 L34) as L24.
  pose proof (slt_trans _ _ _ L24 L45) as L25.
  pose proof (slt_trans _ _ _ L34 L45) as L35.
  assert (n1 ≠ n2 ∧ n1 ≠ n3 ∧ n1 ≠ n4 ∧ n1 ≠ n5 ∧ n2 ≠ n3 ∧ n2 ≠ n4 ∧ n2 ≠ n5
          ∧ n3 ≠ n4 ∧ n3 ≠ n5 ∧ n4 ≠ n5)
    as (N12 & N13 & N14 & N15 & N23 & N24 & N25 & N34 & N35 & N45)
    by (repeat split; by apply slt_ne).
  unfold zapwrapper.run, mbind, os.M_bind.
  destruct (call_writes filepath 3 logLevel c1 zapwrapper.emptyDir ∅ W1 eq_refl)
    as (w1 & d1 & -> & F1); [rewrite map_size_empty; lia|apply lookup_empty|].
  fold n1 in F1.
  destruct (call_writes filepath 3 logLevel c2 w1 _ W2 F1)
    as (w2 & d2 & -> & F2); [map_size; lia|fold n2; fresh_in_map|].
  fold n2 in F2.
  destruct (call_writes filepath 3 logLevel c3 w2 _ W3 F2)
    as (w3 & d3 & -> & F3); [map_size; lia|fold n3; fresh_in_map|].
  fold n3 in F3.
  destruct (call_writes filepath 3 logLevel c4 w3 _ W4 F3)
    as (w4 & d4 & -> & F4); [map_size; lia|fold n4; fresh_in_map|].
  fold n4 in F4.
  set (m4 := <[n4:=os.RegularFile d4]> (<[n3:=os.RegularFile d3]>
               (<[n2:=os.RegularFile d2]> (<[n1:=os.RegularFile d1]> ∅)))) in *.
  assert (size m4 = 4%nat) as S4 by (unfold m4; by map_size).
  assert (m4 !! n1 = Some (os.RegularFile d1)) as M1.
  { unfold m4. rewrite !lookup_insert_ne by done. by rewrite lookup_insert_eq. }
  assert (∀ other, is_Some (m4 !! other) → other = n1 ∨ other = n2 ∨ other = n3 ∨ other = n4)
    as Hdom.
  { intros other. unfold m4.
    rewrite !lookup_insert_is_Some, lookup_empty. intros H.
    destruct H as [->|[_ H]]; [auto|]. destruct H as [->|[_ H]]; [auto|].
    destruct H as [->|[_ H]]; [auto|]. destruct H as [->|[_ H]]; [auto|].
    by destruct H. }
  assert (least m4 n1) as Hleast.
  { split; [by rewrite M1|]. intros other [->|[->|[->| ->]]]%Hdom.
    - unfold sle. by rewrite compare_refl.
    - by apply slt_sle.
    - by apply slt_sle.
    - by apply slt_sle. }
  destruct (call_prunes filepath 3 logLevel c5 w4 m4 n1 d1 W5 F4 ltac:(lia) Hleast M1)
    as (w5 & d5 & -> & F5); [fold n5; unfold m4; fresh_in_map|].
  fold n5 in F5.
  exists w5. split; [done|].
  unfold zapwrapper.count, hasEntry. rewrite F5.
  split; [|split].
  - rewrite map_size_insert_None by (unfold m4; fresh_in_map).
    rewrite map_size_delete_Some by (by rewrite M1). by rewrite S4.
  - apply bool_decide_eq_false. rewrite lookup_insert_ne by done.
    rewrite lookup_delete_eq. by intros [? ?].
  - repeat apply Forall_cons_2; try apply Forall_nil_2; apply bool_decide_eq_true.
    + rewrite lookup_insert_ne, lookup_delete_ne by done. unfold m4.
      rewrite !lookup_insert_ne by done. by rewrite lookup_insert_eq.
    + rewrite lookup_insert_ne, lookup_delete_ne by done. unfold m4.
      rewrite lookup_insert_ne by done. by rewrite lookup_insert_eq.
    + rewrite lookup_insert_ne, lookup_delete_ne by done. unfold m4.
      by rewrite lookup_insert_eq.
    + by rewrite lookup_insert_eq.
Qed.

Lemma C1_five_calls_witness :
  ∃ w', zapwrapper.run "./test_logs" 3 zapcore.DebugLevel
          [testCall 1710072000; testCall 1710072001; testCall 1710072002;
           testCall 1710072003; testCall 1710072004] zapwrapper.emptyDir
        = os.Returned (tt, w')
        ∧ zapwrapper.count w' = 4%nat
        ∧ hasEntry (logName (zapwrapper.now (testCall 1710072000))) w' = false
        ∧ Forall (λ c, hasEntry (logName (zapwrapper.now c)) w' = true)
            [testCall 1710072001; testCall 1710072002; testCall 1710072003;
             testCall 1710072004].
Proof.
  apply (C1_five_calls "./test_logs" zapcore.DebugLevel).
  - repeat constructor; eexists; (split; [reflexivity|vm_compute; discriminate]).
  - exact testCalls_oneSecondApart.
  - vm_compute. reflexivity.
Defined.

(** ** C2: names and call order *)

(** C2, the code at a failing input: a call in the last second of
    31 January 2024 and a call one second later, on 1 February. The
    later call gets the name that sorts first, and a third call pruning a
    directory that holds the two files (with [maxBackup = 1]) hands the
    newer one to [os.Remove]. *)
Theorem C2_names_not_chronological :
  let t1 := 1706745599 * time.Second in
  let t2 := 1706745600 * time.Second in
  time.Unix t1 < time.Unix t2
  ∧ logName t1 = "logs_31-01-24_23-59-59.log"
  ∧ logName t2 = "logs_01-02-24_00-00-00.log"
  ∧ slt (logName t2) (logName t1)
  ∧ os.removeCalls <$>
      worldAfter
        (zapwrapper.NewLogger (t2 + time.Second) "./logs" 1 zapcore.DebugLevel
           (inWorld (os.Dir {[ logName t1 := os.RegularFile "";
                               logName t2 := os.RegularFile "" ]} None)))
    = Some ["./logs/logs_01-02-24_00-00-00.log"].
Proof.
  cbv zeta. split; [vm_compute; reflexivity|].
  split; [vm_compute; reflexivity|]. split; [vm_compute; reflexivity|].
  split; [vm_compute; reflexivity|]. vm_compute. reflexivity.
Qed.

(** ** C3: bounded retention *)

(** C3, counterexample: three calls a second apart with [maxBackup = 0],
    no record written yet, so no file is there and nothing is pruned;
    then one record through each of the three handles, which makes
    three files; the fourth call removes one of them and returns with
    two entries in the directory, more than [maxBackup + 1]. *)
Lemma C3_late_writes_exceed_the_bound :
  ¬ retentionIsBounded "./logs" 0 zapcore.DebugLevel lateWrites.
Proof.
  intros Hclaim.
  destruct (Hclaim ltac:(lia) lateWrites_callsApart 6%nat (1710072004 * time.Second)
              eq_refl) as (handles & w' & Hplay & Hcount).
  assert (match zapwrapper.play "./logs" 0 zapcore.DebugLevel (take 7 lateWrites) []
                  zapwrapper.emptyDir with
          | os.Returned (_, w1) => zapwrapper.count w1
          | os.Panicked _ | os.Exited _ => O
          end = 2%nat) as Hrun by (vm_compute; reflexivity).
  rewrite Hplay in Hrun. lia.
Qed.

(** C3, amended: a program of factory calls and records on an empty
    directory, with [maxBackup = k >= 0], in which every record goes
    through the handle made last and none is at Panic or Fatal level,
    gets through each of its steps, and after each of them, call or
    record, the directory holds at most [k + 1] entries. How far apart
    the calls are does not matter. *)
Theorem C3_bounded_retention filepath (k : Z) logLevel (steps : list zapwrapper.Step) :
  0 ≤ k →
  latestOnly 0 steps = true →
  Forall returning steps →
  ∀ n, ∃ handles w',
    zapwrapper.play filepath k logLevel (take n steps) [] zapwrapper.emptyDir
    = os.Returned (handles, w')
    ∧ Z.of_nat (zapwrapper.count w') ≤ k + 1.
Proof.
  intros Hk Hlatest Hret n.
  destruct (play_latestOnly filepath k logLevel (take n steps) Hk [] zapwrapper.emptyDir)
    as (handles & w' & Hplay & Hw').
  { by apply latestOnly_take. }
  { by apply Forall_take. }
  { apply emptyDir_bounded, Hk. }
  exists handles, w'. split; [done|].
  destruct (keptBy_bounded _ _ _ _ _ Hw') as (m & Hfs & _ & Hsize).
  unfold zapwrapper.count. by rewrite Hfs.
Qed.

Lemma C3_bounded_retention_witness :
  ∃ handles w',
    zapwrapper.play "./test_logs" 3 zapcore.DebugLevel (take 5 sessionSteps) []
      zapwrapper.emptyDir
    = os.Returned (handles, w')
    ∧ Z.of_nat (zapwrapper.count w') ≤ 3 + 1.
Proof.
  apply (C3_bounded_retention "./test_logs" 3 zapcore.DebugLevel sessionSteps).
  - lia.
  - reflexivity.
  - repeat apply Forall_cons_2; try apply Forall_nil_2; reflexivity.
Defined.

(** ** C4: what one call deletes *)

(** C4, counterexample: two entries with [maxBackup = 1], the smallest
    name being a subdirectory with files in it. The removal fails, its
    error is dropped, and the directory is what it was. *)
Lemma C4_nonempty_subdirectory_survives :
  ¬ deletesExactlyTheSmallest 0 "./logs" 1 zapcore.DebugLevel withArchive.
Proof.
  intros Hclaim.
  destruct (Hclaim archiveAndLog None eq_refl) as [Hover _].
  destruct Hover as (name & log & w' & [Hin _] & Hret & Hfs);
    [vm_compute; reflexivity|].
  assert (match zapwrapper.NewLogger 0 "./logs" 1 zapcore.DebugLevel withArchive with
          | os.Returned (_, w1) => os.fs w1
          | os.Panicked _ | os.Exited _ => os.Missing
          end = os.Dir archiveAndLog None) as Hrun by (vm_compute; reflexivity).
  rewrite Hret, Hfs in Hrun.
  apply (f_equal (λ st, match st with os.Dir m _ => m !! name | _ => None end))
    in Hrun.
  cbv beta iota in Hrun. rewrite lookup_delete_eq in Hrun.
  rewrite <- Hrun in Hin. exact (is_Some_None Hin).
Qed.

(** C4, amended: on a directory that lists without error and holds more
    than [maxBackup >= 0] entries, one call hands exactly one path to
    [os.Remove], that of the entry with the smallest name; the entry goes
    when it is a file or an empty subdirectory and everything stays when
    the removal fails. With at most [maxBackup] entries the call removes
    nothing. *)
Theorem C4_prune_at_most_one now filepath maxBackup logLevel (w : os.World)
    (m : gmap string os.Node) :
  os.fs w = os.Dir m None →
  0 ≤ maxBackup →
  (Z.of_nat (size m) > maxBackup →
   ∃ name node w',
     least m name ∧ m !! name = Some node
     ∧ zapwrapper.NewLogger now filepath maxBackup logLevel w
       = os.Returned (handleOf now filepath logLevel, w')
     ∧ os.removeCalls w' = (os.removeCalls w ++ [filepath +:+ "/" +:+ name])%list
     ∧ os.fs w' = os.Dir (if removable node then delete name m else m) None)
  ∧ (Z.of_nat (size m) ≤ maxBackup →
     zapwrapper.NewLogger now filepath maxBackup logLevel w
     = os.Returned (handleOf now filepath logLevel, w)).
Proof.
  intros Hfs Hk. split; [|by apply NewLogger_keep].
  intros Hgt.
  destruct (NewLogger_prune now filepath maxBackup logLevel w m Hfs Hgt)
    as (name & Hleast & Hret); [by eapply size_pos_nonempty|].
  destruct Hleast as [[node Hnode] Hmin].
  exists name, node, (afterRemove filepath name w).
  split; [by split; [exists node|]|]. split; [done|]. split; [done|].
  split; [apply afterRemove_calls|].
  rewrite (afterRemove_fs _ _ _ _ _ _ Hfs Hnode). by destruct (removable node).
Qed.

Lemma C4_prune_at_most_one_witness :
  (∃ name node w',
     least twoLogs name ∧ twoLogs !! name = Some node
     ∧ zapwrapper.NewLogger 0 "./logs" 1 zapcore.DebugLevel (inWorld (os.Dir twoLogs None))
       = os.Returned (handleOf 0 "./logs" zapcore.DebugLevel, w')
     ∧ os.removeCalls w' = ([] ++ ["./logs" +:+ "/" +:+ name])%list
     ∧ os.fs w' = os.Dir (if removable node then delete name twoLogs else twoLogs) None)
  ∧ zapwrapper.NewLogger 0 "./logs" 3 zapcore.DebugLevel zapwrapper.emptyDir
    = os.Returned (handleOf 0 "./logs" zapcore.DebugLevel, zapwrapper.emptyDir).
Proof.
  split.
  - apply (proj1 (C4_prune_at_most_one 0 "./logs" 1 zapcore.DebugLevel
                    (inWorld (os.Dir twoLogs None)) twoLogs eq_refl ltac:(lia))).
    vm_compute. reflexivity.
  - apply (proj2 (C4_prune_at_most_one 0 "./logs" 3 zapcore.DebugLevel
                    zapwrapper.emptyDir ∅ eq_refl ltac:(lia))).
    vm_compute. discriminate.
Defined.

(** ** C5: the two sinks *)

(** C5: a record at or above the level given to the factory is handed to
    both sinks, the console first; the two lines carry the same message
    and the same rendered fields and differ in the year digits of the time
    stamp and in the colour codes around the level. A record below that
    level is handed to neither sink and leaves the world as it is. [Log]
    is that write followed by what the level asks for: it returns the
    world the write left, except for a Panic record, where it panics with
    the message once the write is done, and for a Fatal record, where it
    exits. *)
Theorem C5_dual_sink now filepath maxBackup logLevel (w w1 : os.World)
    (log : zap.Logger) (lvl : zapcore.Level) (at_ : time.Time) (msg : string)
    (fields : list zapcore.Field) :
  zapwrapper.NewLogger now filepath maxBackup logLevel w = os.Returned (log, w1) →
  (logLevel ≤ lvl →
   zapcore.Write (zap.core log) (zap.entry lvl at_ msg) fields
   = [(zapcore.Stdout,
       time.Format at_ "02-01-06 15:04:05" +:+ zapcore.ConsoleSeparator
       +:+ (zapwrapper.colorFor lvl +:+ zapcore.CapitalString lvl
            +:+ zapwrapper.colorReset)
       +:+ lineTail msg fields);
      (zapcore.Lumberjack (zapwrapper.filenameOf filepath now),
       time.Format at_ "02-01-2006 15:04:05" +:+ zapcore.ConsoleSeparator
       +:+ zapcore.CapitalString lvl
       +:+ lineTail msg fields)]
   ∧ ∀ w2, zap.write log lvl at_ msg fields w2
           = os.Returned (tt, logged now lvl at_ msg fields w2))
  ∧ (lvl < logLevel →
     zapcore.Write (zap.core log) (zap.entry lvl at_ msg) fields = []
     ∧ ∀ w2, zap.write log lvl at_ msg fields w2 = os.Returned (tt, w2))
  ∧ (∀ w2, zap.Log log lvl at_ msg fields w2
           = match zap.after lvl with
             | zapcore.WriteThenNoop => zap.write log lvl at_ msg fields w2
             | zapcore.WriteThenPanic => os.Panicked msg
             | zapcore.WriteThenFatal => os.Exited 1
             end).
Proof.
  intros ->%NewLogger_handle. split; [|split]; [intros Hlvl..|].
  - assert (zapcore.Enabled logLevel lvl = true) as Hen
      by (unfold zapcore.Enabled; lia).
    split.
    + rewrite Write_handleOf. cbn [zapcore.Level_ zap.entry]. rewrite Hen.
      by rewrite consoleLine_entry, fileLine_entry.
    + intros w2. by rewrite write_handleOf, Hen.
  - assert (zapcore.Enabled logLevel lvl = false) as Hen
      by (unfold zapcore.Enabled; lia).
    split.
    + rewrite Write_handleOf. cbn [zapcore.Level_ zap.entry]. by rewrite Hen.
    + intros w2. by rewrite write_handleOf, Hen.
  - intros w2. rewrite Log_handleOf, write_handleOf. by destruct (zap.after lvl).
Qed.

Lemma C5_dual_sink_witness :
  (zapcore.Write (zap.core (handleOf 0 "./logs" zapcore.InfoLevel))
     (zap.entry zapcore.WarnLevel 0 "disk") []
   = [(zapcore.Stdout,
       time.Format 0 "02-01-06 15:04:05" +:+ zapcore.ConsoleSeparator
       +:+ (zapwrapper.colorFor zapcore.WarnLevel
            +:+ zapcore.CapitalString zapcore.WarnLevel +:+ zapwrapper.colorReset)
       +:+ lineTail "disk" []);
      (zapcore.Lumberjack (zapwrapper.filenameOf "./logs" 0),
       time.Format 0 "02-01-2006 15:04:05" +:+ zapcore.ConsoleSeparator
       +:+ zapcore.CapitalString zapcore.WarnLevel
       +:+ lineTail "disk" [])]
   ∧ ∀ w2, zap.write (handleOf 0 "./logs" zapcore.InfoLevel) zapcore.WarnLevel 0 "disk" [] w2
           = os.Returned (tt, logged 0 zapcore.WarnLevel 0 "disk" [] w2))
  ∧ (zapcore.Write (zap.core (handleOf 0 "./logs" zapcore.InfoLevel))
       (zap.entry zapcore.DebugLevel 0 "disk") [] = []
     ∧ ∀ w2, zap.write (handleOf 0 "./logs" zapcore.InfoLevel) zapcore.DebugLevel 0 "disk" [] w2
             = os.Returned (tt, w2))
  ∧ (∀ w2, zap.Log (handleOf 0 "./logs" zapcore.InfoLevel) zapcore.PanicLevel 0 "disk" [] w2
           = match zap.after zapcore.PanicLevel with
             | zapcore.WriteThenNoop =>
                 zap.write (handleOf 0 "./logs" zapcore.InfoLevel) zapcore.PanicLevel 0
                   "disk" [] w2
             | zapcore.WriteThenPanic => os.Panicked "disk"
             | zapcore.WriteThenFatal => os.Exited 1
             end).
Proof.
  assert (zapwrapper.NewLogger 0 "./logs" 3 zapcore.InfoLevel zapwrapper.emptyDir
          = os.Returned (handleOf 0 "./logs" zapcore.InfoLevel, zapwrapper.emptyDir))
    as Hnew by reflexivity.
  split; [|split].
  - apply (proj1 (C5_dual_sink 0 "./logs" 3 zapcore.InfoLevel _ _ _
                    zapcore.WarnLevel 0 "disk" [] Hnew)).
    vm_compute. discriminate.
  - apply (proj1 (proj2 (C5_dual_sink 0 "./logs" 3 zapcore.InfoLevel _ _ _
                           zapcore.DebugLevel 0 "disk" [] Hnew))).
    vm_compute. reflexivity.
  - apply (proj2 (proj2 (C5_dual_sink 0 "./logs" 3 zapcore.InfoLevel _ _ _
                           zapcore.PanicLevel 0 "disk" [] Hnew))).
Defined.

(** ** C6: a listing that fails *)

(** C6, counterexample: the listing of the directory breaks off with an
    error after one entry, [maxBackup = 0]. The error is dropped, the one
    entry read is counted, and it is handed to [os.Remove]. *)
Lemma C6_partial_listing_is_pruned :
  ¬ listingFailureSkipsPruning 0 "./logs" 0 zapcore.DebugLevel halfRead.
Proof.
  intros Hclaim.
  assert (match zapwrapper.NewLogger 0 "./logs" 0 zapcore.DebugLevel halfRead with
          | os.Returned (_, w1) => length (os.removeCalls w1)
          | os.Panicked _ | os.Exited _ => O
          end = 1%nat) as Hrun by (vm_compute; reflexivity).
  rewrite Hclaim in Hrun; [discriminate|].
  eexists. vm_compute. reflexivity.
Qed.

(** C6, amended: for [maxBackup >= 0] the factory returns its handle for
    whatever sits at the path, writes nothing to the console on the way,
    and the handle's console sink takes every enabled record. When the
    directory is missing, or its listing fails without having produced an
    entry, nothing is pruned and the world is left as it was. A listing
    that fails after it has returned entries returns entries of the
    directory, as many as were read; those are what is counted: up to
    [maxBackup] of them nothing is pruned, and beyond, the one of them
    with the least name is handed to [os.Remove]. *)
Theorem C6_listing_failure now filepath maxBackup logLevel (w : os.World) :
  0 ≤ maxBackup →
  (∃ w', zapwrapper.NewLogger now filepath maxBackup logLevel w
         = os.Returned (handleOf now filepath logLevel, w')
         ∧ os.stdout w' = os.stdout w)
  ∧ (os.ReadDir w = os.Returned (([], false), w) →
     zapwrapper.NewLogger now filepath maxBackup logLevel w
     = os.Returned (handleOf now filepath logLevel, w))
  ∧ (∀ m (read : nat),
       os.fs w = os.Dir m (Some read) →
       ∃ files, os.ReadDir w = os.Returned ((files, false), w)
                ∧ length files = (read `min` size m)%nat
                ∧ ∀ e, e ∈ files → is_Some (m !! os.Name e))
  ∧ (∀ files,
       os.ReadDir w = os.Returned ((files, false), w) →
       (Z.of_nat (length files) ≤ maxBackup →
        zapwrapper.NewLogger now filepath maxBackup logLevel w
        = os.Returned (handleOf now filepath logLevel, w))
       ∧ (Z.of_nat (length files) > maxBackup →
          ∃ e, e ∈ files
               ∧ (∀ other, other ∈ files → sle (os.Name e) (os.Name other))
               ∧ zapwrapper.NewLogger now filepath maxBackup logLevel w
                 = os.Returned (handleOf now filepath logLevel,
                                afterRemove filepath (os.Name e) w)
               ∧ os.removeCalls (afterRemove filepath (os.Name e) w)
                 = (os.removeCalls w ++ [filepath +:+ "/" +:+ os.Name e])%list))
  ∧ (∀ w1 lvl at_ msg fields,
       zapcore.Enabled logLevel lvl = true →
       ∃ w2, zap.write (handleOf now filepath logLevel) lvl at_ msg fields w1
             = os.Returned (tt, w2)
             ∧ os.stdout w2
               = (os.stdout w1 ++ [consoleLine (zap.entry lvl at_ msg) fields])%list).
Proof.
  intros Hk. split; [by apply NewLogger_returns|]. split; [|split; [|split]].
  - intros Hread. by apply (NewLogger_short_listing _ _ _ _ _ [] false).
  - intros m read Hfs. unfold os.ReadDir. rewrite Hfs. eexists. split; [done|]. split.
    + by rewrite Slice_length, length_fmap, length_take, length_map_to_list.
    + intros e He. rewrite Slice_perm in He.
      apply list_elem_of_fmap in He as ([name node] & -> & Hin).
      apply elem_of_take in Hin as (i & Hin & _).
      apply list_elem_of_lookup_2 in Hin. apply elem_of_map_to_list in Hin.
      by exists node.
  - intros files Hread. split.
    + intros Hle. by apply (NewLogger_short_listing _ _ _ _ _ files false).
    + intros Hgt.
      assert (os.fs w ≠ os.Missing) as Hfs.
      { intros Hfs. unfold os.ReadDir in Hread. rewrite Hfs in Hread.
        injection Hread as <-. cbn [length] in Hgt. lia. }
      rewrite (NewLogger_listed _ _ _ _ _ _ _ Hfs Hread).
      destruct (Z.gtb_spec (Z.of_nat (length files)) maxBackup); [|lia].
      destruct (head_Slice_is_Some os.byName files) as [oldest Hhead].
      { intros ->. cbn [length] in Hgt. lia. }
      rewrite Hhead.
      apply (head_Slice_least _ byName_irrefl byName_trans byName_cotrans)
        in Hhead as [Hin Hleast].
      exists oldest. split; [done|]. split; [|split; [done|apply afterRemove_calls]].
      intros other Hother. apply ltb_false_sle. exact (Hleast other Hother).
  - intros w1 lvl at_ msg fields Hen. rewrite write_handleOf, Hen. by eexists.
Qed.

Lemma C6_listing_failure_witness :
  (∃ w', zapwrapper.NewLogger 0 "./logs" 0 zapcore.InfoLevel halfRead
         = os.Returned (handleOf 0 "./logs" zapcore.InfoLevel, w')
         ∧ os.stdout w' = os.stdout halfRead)
  ∧ (∃ files, os.ReadDir halfRead = os.Returned ((files, false), halfRead)
              ∧ length files = (1 `min` size twoLogs)%nat
              ∧ ∀ e, e ∈ files → is_Some (twoLogs !! os.Name e))
  ∧ (∃ e, e ∈ [ {| os.Name := "logs_10-03-24_12-00-01.log"; os.IsDir := false |} ]
          ∧ (∀ other,
               other ∈ [ {| os.Name := "logs_10-03-24_12-00-01.log";
                            os.IsDir := false |} ] →
               sle (os.Name e) (os.Name other))
          ∧ zapwrapper.NewLogger 0 "./logs" 0 zapcore.InfoLevel halfRead
            = os.Returned (handleOf 0 "./logs" zapcore.InfoLevel,
                           afterRemove "./logs" (os.Name e) halfRead)
          ∧ os.removeCalls (afterRemove "./logs" (os.Name e) halfRead)
            = (os.removeCalls halfRead ++ ["./logs" +:+ "/" +:+ os.Name e])%list)
  ∧ ∃ w2, zap.write (handleOf 0 "./logs" zapcore.InfoLevel) zapcore.WarnLevel 0 "disk"
            [] halfRead
          = os.Returned (tt, w2)
          ∧ os.stdout w2
            = (os.stdout halfRead
                 ++ [consoleLine (zap.entry zapcore.WarnLevel 0 "disk") []])%list.
Proof.
  pose proof (C6_listing_failure 0 "./logs" 0 zapcore.InfoLevel halfRead
                ltac:(lia)) as (Hret & _ & Hpart & Hprune & Hlog).
  split; [exact Hret|]. split; [exact (Hpart twoLogs 1%nat eq_refl)|]. split.
  - apply (proj2 (Hprune _ ltac:(vm_compute; reflexivity))). cbn [length]. lia.
  - exact (Hlog halfRead zapcore.WarnLevel 0 "disk" [] eq_refl).
Defined.

(** ** C7: what is counted *)

(** C7: the count is that of the entries the listing returned and the
    candidates are those entries, whatever their kind and name: when
    there are more than [maxBackup] of them, the one with the smallest
    name, be it a subdirectory or a file that is no log file, is the one
    whose path goes to [os.Remove]; and a listing that succeeds returns
    every entry of the directory. *)
Theorem C7_every_entry_is_a_candidate now filepath maxBackup logLevel
    (w : os.World) (files : list os.DirEntry) (ok : bool) (e : os.DirEntry) :
  os.fs w ≠ os.Missing →
  os.ReadDir w = os.Returned ((files, ok), w) →
  e ∈ files →
  (∀ other, other ∈ files → sle (os.Name e) (os.Name other)) →
  Z.of_nat (length files) > maxBackup →
  (∃ w', zapwrapper.NewLogger now filepath maxBackup logLevel w
         = os.Returned (handleOf now filepath logLevel, w')
         ∧ os.removeCalls w'
           = (os.removeCalls w ++ [filepath +:+ "/" +:+ os.Name e])%list)
  ∧ (∀ m, os.fs w = os.Dir m None →
          length files = size m
          ∧ ∀ name node, m !! name = Some node → os.entryOf (name, node) ∈ files).
Proof.
  intros Hfs Hread He Hmin Hgt. split.
  - rewrite (NewLogger_listed _ _ _ _ _ _ _ Hfs Hread).
    destruct (Z.gtb_spec (Z.of_nat (length files)) maxBackup); [|lia].
    destruct (head_Slice_is_Some os.byName files) as [oldest Hhead].
    { intros ->. by apply not_elem_of_nil in He. }
    rewrite Hhead.
    apply (head_Slice_least _ byName_irrefl byName_trans byName_cotrans)
      in Hhead as [Hin Hleast].
    assert (os.Name oldest = os.Name e) as ->.
    { apply sle_antisym; [|by apply Hmin].
      apply ltb_false_sle. exact (Hleast e He). }
    eexists. split; [done|]. apply afterRemove_calls.
  - intros m Hm. rewrite (ReadDir_Dir _ _ Hm) in Hread.
    injection Hread as <- _. split; [apply listing_length|].
    intros name node Hnode. apply elem_of_listing. by exists node.
Qed.

Lemma C7_every_entry_is_a_candidate_witness :
  (∃ w', zapwrapper.NewLogger 0 "./logs" 1 zapcore.DebugLevel withArchive
         = os.Returned (handleOf 0 "./logs" zapcore.DebugLevel, w')
         ∧ os.removeCalls w'
           = (os.removeCalls withArchive ++ ["./logs" +:+ "/" +:+ "archive"])%list)
  ∧ (∀ m, os.fs withArchive = os.Dir m None →
          length [ {| os.Name := "archive"; os.IsDir := true |};
                   {| os.Name := "logs_10-03-24_12-00-00.log"; os.IsDir := false |} ]
          = size m
          ∧ ∀ name node,
              m !! name = Some node →
              os.entryOf (name, node)
              ∈ [ {| os.Name := "archive"; os.IsDir := true |};
                  {| os.Name := "logs_10-03-24_12-00-00.log"; os.IsDir := false |} ]).
Proof.
  apply (C7_every_entry_is_a_candidate 0 "./logs" 1 zapcore.DebugLevel withArchive
           [ {| os.Name := "archive"; os.IsDir := true |};
             {| os.Name := "logs_10-03-24_12-00-00.log"; os.IsDir := false |} ]
           true {| os.Name := "archive"; os.IsDir := true |}).
  - discriminate.
  - vm_compute. reflexivity.
  - by left.
  - intros other Hin.
    apply elem_of_cons in Hin as [->|Hin]; [vm_compute; discriminate|].
    apply list_elem_of_singleton in Hin as ->. vm_compute. discriminate.
  - simpl. lia.
Defined.

(** ** C8: the path of the new file *)

(** C8: the file core of the handle writes to
    [filepath/logs_DD-MM-YY_HH-MM-SS.log], the fields being those of the
    reading of the clock, two digits each; the path depends on the reading
    through its second only, so two calls in one second on one directory
    get one path. *)
Theorem C8_file_path now filepath maxBackup logLevel (w w' : os.World)
    (log : zap.Logger) :
  zapwrapper.NewLogger now filepath maxBackup logLevel w = os.Returned (log, w') →
  zap.core log
  = [zapcore.NewCore zapwrapper.consoleEncoderConfig zapcore.Stdout logLevel;
     zapcore.NewCore zapwrapper.fileEncoderConfig
       (zapcore.Lumberjack (filepath +:+ "/logs_" +:+ zeroPadded now +:+ ".log"))
       logLevel]
  ∧ String.length (zeroPadded now) = 17%nat
  ∧ ∀ now2, time.Unix now2 = time.Unix now →
            zapwrapper.filenameOf filepath now2
            = filepath +:+ "/logs_" +:+ zeroPadded now +:+ ".log".
Proof.
  intros ->%NewLogger_handle. split; [|split].
  - unfold handleOf, zapcore.NewTee, zapwrapper.filenameOf. cbn [zap.core].
    by rewrite timestampOf_zeroPadded.
  - unfold zeroPadded. rewrite !append_length. unfold pad2. by cbn [String.length].
  - intros now2 Hsec. unfold zapwrapper.filenameOf.
    by rewrite (timestampOf_Unix now2 now Hsec), timestampOf_zeroPadded.
Qed.

Lemma C8_file_path_witness :
  zap.core (handleOf 1710072000000000123 "./logs" zapcore.InfoLevel)
  = [zapcore.NewCore zapwrapper.consoleEncoderConfig zapcore.Stdout zapcore.InfoLevel;
     zapcore.NewCore zapwrapper.fileEncoderConfig
       (zapcore.Lumberjack
          ("./logs" +:+ "/logs_" +:+ zeroPadded 1710072000000000123 +:+ ".log"))
       zapcore.InfoLevel]
  ∧ String.length (zeroPadded 1710072000000000123) = 17%nat
  ∧ ∀ now2, time.Unix now2 = time.Unix 1710072000000000123 →
            zapwrapper.filenameOf "./logs" now2
            = "./logs" +:+ "/logs_" +:+ zeroPadded 1710072000000000123 +:+ ".log".
Proof.
  apply (C8_file_path 1710072000000000123 "./logs" 3 zapcore.InfoLevel
           zapwrapper.emptyDir zapwrapper.emptyDir).
  reflexivity.
Defined.

(** ** C9: the colour of a level *)

(** C9, counterexample: FATAL is not given a colour of its own; it is
    rendered in the red of ERROR, so the five tiers with FATAL in the
    last one are not pairwise distinct. *)
Lemma C9_fatal_shares_red : ¬ tiersDistinct zapcore.FatalLevel.
Proof.
  unfold tiersDistinct. intros Hnd.
  apply (bool_decide_pack _) in Hnd. by vm_compute in Hnd.
Qed.

(** C9, amended: the console level encoding is a fixed function of the
    level, [colorFor level ++ LEVEL ++ reset]; it gives pairwise distinct
    colours to DEBUG, INFO, WARN, ERROR and the DPANIC/PANIC tier, and
    gives FATAL the colour of ERROR. *)
Theorem C9_level_colours :
  (∀ level, zapcore.EncodeLevel zapwrapper.consoleEncoderConfig level
            = zapwrapper.colorFor level +:+ zapcore.CapitalString level
              +:+ zapwrapper.colorReset)
  ∧ tiersDistinct zapcore.DPanicLevel
  ∧ zapwrapper.colorFor zapcore.PanicLevel = zapwrapper.colorFor zapcore.DPanicLevel
  ∧ zapwrapper.colorFor zapcore.FatalLevel = zapwrapper.colorFor zapcore.ErrorLevel.
Proof.
  split; [done|]. split; [|done].
  unfold tiersDistinct. apply (bool_decide_unpack _). by vm_compute.
Qed.

(** ** C10: the first entry *)

(** C10: with [maxBackup >= 0], whenever the count of the listed entries
    exceeds [maxBackup] the sorted slice has a first element, so
    [files[0]] is in bounds and the factory returns; with a negative
    [maxBackup] and an existing empty directory the guard lets the
    access through and the factory panics on the index. *)
Theorem C10_first_entry_in_bounds now filepath maxBackup logLevel (w : os.World) :
  (0 ≤ maxBackup →
   (∀ files ok,
      os.ReadDir w = os.Returned ((files, ok), w) →
      Z.of_nat (length files) > maxBackup →
      is_Some (sort.Slice os.byName files !! 0%nat))
   ∧ ∃ log w', zapwrapper.NewLogger now filepath maxBackup logLevel w
               = os.Returned (log, w'))
  ∧ (maxBackup < 0 →
     (∃ e, os.fs w = os.Dir ∅ e) →
     zapwrapper.NewLogger now filepath maxBackup logLevel w
     = os.Panicked "index out of range [0] with length 0").
Proof.
  split.
  - intros Hk. split.
    + intros files ok _ Hgt. rewrite <- head_lookup.
      apply head_Slice_is_Some. intros ->. simpl in Hgt. lia.
    + destruct (NewLogger_returns now filepath maxBackup logLevel w Hk)
        as (w' & Hret & _). eauto.
  - intros Hk [e Hfs].
    assert (os.ReadDir w = os.Returned (([], match e with None => true | _ => false end), w))
      as Hread.
    { unfold os.ReadDir. rewrite Hfs. destruct e as [n|].
      - by rewrite map_to_list_empty, take_nil.
      - by rewrite map_to_list_empty. }
    rewrite (NewLogger_listed _ _ _ _ _ _ _ ltac:(by rewrite Hfs) Hread).
    simpl. destruct (Z.gtb_spec (Z.of_nat 0) maxBackup); [done|lia].
Qed.

Lemma C10_first_entry_in_bounds_witness :
  is_Some (sort.Slice os.byName
             [ {| os.Name := "a.log"; os.IsDir := false |};
               {| os.Name := "b.log"; os.IsDir := false |} ] !! 0%nat)
  ∧ zapwrapper.NewLogger 0 "./logs" (-1) zapcore.DebugLevel zapwrapper.emptyDir
    = os.Panicked "index out of range [0] with length 0".
Proof.
  split.
  - refine (proj1 (proj1 (C10_first_entry_in_bounds 0 "./logs" 1 zapcore.DebugLevel
             {| os.fs := os.Dir {[ "b.log" := os.RegularFile "";
                                   "a.log" := os.RegularFile "" ]} None;
                os.stdout := []; os.removeCalls := [] |}) _) _ true _ _).
    + lia.
    + by vm_compute.
    + simpl. lia.
  - apply (proj2 (C10_first_entry_in_bounds 0 "./logs" (-1) zapcore.DebugLevel
                    zapwrapper.emptyDir)); [lia|]. by exists None.
Defined.

(** * Further properties of the code *)

(** ** The factory call on its own *)

(** X1: a factory call that returns has written nothing to the console
    and has created or changed no entry, not even its own log file: every
    entry there afterwards was there before, unchanged, at most one entry
    is gone, and at most one path went to [os.Remove], that of an entry
    the listing returned. *)
Theorem X1_factory_only_removes now filepath maxBackup logLevel (w w' : os.World)
    (log : zap.Logger) :
  zapwrapper.NewLogger now filepath maxBackup logLevel w = os.Returned (log, w') →
  os.stdout w' = os.stdout w
  ∧ (∀ name, is_Some (fileOf name w') → fileOf name w' = fileOf name w)
  ∧ (zapwrapper.count w ≤ S (zapwrapper.count w'))%nat
  ∧ ((os.removeCalls w' = os.removeCalls w ∧ os.fs w' = os.fs w)
     ∨ ∃ files ok e,
         os.ReadDir w = os.Returned ((files, ok), w) ∧ e ∈ files
         ∧ os.removeCalls w'
           = (os.removeCalls w ++ [filepath +:+ "/" +:+ os.Name e])%list).
Proof.
  intros [->|(files & ok & e & Hread & He & ->)]%NewLogger_cases.
  { split; [done|]. split; [done|]. split; [lia|]. by left. }
  split; [apply afterRemove_stdout|].
  assert ((∀ name, is_Some (fileOf name (afterRemove filepath (os.Name e) w)) →
                   fileOf name (afterRemove filepath (os.Name e) w) = fileOf name w)
          ∧ (zapwrapper.count w ≤ S (zapwrapper.count (afterRemove filepath (os.Name e) w)))%nat)
    as [Hsame Hcount].
  { unfold fileOf, zapwrapper.count.
    destruct (afterRemove_fs_cases filepath (os.Name e) w)
      as [->|(m & err & Hfs & Hin & ->)]; [split; [done|destruct (os.fs w); lia]|].
    rewrite Hfs. split.
    - intros name [node Hnode]. rewrite Hnode.
      by apply lookup_delete_Some in Hnode as [_ ->].
    - rewrite map_size_delete. destruct (m !! os.Name e); unfold id; lia. }
  split; [done|]. split; [done|].
  right. exists files, ok, e. split; [done|]. split; [done|]. apply afterRemove_calls.
Qed.

Lemma X1_factory_only_removes_witness :
  os.stdout twoLogsPruned = os.stdout (inWorld (os.Dir twoLogs None))
  ∧ (∀ name, is_Some (fileOf name twoLogsPruned) →
             fileOf name twoLogsPruned = fileOf name (inWorld (os.Dir twoLogs None)))
  ∧ (zapwrapper.count (inWorld (os.Dir twoLogs None))
     ≤ S (zapwrapper.count twoLogsPruned))%nat
  ∧ ((os.removeCalls twoLogsPruned = os.removeCalls (inWorld (os.Dir twoLogs None))
      ∧ os.fs twoLogsPruned = os.fs (inWorld (os.Dir twoLogs None)))
     ∨ ∃ files ok e,
         os.ReadDir (inWorld (os.Dir twoLogs None))
         = os.Returned ((files, ok), inWorld (os.Dir twoLogs None))
         ∧ e ∈ files
         ∧ os.removeCalls twoLogsPruned
           = (os.removeCalls (inWorld (os.Dir twoLogs None))
                ++ ["./logs" +:+ "/" +:+ os.Name e])%list).
Proof.
  apply (X1_factory_only_removes 0 "./logs" 1 zapcore.DebugLevel
           (inWorld (os.Dir twoLogs None)) twoLogsPruned
           (handleOf 0 "./logs" zapcore.DebugLevel)).
  reflexivity.
Defined.


(** ** One session and its records *)

(** X3: whatever sits at the path, and with [maxBackup >= 0], every
    factory call of a run of sessions returns, and when the sessions are
    over the console has received the lines of the records written, all
    of them, in the order of the sessions and of their records, also when
    the file sink cannot write. The records written are those of
    [acceptedOf]: a session ends with its first record at Panic or Fatal
    level, which is written before the handle panics or exits. *)
Theorem X3_console_is_complete filepath maxBackup logLevel
    (cs : list zapwrapper.Call) (w : os.World) :
  0 ≤ maxBackup →
  ∃ w', zapwrapper.run filepath maxBackup logLevel cs w = os.Returned (tt, w')
        ∧ os.stdout w' = (os.stdout w ++ concat (consoleLinesOf logLevel <$> cs))%list.
Proof.
  intros Hk. revert w; induction cs as [|c cs IH]; intros w.
  { exists w. split; [done|]. cbn. by rewrite app_nil_r. }
  cbn [zapwrapper.run]. unfold mbind, os.M_bind.
  destruct (NewLogger_returns (zapwrapper.now c) filepath maxBackup logLevel w Hk)
    as (w1 & Hnew & Hout).
  rewrite (call_emitted _ _ _ _ _ _ _ Hnew).
  destruct (IH (emitted (zapwrapper.now c) logLevel (zapwrapper.now c)
                  (reached (zapwrapper.records c)) w1)) as (w' & -> & Hout').
  exists w'. split; [done|].
  rewrite Hout', emitted_stdout, Hout. cbn [fmap list_fmap concat].
  by rewrite app_assoc.
Qed.

Lemma X3_console_is_complete_witness :
  ∃ w', zapwrapper.run "./test_logs" 3 zapcore.DebugLevel testCalls (inWorld os.NotDir)
        = os.Returned (tt, w')
        ∧ os.stdout w'
          = (os.stdout (inWorld os.NotDir)
               ++ concat (consoleLinesOf zapcore.DebugLevel <$> testCalls))%list.
Proof.
  apply (X3_console_is_complete "./test_logs" 3 zapcore.DebugLevel testCalls
           (inWorld os.NotDir)).
  lia.
Defined.

(** X4: when nothing is at the path the factory returns without listing
    or pruning, whatever [maxBackup] is, negative included; the directory
    comes into being with the first record written and, when the session
    is over, holds one file, the file lines of the records written in
    order. With no record written the path stays missing. The session
    ends as [endOf] says: with the return of its last [Log], or with the
    panic or exit that follows its first record at Panic or Fatal
    level. *)
Theorem X4_missing_directory filepath maxBackup logLevel (c : zapwrapper.Call)
    (w : os.World) :
  os.fs w = os.Missing →
  ∃ w', zapwrapper.call filepath maxBackup logLevel c w
        = os.Returned (endOf (zapwrapper.records c), w')
        ∧ os.removeCalls w' = os.removeCalls w
        ∧ os.fs w'
          = match fileLinesOf logLevel c with
            | [] => os.Missing
            | _ => os.Dir {[ logName (zapwrapper.now c)
                             := os.RegularFile (String.concat "" (fileLinesOf logLevel c)) ]}
                     None
            end.
Proof.
  intros Hfs.
  pose proof (NewLogger_Missing (zapwrapper.now c) filepath maxBackup logLevel w Hfs)
    as Hnew.
  rewrite (call_emitted _ _ _ _ _ _ _ Hnew). eexists. split; [done|].
  split; [apply emitted_removeCalls|].
  rewrite emitted_fs, Hfs. apply written_all_Missing.
Qed.

Lemma X4_missing_directory_witness :
  ∃ w', zapwrapper.call "./test_logs" (-1) zapcore.DebugLevel (testCall 1710072000)
          (inWorld os.Missing)
        = os.Returned (endOf (zapwrapper.records (testCall 1710072000)), w')
        ∧ os.removeCalls w' = os.removeCalls (inWorld os.Missing)
        ∧ os.fs w'
          = match fileLinesOf zapcore.DebugLevel (testCall 1710072000) with
            | [] => os.Missing
            | _ => os.Dir {[ logName (zapwrapper.now (testCall 1710072000))
                             := os.RegularFile
                                  (String.concat ""
                                     (fileLinesOf zapcore.DebugLevel (testCall 1710072000))) ]}
                     None
            end.
Proof.
  apply (X4_missing_directory "./test_logs" (-1) zapcore.DebugLevel
           (testCall 1710072000) (inWorld os.Missing)).
  reflexivity.
Defined.

(** X5: on a directory that lists without error, with [maxBackup >= 0],
    a session whose file name is not taken leaves that file holding the
    file lines of the records it wrote, in order, and no such file when
    it wrote none; every other entry there afterwards is as it was. The
    session ends as [endOf] says. *)
Theorem X5_file_holds_the_accepted_lines filepath maxBackup logLevel
    (c : zapwrapper.Call) (w : os.World) (m : gmap string os.Node) :
  os.fs w = os.Dir m None →
  0 ≤ maxBackup →
  m !! logName (zapwrapper.now c) = None →
  ∃ w', zapwrapper.call filepath maxBackup logLevel c w
        = os.Returned (endOf (zapwrapper.records c), w')
        ∧ fileOf (logName (zapwrapper.now c)) w'
          = match fileLinesOf logLevel c with
            | [] => None
            | _ => Some (os.RegularFile (String.concat "" (fileLinesOf logLevel c)))
            end
        ∧ ∀ other, other ≠ logName (zapwrapper.now c) →
                   is_Some (fileOf other w') → fileOf other w' = fileOf other w.
Proof.
  intros Hfs Hk Hfresh.
  destruct (NewLogger_returns (zapwrapper.now c) filepath maxBackup logLevel w Hk)
    as (w1 & Hnew & _).
  rewrite (call_emitted _ _ _ _ _ _ _ Hnew). eexists. split; [done|].
  destruct (NewLogger_Dir_cases _ _ _ _ _ _ _ _ _ Hfs Hnew) as (m1 & Hfs1 & Hm1).
  assert (m1 !! logName (zapwrapper.now c) = None
          ∧ ∀ other, is_Some (m1 !! other) → m1 !! other = m !! other) as [Hfresh1 Hsame].
  { destruct Hm1 as [->|(name & _ & ->)]; [done|]. split.
    - apply lookup_delete_None. auto.
    - intros other [node Hnode]. rewrite Hnode.
      by apply lookup_delete_Some in Hnode as [_ ->]. }
  unfold fileOf. rewrite emitted_fs, Hfs1, Hfs.
  rewrite (written_all_fresh _ _ _ _ Hfresh1).
  destruct (fileLinesOf logLevel c) as [|d ds] eqn:Hlines.
  - split; [done|]. intros other _. apply Hsame.
  - split; [apply lookup_insert_eq|].
    intros other Hne. rewrite lookup_insert_ne by done. apply Hsame.
Qed.

Lemma X5_file_holds_the_accepted_lines_witness :
  ∃ w', zapwrapper.call "./logs" 1 zapcore.DebugLevel (testCall 1710072003)
          (inWorld (os.Dir twoLogs None))
        = os.Returned (endOf (zapwrapper.records (testCall 1710072003)), w')
        ∧ fileOf (logName (zapwrapper.now (testCall 1710072003))) w'
          = match fileLinesOf zapcore.DebugLevel (testCall 1710072003) with
            | [] => None
            | _ => Some (os.RegularFile
                           (String.concat ""
                              (fileLinesOf zapcore.DebugLevel (testCall 1710072003))))
            end
        ∧ ∀ other, other ≠ logName (zapwrapper.now (testCall 1710072003)) →
                   is_Some (fileOf other w') →
                   fileOf other w' = fileOf other (inWorld (os.Dir twoLogs None)).
Proof.
  apply (X5_file_holds_the_accepted_lines "./logs" 1 zapcore.DebugLevel
           (testCall 1710072003) (inWorld (os.Dir twoLogs None)) twoLogs eq_refl).
  - lia.
  - vm_compute. reflexivity.
Defined.

(** ** Counting the entries along a run *)

(** X6: on a readable directory of [N] removable entries, [n] calls that
    each write an accepted record to a file of a name not used before
    leave [max N (min (N + n) (maxBackup + 1))] entries: the directory
    fills up to [maxBackup + 1] and stays there, and a directory that
    holds more than [maxBackup + 1] entries never shrinks. *)
Theorem X6_count_after_calls_that_write filepath maxBackup logLevel
    (cs : list zapwrapper.Call) w m :
  os.fs w = os.Dir m None → allRemovable m → 0 ≤ maxBackup →
  Forall (writesSome logLevel) cs → NoDup (namesOf cs) →
  (∀ name, name ∈ namesOf cs → m !! name = None) →
  ∃ w', zapwrapper.run filepath maxBackup logLevel cs w = os.Returned (tt, w')
        ∧ Z.of_nat (zapwrapper.count w')
          = Z.max (Z.of_nat (size m))
              (Z.min (Z.of_nat (size m) + Z.of_nat (length cs)) (maxBackup + 1)).
Proof.
  intros Hfs Hall Hk Hsome Hdup Hfresh.
  destruct (run_fresh_count filepath maxBackup logLevel cs Hk w m Hfs Hall Hsome Hdup
              Hfresh) as (w' & m' & Hrun & Hfs' & _ & Hsize).
  exists w'. split; [done|]. unfold zapwrapper.count. by rewrite Hfs'.
Qed.

Lemma X6_count_after_calls_that_write_witness :
  ∃ w', zapwrapper.run "./logs" 0 zapcore.DebugLevel (drop 2 testCalls)
          (inWorld (os.Dir twoLogs None))
        = os.Returned (tt, w')
        ∧ Z.of_nat (zapwrapper.count w')
          = Z.max (Z.of_nat (size twoLogs))
              (Z.min (Z.of_nat (size twoLogs) + Z.of_nat (length (drop 2 testCalls)))
                 (0 + 1)).
Proof.
  apply (X6_count_after_calls_that_write "./logs" 0 zapcore.DebugLevel
           (drop 2 testCalls) (inWorld (os.Dir twoLogs None)) twoLogs eq_refl).
  - exact twoLogs_allRemovable.
  - lia.
  - apply Forall_drop. exact testCalls_writesSome.
  - unfold namesOf. rewrite fmap_drop. fold (namesOf testCalls).
    rewrite testCalls_names. cbn [drop]. repeat (apply NoDup_cons_2;
      [intros Hin; repeat (apply elem_of_cons in Hin as [Hin|Hin]; [done|]);
       by apply not_elem_of_nil in Hin|]).
    apply NoDup_nil_2.
  - unfold namesOf. rewrite fmap_drop. fold (namesOf testCalls).
    rewrite testCalls_names. cbn [drop]. intros name Hname.
    unfold twoLogs. repeat (apply elem_of_cons in Hname as [->|Hname]);
      [by rewrite lookup_insert_ne, lookup_singleton_ne by done..|].
    by apply not_elem_of_nil in Hname.
Defined.

(** X7: on a readable directory of [N] removable entries, [n] calls none
    of which writes an accepted record create nothing, and leave
    [max (min N maxBackup) (N - n)] entries: each call takes one entry
    away until [maxBackup] are left. *)
Theorem X7_calls_that_write_nothing_drain filepath maxBackup logLevel
    (cs : list zapwrapper.Call) w m :
  os.fs w = os.Dir m None → allRemovable m → 0 ≤ maxBackup →
  Forall (λ c, acceptedOf logLevel c = []) cs →
  ∃ w', zapwrapper.run filepath maxBackup logLevel cs w = os.Returned (tt, w')
        ∧ (∀ name, is_Some (fileOf name w') → fileOf name w' = fileOf name w)
        ∧ Z.of_nat (zapwrapper.count w')
          = Z.max (Z.min (Z.of_nat (size m)) maxBackup)
              (Z.of_nat (size m) - Z.of_nat (length cs)).
Proof.
  intros Hfs Hall Hk Hnone.
  destruct (run_silent_count filepath maxBackup logLevel cs Hk w m Hfs Hall Hnone)
    as (w' & m' & Hrun & Hfs' & Hsub & Hsize).
  exists w'. split; [done|]. unfold zapwrapper.count, fileOf. rewrite Hfs', Hfs.
  split; [|done]. intros name [node Hnode]. rewrite Hnode. symmetry.
  by eapply lookup_weaken.
Qed.

Lemma X7_calls_that_write_nothing_drain_witness :
  ∃ w', zapwrapper.run "./logs" 0 zapcore.ErrorLevel testCalls
          (inWorld (os.Dir twoLogs None))
        = os.Returned (tt, w')
        ∧ (∀ name, is_Some (fileOf name w') →
                   fileOf name w' = fileOf name (inWorld (os.Dir twoLogs None)))
        ∧ Z.of_nat (zapwrapper.count w')
          = Z.max (Z.min (Z.of_nat (size twoLogs)) 0)
              (Z.of_nat (size twoLogs) - Z.of_nat (length testCalls)).
Proof.
  apply (X7_calls_that_write_nothing_drain "./logs" 0 zapcore.ErrorLevel testCalls
           (inWorld (os.Dir twoLogs None)) twoLogs eq_refl).
  - exact twoLogs_allRemovable.
  - lia.
  - exact testCalls_silent.
Defined.

(** ** The order in which the files are pruned *)

(** X8: the byte-wise order of two file names, which is the order the
    pruning sorts by, is the lexicographic order of the fields of their
    timestamps as the layout writes them: day of the month first, then
    month, year of the century, hour, minute and second. *)
Theorem X8_name_order_is_field_order (t1 t2 : time.Time) :
  (logName t1 ?= logName t2)%string = lexCompare (stampFields t1) (stampFields t2).
Proof.
  pose proof (stampFields_bounds t1) as B1. pose proof (stampFields_bounds t2) as B2.
  unfold stampFields in *.
  repeat (apply Forall_cons in B1 as [? B1]). repeat (apply Forall_cons in B2 as [? B2]).
  unfold logName. rewrite !timestampOf_zeroPadded. unfold zeroPadded.
  rewrite !append_assoc. rewrite compare_app_same.
  repeat (rewrite (compare_app (pad2 _) (pad2 _)) by reflexivity;
          rewrite ?compare_app_same).
  rewrite !pad2_compare by done. rewrite compare_refl.
  cbn [lexCompare]. reflexivity.
Qed.

(** X9: for two readings of the clock on one calendar day the names
    order as the seconds do, and the two names are the same exactly when
    the readings fall in the same second. *)
Theorem X9_same_day_names_follow_the_clock (t1 t2 : time.Time) :
  sameDay t1 t2 →
  (slt (logName t1) (logName t2) ↔ time.Unix t1 < time.Unix t2)
  ∧ (logName t1 = logName t2 ↔ time.Unix t1 = time.Unix t2).
Proof.
  intros Hday.
  assert (sameDay t2 t1) as Hday' by (unfold sameDay in *; lia).
  assert (time.Unix t1 = time.Unix t2 → logName t1 = logName t2) as Heq.
  { intros Hu. unfold logName. by rewrite (timestampOf_Unix _ _ Hu). }
  split; split.
  - intros Hlt. destruct (Z.lt_trichotomy (time.Unix t1) (time.Unix t2)) as [?|[Hu|Hgt]];
      [done|..].
    + apply slt_ne in Hlt. by destruct (Hlt (Heq Hu)).
    + by destruct (slt_asym _ _ Hlt (logName_mono _ _ Hday' Hgt)).
  - by apply logName_mono.
  - intros Hname. destruct (Z.lt_trichotomy (time.Unix t1) (time.Unix t2)) as [Hlt|[?|Hgt]];
      [|done|].
    + by destruct (slt_ne _ _ (logName_mono _ _ Hday Hlt)).
    + by destruct (slt_ne _ _ (logName_mono _ _ Hday' Hgt)).
  - apply Heq.
Qed.

Lemma X9_same_day_names_follow_the_clock_witness :
  (slt (logName (1710072000 * time.Second)) (logName (1710072001 * time.Second))
   ↔ time.Unix (1710072000 * time.Second) < time.Unix (1710072001 * time.Second))
  ∧ (logName (1710072000 * time.Second) = logName (1710072001 * time.Second)
     ↔ time.Unix (1710072000 * time.Second) = time.Unix (1710072001 * time.Second)).
Proof.
  apply (X9_same_day_names_follow_the_clock (1710072000 * time.Second)
           (1710072001 * time.Second)).
  vm_compute. reflexivity.
Defined.

(** ** Which files a run keeps *)

(** X10: from an empty directory, with [maxBackup = k >= 0], after calls
    on one calendar day, at least one second apart, each writing an
    accepted record, the directory holds the log files of the last
    [k + 1] calls and nothing else, each file holding the accepted lines
    of its call: within a day the pruning is first in, first out. *)
Theorem X10_newest_files_survive filepath (k : Z) logLevel (cs : list zapwrapper.Call) :
  0 ≤ k → Forall (writesSome logLevel) cs → oneSecondApart cs → withinOneDay cs →
  ∃ w', zapwrapper.run filepath k logLevel cs zapwrapper.emptyDir = os.Returned (tt, w')
        ∧ os.fs w' = os.Dir (filesOfCalls logLevel (lastN (S (Z.to_nat k)) cs)) None
        ∧ ∀ name, hasEntry name w' = true
                  ↔ name ∈ namesOf (lastN (S (Z.to_nat k)) cs).
Proof.
  intros Hk Hsome Hsec Hday.
  pose proof (namesOf_sorted cs Hsec Hday) as Hsorted.
  destruct (run_survivors filepath k logLevel Hk cs [] zapwrapper.emptyDir)
    as (w' & Hrun & Hfs'); try done.
  exists w'. split; [done|]. cbn [app] in Hfs'. split; [done|].
  intros name. unfold hasEntry. rewrite Hfs', bool_decide_eq_true. split.
  - apply filesOfCalls_is_Some.
  - intros Hin. apply not_eq_None_Some. intros Hnone.
    apply not_elem_of_list_to_map in Hnone. by rewrite filesOfCalls_keys in Hnone.
Qed.

Lemma X10_newest_files_survive_witness :
  ∃ w', zapwrapper.run "./test_logs" 3 zapcore.DebugLevel testCalls zapwrapper.emptyDir
        = os.Returned (tt, w')
        ∧ os.fs w'
          = os.Dir (filesOfCalls zapcore.DebugLevel (lastN (S (Z.to_nat 3)) testCalls)) None
        ∧ ∀ name, hasEntry name w' = true
                  ↔ name ∈ namesOf (lastN (S (Z.to_nat 3)) testCalls).
Proof.
  apply (X10_newest_files_survive "./test_logs" 3 zapcore.DebugLevel testCalls).
  - lia.
  - exact testCalls_writesSome.
  - exact testCalls_oneSecondApart.
  - exact testCalls_withinOneDay.
Defined.

(** ** Two calls in one second *)

(** X11: two calls whose clock readings fall in the same second get the
    same file name. From an empty directory, each call writing an
    accepted record: with [maxBackup >= 1] the one file holds the lines
    of both calls, those of the first call first; with [maxBackup = 0]
    the second call removes the file of the first before it writes, and
    the file holds the lines of the second call only. *)
Theorem X11_two_calls_in_one_second filepath maxBackup logLevel
    (c1 c2 : zapwrapper.Call) :
  0 ≤ maxBackup →
  time.Unix (zapwrapper.now c1) = time.Unix (zapwrapper.now c2) →
  writesSome logLevel c1 → writesSome logLevel c2 →
  ∃ w', zapwrapper.run filepath maxBackup logLevel [c1; c2] zapwrapper.emptyDir
        = os.Returned (tt, w')
        ∧ os.fs w'
          = os.Dir {[ logName (zapwrapper.now c1) :=
                        os.RegularFile
                          (if maxBackup =? 0
                           then String.concat "" (fileLinesOf logLevel c2)
                           else String.concat "" (fileLinesOf logLevel c1)
                                +:+ String.concat "" (fileLinesOf logLevel c2)) ]}
              None.
Proof.
  intros Hk Hsec Hc1 Hc2.
  assert (logName (zapwrapper.now c2) = logName (zapwrapper.now c1)) as Hname.
  { unfold logName. by rewrite (timestampOf_Unix _ _ Hsec). }
  set (n := logName (zapwrapper.now c1)) in *.
  apply fileLinesOf_nil_iff in Hc1, Hc2.
  destruct (call_step filepath maxBackup logLevel c1 zapwrapper.emptyDir ∅ eq_refl)
    as (w1 & m1 & Hcall1 & Hm1 & Hfs1); [by intros ? ? ?%lookup_empty_Some|done|].
  destruct Hm1 as [[_ ->]|[Hgt _]]; [|rewrite map_size_empty in Hgt; lia].
  fold n in Hfs1. rewrite (written_all_fresh _ _ _ _ (lookup_empty n)) in Hfs1.
  destruct (fileLinesOf logLevel c1) as [|d1 ds1] eqn:Hds1; [done|].
  set (old := String.concat "" (d1 :: ds1)) in *.
  destruct (call_step filepath maxBackup logLevel c2 w1 _ Hfs1)
    as (w2 & m2 & Hcall2 & Hm2 & Hfs2); [by apply allRemovable_insert|done|].
  rewrite Hname in Hfs2. rewrite map_size_insert_None, map_size_empty in Hm2
    by apply lookup_empty.
  exists w2. split.
  { rewrite (run_cons _ _ _ _ _ _ _ _ Hcall1), (run_cons _ _ _ _ _ _ _ _ Hcall2). done. }
  rewrite Hfs2. destruct Hm2 as [[Hle ->]|(Hgt & oldest & [Hold _] & ->)].
  - rewrite (written_all_present n old) by apply lookup_insert_eq.
    rewrite insert_insert_eq, insert_empty, foldl_append.
    destruct (Z.eqb_spec maxBackup 0); [lia|done].
  - apply lookup_insert_is_Some' in Hold as [<-|Hold];
      [|by rewrite lookup_empty in Hold; destruct Hold].
    rewrite delete_insert_eq, delete_empty.
    rewrite (written_all_fresh _ _ _ _ (lookup_empty n)).
    destruct (fileLinesOf logLevel c2) as [|d2 ds2] eqn:Hds2; [done|].
    rewrite insert_empty. destruct (Z.eqb_spec maxBackup 0); [done|lia].
Qed.

Lemma X11_two_calls_in_one_second_witness :
  ∃ w', zapwrapper.run "./logs" 0 zapcore.DebugLevel
          [testCall 1710072000; testCall 1710072000] zapwrapper.emptyDir
        = os.Returned (tt, w')
        ∧ os.fs w'
          = os.Dir {[ logName (zapwrapper.now (testCall 1710072000)) :=
                        os.RegularFile
                          (if 0 =? 0
                           then String.concat ""
                                  (fileLinesOf zapcore.DebugLevel (testCall 1710072000))
                           else String.concat ""
                                  (fileLinesOf zapcore.DebugLevel (testCall 1710072000))
                                +:+ String.concat ""
                                      (fileLinesOf zapcore.DebugLevel
                                         (testCall 1710072000))) ]}
              None.
Proof.
  apply (X11_two_calls_in_one_second "./logs" 0 zapcore.DebugLevel
           (testCall 1710072000) (testCall 1710072000)).
  - lia.
  - reflexivity.
  - intros Habs. by vm_compute in Habs.
  - intros Habs. by vm_compute in Habs.
Defined.

(** ** The package's test *)

(** X12: started where the test directory does not exist, or exists and
    is empty, [TestLogger] passes whatever the clock reads: no reading,
    equal or not, in order or not, makes a check fail. Its five records
    are on the console, and the directory is gone when it returns. *)
Theorem X12_TestLogger_passes (clock : nat → time.Time) w :
  os.fs w = os.Missing ∨ os.fs w = os.Dir ∅ None →
  ∃ w', zapwrapper_test.TestLogger clock w = os.Returned (zapwrapper_test.Pass, w')
        ∧ os.fs w' = os.Missing
        ∧ os.stdout w' = (os.stdout w ++ testConsoleLines clock)%list.
Proof.
  intros Hstart.
  destruct (Mkdir_fresh w Hstart) as (w0 & Hmk & Hfs0 & Hout0).
  assert (regularOnly ∅) as Hreg0 by (by intros ? ? ?%lookup_empty_Some).
  destruct (loop_steps clock (seq 0 5) w0 ∅ Hfs0 Hreg0)
    as (w1 & m1 & Hloop & Hfs1 & Hreg1 & Hsize1 & Hout1).
  { rewrite map_size_empty. lia. }
  unfold zapwrapper_test.TestLogger, zapwrapper_test.setup, mbind, os.M_bind.
  rewrite Hmk. rewrite (NewLogger_keep _ _ _ _ _ _ Hfs0)
    by (rewrite map_size_empty; unfold zapwrapper_test.maxBackup; lia).
  rewrite Hloop, (checkDirectory_pass _ _ Hfs1 Hreg1 Hsize1).
  unfold zapwrapper_test.Sync, zapwrapper_test.teardown, zapwrapper_test.RemoveAll,
    mret, os.M_ret. rewrite Hfs1.
  eexists. split; [done|]. cbn [os.fs os.setFs os.stdout]. split; [done|].
  by rewrite Hout1, Hout0.
Qed.

Lemma X12_TestLogger_passes_witness :
  ∃ w', zapwrapper_test.TestLogger testClock (inWorld os.Missing)
        = os.Returned (zapwrapper_test.Pass, w')
        ∧ os.fs w' = os.Missing
        ∧ os.stdout w' = (os.stdout (inWorld os.Missing) ++ testConsoleLines testClock)%list.
Proof.
  apply (X12_TestLogger_passes testClock (inWorld os.Missing)).
  left. reflexivity.
Defined.

(** X13: started where the test directory's path holds something that is
    not a directory, [TestLogger] fails at its first check, the listing,
    whatever the clock reads. No log file is written, the five records
    are on the console all the same, and the deferred [teardown] removes
    what was at the path. *)
Theorem X13_TestLogger_fails_on_a_plain_file (clock : nat → time.Time) w :
  os.fs w = os.NotDir →
  ∃ w', zapwrapper_test.TestLogger clock w
        = os.Returned (zapwrapper_test.Fatal zapwrapper_test.ReadFailed, w')
        ∧ os.fs w' = os.Missing
        ∧ os.removeCalls w' = os.removeCalls w
        ∧ os.stdout w' = (os.stdout w ++ testConsoleLines clock)%list.
Proof.
  intros Hfs.
  destruct (loop_NotDir clock (seq 0 5) w Hfs) as (w1 & Hloop & Hfs1 & Hrm1 & Hout1).
  unfold zapwrapper_test.TestLogger, zapwrapper_test.setup, zapwrapper_test.Mkdir,
    mbind, os.M_bind.
  rewrite Hfs. rewrite (NewLogger_NotDir _ _ _ _ _ Hfs) by done.
  rewrite Hloop. unfold zapwrapper_test.checkDirectory, mbind, os.M_bind, os.ReadDir.
  rewrite Hfs1. cbn [negb]. unfold zapwrapper_test.Sync,
    zapwrapper_test.teardown, zapwrapper_test.RemoveAll, mret, os.M_ret. rewrite Hfs1.
  eexists. split; [done|]. cbn [os.fs os.setFs os.stdout os.removeCalls].
  by split.
Qed.

Lemma X13_TestLogger_fails_on_a_plain_file_witness :
  ∃ w', zapwrapper_test.TestLogger testClock (inWorld os.NotDir)
        = os.Returned (zapwrapper_test.Fatal zapwrapper_test.ReadFailed, w')
        ∧ os.fs w' = os.Missing
        ∧ os.removeCalls w' = os.removeCalls (inWorld os.NotDir)
        ∧ os.stdout w' = (os.stdout (inWorld os.NotDir) ++ testConsoleLines testClock)%list.
Proof.
  apply (X13_TestLogger_fails_on_a_plain_file testClock (inWorld os.NotDir)).
  reflexivity.
Defined.

(** ** Directories that never shrink *)

(** X14: when the entry with the least name is a subdirectory that is
    not empty and sorts before every log file, every removal the factory
    tries is of that subdirectory and fails. Whatever [maxBackup] is, [n]
    calls that each write an accepted record to a file of a new name
    leave every entry in place and [n] entries more. *)
Theorem X14_unremovable_first_entry_stops_pruning filepath maxBackup logLevel
    (d : string) (children : nat) (cs : list zapwrapper.Call) w m :
  os.fs w = os.Dir m None →
  m !! d = Some (os.SubDir (S children)) → least m d → slt d "logs_" →
  Forall (writesSome logLevel) cs → NoDup (namesOf cs) →
  (∀ name, name ∈ namesOf cs → m !! name = None) →
  ∃ w' (tries : nat),
    zapwrapper.run filepath maxBackup logLevel cs w = os.Returned (tt, w')
    ∧ zapwrapper.count w' = (size m + length cs)%nat
    ∧ (∀ name node, m !! name = Some node → fileOf name w' = Some node)
    ∧ os.removeCalls w'
      = (os.removeCalls w ++ replicate tries (filepath +:+ "/" +:+ d))%list.
Proof.
  intros Hfs Hsub Hleast Hd Hsome Hdup Hfresh.
  destruct (run_blocked filepath maxBackup logLevel d children cs Hd w m Hfs Hsub Hleast
              Hsome Hdup Hfresh) as (w' & m' & tries & Hrun & Hfs' & Hincl & Hsize & Hrm).
  exists w', tries. split; [done|]. unfold zapwrapper.count, fileOf. rewrite Hfs'.
  split; [done|]. split; [|done]. intros name node Hnode. by eapply lookup_weaken.
Qed.

Lemma X14_unremovable_first_entry_stops_pruning_witness :
  ∃ w' (tries : nat),
    zapwrapper.run "./logs" 1 zapcore.DebugLevel (drop 2 testCalls) withArchive
    = os.Returned (tt, w')
    ∧ zapwrapper.count w' = (size archiveAndLog + length (drop 2 testCalls))%nat
    ∧ (∀ name node, archiveAndLog !! name = Some node → fileOf name w' = Some node)
    ∧ os.removeCalls w'
      = (os.removeCalls withArchive ++ replicate tries ("./logs" +:+ "/" +:+ "archive"))%list.
Proof.
  apply (X14_unremovable_first_entry_stops_pruning "./logs" 1 zapcore.DebugLevel
           "archive" 1 (drop 2 testCalls) withArchive archiveAndLog eq_refl).
  - reflexivity.
  - exact archive_least.
  - reflexivity.
  - apply Forall_drop. exact testCalls_writesSome.
  - unfold namesOf. rewrite fmap_drop. fold (namesOf testCalls).
    rewrite testCalls_names. cbn [drop]. repeat (apply NoDup_cons_2;
      [intros Hin; repeat (apply elem_of_cons in Hin as [Hin|Hin]; [done|]);
       by apply not_elem_of_nil in Hin|]).
    apply NoDup_nil_2.
  - unfold namesOf. rewrite fmap_drop. fold (namesOf testCalls).
    rewrite testCalls_names. cbn [drop]. intros name Hname.
    unfold archiveAndLog. repeat (apply elem_of_cons in Hname as [->|Hname]);
      [by rewrite lookup_insert_ne, lookup_singleton_ne by done..|].
    by apply not_elem_of_nil in Hname.
Defined.

(** X15: when the listing of the directory breaks off with an error
    after at most [maxBackup] entries (a directory that cannot be read at
    all is the case of none), the factory never removes anything: [n]
    calls that each write an accepted record to a file of a new name
    leave every entry in place and [n] entries more, however many the
    directory holds. *)
Theorem X15_short_listing_stops_pruning filepath maxBackup logLevel (j : nat)
    (cs : list zapwrapper.Call) w m :
  os.fs w = os.Dir m (Some j) → Z.of_nat j ≤ maxBackup →
  Forall (writesSome logLevel) cs → NoDup (namesOf cs) →
  (∀ name, name ∈ namesOf cs → m !! name = None) →
  ∃ w', zapwrapper.run filepath maxBackup logLevel cs w = os.Returned (tt, w')
        ∧ zapwrapper.count w' = (size m + length cs)%nat
        ∧ (∀ name node, m !! name = Some node → fileOf name w' = Some node)
        ∧ os.removeCalls w' = os.removeCalls w.
Proof.
  intros Hfs Hj Hsome Hdup Hfresh.
  destruct (run_unlisted filepath maxBackup logLevel j cs Hj w m Hfs Hsome Hdup Hfresh)
    as (w' & m' & Hrun & Hfs' & Hincl & Hsize & Hrm).
  exists w'. split; [done|]. unfold zapwrapper.count, fileOf. rewrite Hfs'.
  split; [done|]. split; [|done]. intros name node Hnode. by eapply lookup_weaken.
Qed.

Lemma X15_short_listing_stops_pruning_witness :
  ∃ w', zapwrapper.run "./logs" 1 zapcore.DebugLevel (drop 2 testCalls) halfRead
        = os.Returned (tt, w')
        ∧ zapwrapper.count w' = (size twoLogs + length (drop 2 testCalls))%nat
        ∧ (∀ name node, twoLogs !! name = Some node → fileOf name w' = Some node)
        ∧ os.removeCalls w' = os.removeCalls halfRead.
Proof.
  apply (X15_short_listing_stops_pruning "./logs" 1 zapcore.DebugLevel 1
           (drop 2 testCalls) halfRead twoLogs eq_refl).
  - lia.
  - apply Forall_drop. exact testCalls_writesSome.
  - unfold namesOf. rewrite fmap_drop. fold (namesOf testCalls).
    rewrite testCalls_names. cbn [drop]. repeat (apply NoDup_cons_2;
      [intros Hin; repeat (apply elem_of_cons in Hin as [Hin|Hin]; [done|]);
       by apply not_elem_of_nil in Hin|]).
    apply NoDup_nil_2.
  - unfold namesOf. rewrite fmap_drop. fold (namesOf testCalls).
    rewrite testCalls_names. cbn [drop]. intros name Hname.
    unfold twoLogs. repeat (apply elem_of_cons in Hname as [->|Hname]);
      [by rewrite lookup_insert_ne, lookup_singleton_ne by done..|].
    by apply not_elem_of_nil in Hname.
Defined.

(** ** The count after any sessions *)

(** X16: on a readable directory of [N] removable entries, with
    [maxBackup >= 0], any [n] sessions (each a call of the factory and
    then the records of its handle, before the next call; any readings
    of the clock, any records, names met before or not) leave between
    [max (min N maxBackup) (N - n)] and
    [max N (min (N + n) (maxBackup + 1))] entries. A directory within
    [maxBackup + 1] entries stays within them, a larger one never
    grows, and no run takes a directory below [maxBackup] entries that
    held as many. Records through a handle after a later call of the
    factory are no part of a session. *)
Theorem X16_count_bounds_for_any_calls filepath maxBackup logLevel
    (cs : list zapwrapper.Call) w m :
  os.fs w = os.Dir m None → allRemovable m → 0 ≤ maxBackup →
  ∃ w', zapwrapper.run filepath maxBackup logLevel cs w = os.Returned (tt, w')
        ∧ Z.max (Z.min (Z.of_nat (size m)) maxBackup)
            (Z.of_nat (size m) - Z.of_nat (length cs))
          ≤ Z.of_nat (zapwrapper.count w')
          ≤ Z.max (Z.of_nat (size m))
              (Z.min (Z.of_nat (size m) + Z.of_nat (length cs)) (maxBackup + 1)).
Proof.
  intros Hfs Hall Hk.
  destruct (run_any_count filepath maxBackup logLevel cs Hk w m Hfs Hall)
    as (w' & m' & Hrun & Hfs' & _ & Hsize).
  exists w'. split; [done|]. unfold zapwrapper.count. by rewrite Hfs'.
Qed.

Lemma X16_count_bounds_for_any_calls_witness :
  ∃ w', zapwrapper.run "./logs" 1 zapcore.DebugLevel testCalls
          (inWorld (os.Dir twoLogs None))
        = os.Returned (tt, w')
        ∧ Z.max (Z.min (Z.of_nat (size twoLogs)) 1)
            (Z.of_nat (size twoLogs) - Z.of_nat (length testCalls))
          ≤ Z.of_nat (zapwrapper.count w')
          ≤ Z.max (Z.of_nat (size twoLogs))
              (Z.min (Z.of_nat (size twoLogs) + Z.of_nat (length testCalls)) (1 + 1)).
Proof.
  apply (X16_count_bounds_for_any_calls "./logs" 1 zapcore.DebugLevel testCalls
           (inWorld (os.Dir twoLogs None)) twoLogs eq_refl).
  - exact twoLogs_allRemovable.
  - lia.
Defined.

(** ** The level on the console *)

(** X17: although FATAL shares its colour with ERROR and PANIC with
    DPANIC, no two levels look the same on the console: over the whole
    range of [zapcore.Level], an [int8], the coloured level text of the
    console encoder is different for different levels. A level gets no
    colour code exactly when it is none of the seven named ones. *)
Theorem X17_console_levels_are_told_apart (l1 l2 : zapcore.Level) :
  -128 ≤ l1 ≤ 127 → -128 ≤ l2 ≤ 127 → l1 ≠ l2 →
  zapcore.EncodeLevel zapwrapper.consoleEncoderConfig l1
  ≠ zapcore.EncodeLevel zapwrapper.consoleEncoderConfig l2
  ∧ (zapwrapper.colorFor l1 = "" ↔ l1 < zapcore.DebugLevel ∨ zapcore.FatalLevel < l1).
Proof.
  intros H1 H2 Hne. split.
  - pose (enc := λ x, zapcore.EncodeLevel zapwrapper.consoleEncoderConfig (x - 128)).
    pose (P := λ a, forallb (λ b, (a =? b) || negb (String.eqb (enc a) (enc b)))
                      (Z.of_nat <$> seq 0 256)).
    assert (P (l1 + 128) = true) as HP.
    { apply (forall_below P 256); [by vm_compute|lia]. }
    unfold P in HP. pose proof (forall_below _ _ HP (l2 + 128) ltac:(lia)) as H12.
    cbv beta in H12. apply orb_true_iff in H12 as [Heq|Hdiff]; [lia|].
    unfold enc in Hdiff. replace (l1 + 128 - 128) with l1 in Hdiff by lia.
    replace (l2 + 128 - 128) with l2 in Hdiff by lia.
    intros Heq. rewrite Heq, String.eqb_refl in Hdiff. done.
  - pose (Q := λ a, Bool.eqb (String.eqb (zapwrapper.colorFor (a - 128)) "")
                      ((a - 128 <? -1) || (5 <? a - 128))).
    assert (Q (l1 + 128) = true) as HQ.
    { apply (forall_below Q 256); [by vm_compute|lia]. }
    unfold Q in HQ. replace (l1 + 128 - 128) with l1 in HQ by lia.
    apply Bool.eqb_prop in HQ. rewrite <- String.eqb_eq, HQ, orb_true_iff, !Z.ltb_lt.
    done.
Qed.

Lemma X17_console_levels_are_told_apart_witness :
  zapcore.EncodeLevel zapwrapper.consoleEncoderConfig zapcore.ErrorLevel
  ≠ zapcore.EncodeLevel zapwrapper.consoleEncoderConfig zapcore.FatalLevel
  ∧ (zapwrapper.colorFor zapcore.ErrorLevel = ""
     ↔ zapcore.ErrorLevel < zapcore.DebugLevel ∨ zapcore.FatalLevel < zapcore.ErrorLevel).
Proof.
  apply (X17_console_levels_are_told_apart zapcore.ErrorLevel zapcore.FatalLevel).
  - unfold zapcore.ErrorLevel. lia.
  - unfold zapcore.FatalLevel. lia.
  - unfold zapcore.ErrorLevel, zapcore.FatalLevel. lia.
Defined.
